(** * Availability computation and cache consistency of the events module

    A shallow embedding of [backend/events/utils.py] (the
    [AvailabilityCalculator] class and [invalidate_availability_cache]),
    of [apps/availability/signals.py] and of [apps/users/signals.py],
    followed by the properties of the specification that concern them.

    Conventions of the embedding.
    - A [date] is its proleptic Gregorian ordinal ([date.toordinal()]), a
      [datetime] is a count of minutes on a wall clock:
      [ordinal * 1440 + minute of the day].  All the datetimes the
      calculator builds are whole minutes.
    - [tz.localize] gives a wall-clock datetime the UTC offset of the zone at
      that time, arithmetic with a [timedelta] keeps the offset of its
      operand, and aware datetimes are compared as instants.  The datetimes
      of one date of the calculator all descend from the localized start of
      that date's window, so they are written on the wall clock of its
      offset; the localized end of the window, which has an offset of its
      own, is brought to that wall clock before the comparison.  The
      bookings' instants are read on the same wall clock.
    - Python's [datetime] arithmetic raises [OverflowError] outside the
      years 1..9999; this is kept, and it is what makes every loop of the
      calculator end.
    - Tables of the ORM are lists of rows; foreign keys are primary keys.
    - [timezone.now()] reads a clock held in the world, in microseconds
      since 1970-01-01 UTC; every reading advances it to the next tick.
    - What [models.py] and pytz hold and the code only uses (the offsets of
      the zones, the declaration of the cache's column of slots) is part of
      the world the code runs in. *)

From Stdlib Require Import ZArith String List Bool Lia.
From Stdlib Require Import Sorted.
Import ListNotations.
Open Scope Z_scope.

(** ** Exceptions and outcomes *)

Inductive exn : Type :=
| OverflowError
| ValueError
| UnknownTimeZoneError (name : string)
| RelatedObjectDoesNotExist
| DoesNotExist
| MultipleObjectsReturned
| TypeError.

(** The outcome of a computation: a value, a raised exception, or the
    exhaustion of the fuel given to a [while] loop (which is no behaviour of
    the program and is never caught by an [except] clause). *)
Inductive res (A : Type) : Type :=
| Ret (a : A)
| Raise (e : exn)
| OutOfFuel.
Arguments Ret {A} a.
Arguments Raise {A} e.
Arguments OutOfFuel {A}.

Definition rbind {A B : Type} (m : res A) (k : A -> res B) : res B :=
  match m with
  | Ret a => k a
  | Raise e => Raise e
  | OutOfFuel => OutOfFuel
  end.

Declare Scope res_scope.
Delimit Scope res_scope with res.
Notation "x <- m ;; k" := (rbind m (fun x => k))
  (at level 61, m at next level, right associativity) : res_scope.

(** ** Python dates and datetimes *)

Module Py.

Definition date : Type := Z.
Definition datetime : Type := Z.

Definition MINORDINAL : Z := 1.
Definition MAXORDINAL : Z := 3652059.   (* date(9999, 12, 31).toordinal() *)

Definition date_ok (d : date) : Prop := MINORDINAL <= d <= MAXORDINAL.

Definition ordinal_in_range (d : Z) : bool :=
  (MINORDINAL <=? d) && (d <=? MAXORDINAL).

(** [d + timedelta(days=n)] *)
Definition date_add_days (d : date) (n : Z) : res date :=
  if ordinal_in_range (d + n) then Ret (d + n) else Raise OverflowError.

(** [datetime.combine(d, datetime.min.time().replace(hour=h))] *)
Definition combine_hour (d : date) (h : Z) : res datetime :=
  if (0 <=? h) && (h <=? 23) then Ret (d * 1440 + h * 60)
  else Raise ValueError.

(** [dt.date()] *)
Definition date_of (dt : datetime) : date := dt / 1440.

(** The datetimes of the years 1..9999, at the resolution of a minute *)
Definition MINMINUTE : Z := MINORDINAL * 1440.
Definition MAXMINUTE : Z := MAXORDINAL * 1440 + 1439.

Definition datetime_ok (dt : datetime) : Prop := MINMINUTE <= dt <= MAXMINUTE.

(** [dt + timedelta(minutes=m)] *)
Definition add_minutes (dt : datetime) (m : Z) : res datetime :=
  if ordinal_in_range (date_of (dt + m)) then Ret (dt + m)
  else Raise OverflowError.

(** The instants of the clock, in microseconds since 1970-01-01 UTC:
    [datetime.min] and [datetime.max] on that axis. *)
Definition EPOCH_ORDINAL : Z := 719163.   (* date(1970, 1, 1).toordinal() *)
Definition MININSTANT : Z := (MINORDINAL - EPOCH_ORDINAL) * 86400000000.
Definition MAXINSTANT : Z := (MAXORDINAL - EPOCH_ORDINAL + 1) * 86400000000 - 1.

(** [t + timedelta(seconds=n)] on an instant of the clock *)
Definition add_seconds (t : Z) (n : Z) : res Z :=
  if (MININSTANT <=? t + n * 1000000) && (t + n * 1000000 <=? MAXINSTANT)
  then Ret (t + n * 1000000)
  else Raise OverflowError.

(** [x or default] on an integer attribute that may be [None] *)
Definition int_or (x : option Z) (default : Z) : Z :=
  match x with
  | Some v => if v =? 0 then default else v
  | None => default
  end.

(** [getattr(obj, name, default)], [None] standing for a missing attribute *)
Definition getattr_default {A : Type} (x : option A) (default : A) : A :=
  match x with
  | Some v => v
  | None => default
  end.

(** What a function hands back to its caller: a function without a
    [return] statement hands back [None]. *)
Inductive value : Type :=
| PyNone
| PyInt (n : Z).

End Py.

(** ** Data model (the rows of [models.py] that the engine reads) *)

Record User : Type := {
  user_id : Z;
  email : string
}.

Record Profile : Type := {
  profile_pk : Z;
  profile_user : User;
  timezone_name : string;
  reasonable_hours_start : option Z;
  reasonable_hours_end : option Z
}.

Record EventType : Type := {
  event_type_id : Z;
  duration : Z;
  slot_interval_minutes : option Z;
  max_attendees : Z;
  recurrence_type : string;
  (** methods of the model whose bodies are in [models.py] *)
  can_book_on_date : Py.date -> bool;
  get_rrule_object : option string
}.

Record Booking : Type := {
  booking_organizer : Z;
  booking_event_type : Z;
  booking_status : string;
  booking_start_time : Py.datetime;
  booking_end_time : Py.datetime;
  booking_attendee_count : Z
}.

Record RecurringEventException : Type := {
  exception_event_type : Z;
  exception_date : Py.date;
  exception_type : string;
  new_start_time : option Py.datetime
}.

Record Slot : Type := {
  start_time : Py.datetime;
  end_time : Py.datetime;
  duration_minutes : Z;
  available_spots : Z
}.

Record EventTypeAvailabilityCache : Type := {
  cache_organizer : Z;
  cache_event_type : Z;
  cache_date : Py.date;
  cache_timezone_name : string;
  cache_attendee_count : Z;
  available_slots : list Slot;
  computed_at : Z;
  expires_at : Z;
  is_dirty : bool;
  computation_time_ms : Z
}.

(** The [instance] of [availability.BlockedTime] as the signal handler reads
    it, through [getattr(..., None)]. *)
Record BlockedTime : Type := {
  blocked_start_date : option Py.date;
  blocked_end_date : option Py.date;
  blocked_organizer : option User
}.

Inductive LogRecord : Type :=
| InfoInvalidated (count : nat) (organizer_email : string)
| ErrorCalculatingAvailability (e : exn)
| ErrorCachingAvailability (e : exn).

(** The world the code runs in: the tables, the clock and the log, and
    what the code takes from pytz and from [models.py]:
    - [utcoffset name dt] is the UTC offset, in minutes, that
      [pytz.timezone(name).localize(dt)] gives the wall-clock datetime [dt];
    - [slots_column] is the column [available_slots] of the cache table,
      whose declaration is in [models.py]: what the column gives back for a
      list of slots written to it, [None] when it cannot store the list (the
      write then raises [TypeError]). *)
Record World : Type := {
  cache_table : list EventTypeAvailabilityCache;
  booking_table : list Booking;
  exception_table : list RecurringEventException;
  profile_table : list Profile;
  clock : nat -> Z;
  ticks : nat;
  log : list LogRecord;
  utcoffset : string -> Py.datetime -> Z;
  slots_column : list Slot -> option (list Slot)
}.

Definition set_cache_table (w : World) (t : list EventTypeAvailabilityCache) : World :=
  {| cache_table := t;
     booking_table := booking_table w;
     exception_table := exception_table w;
     profile_table := profile_table w;
     clock := clock w;
     ticks := ticks w;
     log := log w;
     utcoffset := utcoffset w;
     slots_column := slots_column w |}.

Definition logger (r : LogRecord) (w : World) : World :=
  {| cache_table := cache_table w;
     booking_table := booking_table w;
     exception_table := exception_table w;
     profile_table := profile_table w;
     clock := clock w;
     ticks := ticks w;
     log := log w ++ [r];
     utcoffset := utcoffset w;
     slots_column := slots_column w |}.

(** [timezone.now()] *)
Definition timezone_now (w : World) : Z * World :=
  (clock w (ticks w),
   {| cache_table := cache_table w;
      booking_table := booking_table w;
      exception_table := exception_table w;
      profile_table := profile_table w;
      clock := clock w;
      ticks := S (ticks w);
      log := log w;
      utcoffset := utcoffset w;
      slots_column := slots_column w |}).

(** [Model.objects.get(...)] on the rows that pass the filter *)
Definition objects_get {A : Type} (rows : list A) : res A :=
  match rows with
  | [] => Raise DoesNotExist
  | [r] => Ret r
  | _ :: _ :: _ => Raise MultipleObjectsReturned
  end.

(** [Model.objects.get(pk=...)]: the primary key is unique, so at most one
    row passes the filter. *)
Definition objects_get_pk {A : Type} (has_pk : A -> bool) (rows : list A) : res A :=
  match find has_pk rows with
  | Some r => Ret r
  | None => Raise DoesNotExist
  end.

(** The result dictionary of [get_available_slots]; a key that a branch does
    not set is [None]. *)
Record PerformanceMetrics : Type := {
  metric_computation_time_ms : Z;
  metric_cache_used : bool;
  metric_cached_at : option Z
}.

Record AvailabilityResult : Type := {
  slots : list Slot;
  total_slots : Z;
  cache_hit : bool;
  error : option exn;
  performance_metrics : PerformanceMetrics
}.

(** ** The calculator *)

Record AvailabilityCalculator : Type := {
  organizer : User;
  event_type : EventType;
  calculator_timezone_name : string
}.

(** Modelled from the spec: [EventType.is_group_event] is a method of
    [models.py]; the specification calls an event type a group event when
    its capacity is above one, and single-attendee when it is one. *)
Definition is_group_event (et : EventType) : bool := 1 <? max_attendees et.

(** [sum(...)] over a generator of integers *)
Definition py_sum (l : list Z) : Z := fold_left Z.add l 0.

Section Engine.

(** The names known to pytz, and the Django setting that may be unset. *)
Variable pytz_known : string -> bool.
Variable AVAILABILITY_CACHE_TIMEOUT : option Z.

Local Open Scope res_scope.

Definition pytz_timezone (name : string) : res string :=
  if pytz_known name then Ret name else Raise (UnknownTimeZoneError name).

(** [organizer.profile], the reverse side of the one-to-one relation *)
Definition organizer_profile (w : World) (u : User) : res Profile :=
  match filter (fun p => user_id (profile_user p) =? user_id u) (profile_table w) with
  | [] => Raise RelatedObjectDoesNotExist
  | p :: _ => Ret p
  end.

(** *** [invalidate_availability_cache] *)

Definition invalidation_filter (organizer : User)
    (date_start date_end : option Py.date) (e : EventTypeAvailabilityCache) : bool :=
  (cache_organizer e =? user_id organizer)
  && match date_start with Some d => d <=? cache_date e | None => true end
  && match date_end with Some d => cache_date e <=? d | None => true end.

Definition mark_dirty (e : EventTypeAvailabilityCache) : EventTypeAvailabilityCache :=
  {| cache_organizer := cache_organizer e;
     cache_event_type := cache_event_type e;
     cache_date := cache_date e;
     cache_timezone_name := cache_timezone_name e;
     cache_attendee_count := cache_attendee_count e;
     available_slots := available_slots e;
     computed_at := computed_at e;
     expires_at := expires_at e;
     is_dirty := true;
     computation_time_ms := computation_time_ms e |}.

Definition invalidate_availability_cache (organizer : User)
    (date_start date_end : option Py.date) (w : World) : Py.value * World :=
  let cache_entries := invalidation_filter organizer date_start date_end in
  (* cache_entries.update(is_dirty=True) *)
  let w1 := set_cache_table w
              (map (fun e => if cache_entries e then mark_dirty e else e)
                   (cache_table w)) in
  (* cache_entries.count() runs the query again, after the update *)
  let count := length (filter cache_entries (cache_table w1)) in
  let w2 := logger (InfoInvalidated count (email organizer)) w1 in
  (Py.PyNone, w2).

(** *** [AvailabilityCalculator._is_slot_available] *)

Definition conflicting_bookings (self : AvailabilityCalculator)
    (start_time end_time : Py.datetime) (w : World) : list Booking :=
  filter (fun b =>
            (booking_organizer b =? user_id (organizer self))
            && (booking_status b =? "confirmed")%string
            && (booking_start_time b <? end_time)
            && (start_time <? booking_end_time b))
         (booking_table w).

Definition _is_slot_available (self : AvailabilityCalculator)
    (start_time end_time : Py.datetime) (attendee_count : Z) (w : World) : bool :=
  let conflicting := conflicting_bookings self start_time end_time w in
  if is_group_event (event_type self) then
    let total_attendees := py_sum (map booking_attendee_count conflicting) in
    total_attendees + attendee_count <=? max_attendees (event_type self)
  else
    match conflicting with [] => true | _ :: _ => false end.

(** *** [AvailabilityCalculator._get_daily_slots] *)

(** [tz.localize(end_time)], read on the wall clock of the offset that
    [tz.localize(current_time)] has: the same instant, [end_time] minus its
    own offset, put forward by the offset of [current_time]. *)
Definition localized_end (w : World) (tz : string) (current_time end_time : Py.datetime)
    : Py.datetime :=
  end_time - utcoffset w tz end_time + utcoffset w tz current_time.

Fixpoint _get_daily_slots_loop (self : AvailabilityCalculator)
    (attendee_count slot_interval : Z) (w : World) (fuel : nat)
    (current_time end_time : Py.datetime) (slots : list Slot) : res (list Slot) :=
  match fuel with
  | O => OutOfFuel
  | S fuel' =>
      bound <- Py.add_minutes current_time (duration (event_type self)) ;;
      if bound <=? end_time then
        slot_end_time <- Py.add_minutes current_time (duration (event_type self)) ;;
        let slots' :=
          if _is_slot_available self current_time slot_end_time attendee_count w then
            slots ++ [ {| start_time := current_time;
                          end_time := slot_end_time;
                          duration_minutes := duration (event_type self);
                          available_spots := max_attendees (event_type self) |} ]
          else slots in
        next <- Py.add_minutes current_time slot_interval ;;
        _get_daily_slots_loop self attendee_count slot_interval w fuel'
          next end_time slots'
      else Ret slots
  end.

Definition _get_daily_slots (self : AvailabilityCalculator)
    (date : Py.date) (attendee_count : Z) (fuel : nat) (w : World) : res (list Slot) :=
  profile <- organizer_profile w (organizer self) ;;
  let start_hour := Py.getattr_default (reasonable_hours_start profile) 9 in
  let end_hour := Py.getattr_default (reasonable_hours_end profile) 17 in
  let slot_interval := Py.int_or (slot_interval_minutes (event_type self)) 30 in
  current_time <- Py.combine_hour date start_hour ;;
  end_time <- Py.combine_hour date end_hour ;;
  tz <- pytz_timezone (calculator_timezone_name self) ;;
  (* current_time = tz.localize(current_time); end_time = tz.localize(end_time) *)
  let end_time := localized_end w tz current_time end_time in
  _get_daily_slots_loop self attendee_count slot_interval w fuel
    current_time end_time [].

(** *** [AvailabilityCalculator._calculate_availability] *)

Fixpoint _calculate_availability_loop (self : AvailabilityCalculator)
    (attendee_count : Z) (w : World) (daily_fuel fuel : nat)
    (current_date end_date : Py.date) (slots : list Slot) : res (list Slot) :=
  match fuel with
  | O => OutOfFuel
  | S fuel' =>
      if current_date <=? end_date then
        slots' <- (if can_book_on_date (event_type self) current_date then
                     daily_slots <- _get_daily_slots self current_date attendee_count daily_fuel w ;;
                     Ret (slots ++ daily_slots)
                   else Ret slots) ;;
        next <- Py.date_add_days current_date 1 ;;
        _calculate_availability_loop self attendee_count w daily_fuel fuel'
          next end_date slots'
      else Ret slots
  end.

Definition _calculate_availability (self : AvailabilityCalculator)
    (start_date end_date : Py.date) (attendee_count : Z) (fuel : nat) (w : World)
    : res (list Slot) :=
  _calculate_availability_loop self attendee_count w fuel fuel start_date end_date [].

(** *** Recurrence *)

(** Every branch of [_apply_recurring_logic] returns [slots]. *)
Definition _apply_recurring_logic (self : AvailabilityCalculator)
    (slots : list Slot) (start_date end_date : Py.date) : list Slot :=
  match get_rrule_object (event_type self) with
  | None => slots
  | Some rrule => slots
  end.

Definition apply_exception (slots : list Slot) (exception : RecurringEventException)
    : list Slot :=
  if (exception_type exception =? "cancelled")%string then
    filter (fun slot =>
              negb (Py.date_of (start_time slot) =? exception_date exception))
           slots
  else if (exception_type exception =? "rescheduled")%string
          && match new_start_time exception with Some _ => true | None => false end
  then slots   (* pass *)
  else slots.

Definition exceptions_in_range (self : AvailabilityCalculator)
    (start_date end_date : Py.date) (w : World) : list RecurringEventException :=
  filter (fun x =>
            (exception_event_type x =? event_type_id (event_type self))
            && (start_date <=? exception_date x)
            && (exception_date x <=? end_date))
         (exception_table w).

Definition _apply_recurring_exceptions (self : AvailabilityCalculator)
    (slots : list Slot) (start_date end_date : Py.date) (w : World) : list Slot :=
  if (recurrence_type (event_type self) =? "none")%string then slots
  else
    fold_left apply_exception (exceptions_in_range self start_date end_date w) slots.

(** *** Cache read and write *)

Definition cache_key_matches (self : AvailabilityCalculator)
    (start_date : Py.date) (attendee_count : Z) (e : EventTypeAvailabilityCache) : bool :=
  (cache_organizer e =? user_id (organizer self))
  && (cache_event_type e =? event_type_id (event_type self))
  && (cache_date e =? start_date)
  && (cache_timezone_name e =? calculator_timezone_name self)%string
  && (cache_attendee_count e =? attendee_count).

Definition _get_cached_availability (self : AvailabilityCalculator)
    (start_date end_date : Py.date) (attendee_count : Z) (w : World)
    : res (option AvailabilityResult) * World :=
  let (now, w1) := timezone_now w in
  match objects_get
          (filter (fun e => cache_key_matches self start_date attendee_count e
                            && negb (is_dirty e)
                            && (now <? expires_at e))
                  (cache_table w1)) with
  | Ret cache_entry =>
      (Ret (Some {| slots := available_slots cache_entry;
                    total_slots := Z.of_nat (length (available_slots cache_entry));
                    cache_hit := true;
                    error := None;
                    performance_metrics :=
                      {| metric_computation_time_ms := computation_time_ms cache_entry;
                         metric_cache_used := true;
                         metric_cached_at := Some (computed_at cache_entry) |} |}),
       w1)
  | Raise DoesNotExist => (Ret None, w1)
  | Raise e => (Raise e, w1)
  | OutOfFuel => (OutOfFuel, w1)
  end.

Definition _cache_availability_result (self : AvailabilityCalculator)
    (start_date end_date : Py.date) (attendee_count : Z)
    (result : AvailabilityResult) (computation_time : Z) (w : World) : World :=
  let cache_timeout := Py.getattr_default AVAILABILITY_CACHE_TIMEOUT 3600 in
  let (now1, w1) := timezone_now w in
  match Py.add_seconds now1 cache_timeout with
  | Ret expires =>
      let (now2, w2) := timezone_now w1 in
      let fresh (stored : list Slot) :=
        {| cache_organizer := user_id (organizer self);
           cache_event_type := event_type_id (event_type self);
           cache_date := start_date;
           cache_timezone_name := calculator_timezone_name self;
           cache_attendee_count := attendee_count;
           available_slots := stored;
           computed_at := now2;
           expires_at := expires;
           is_dirty := false;
           computation_time_ms := computation_time |} in
      (* update_or_create: get by the key, then update or create; the row is
         written only if the column takes the slots *)
      match objects_get (filter (cache_key_matches self start_date attendee_count)
                                (cache_table w2)) with
      | Ret _ =>
          match slots_column w2 (slots result) with
          | Some stored =>
              set_cache_table w2
                (map (fun e => if cache_key_matches self start_date attendee_count e
                               then fresh stored else e)
                     (cache_table w2))
          | None => logger (ErrorCachingAvailability TypeError) w2
          end
      | Raise DoesNotExist =>
          match slots_column w2 (slots result) with
          | Some stored => set_cache_table w2 (cache_table w2 ++ [fresh stored])
          | None => logger (ErrorCachingAvailability TypeError) w2
          end
      | Raise e => logger (ErrorCachingAvailability e) w2
      | OutOfFuel => w2
      end
  | Raise e => logger (ErrorCachingAvailability e) w1
  | OutOfFuel => w1
  end.

(** *** [AvailabilityCalculator.get_available_slots] *)

Definition compute_slots (self : AvailabilityCalculator)
    (start_date end_date : Py.date) (attendee_count : Z) (fuel : nat) (w : World)
    : res (list Slot) :=
  slots <- _calculate_availability self start_date end_date attendee_count fuel w ;;
  let slots1 :=
    if negb (recurrence_type (event_type self) =? "none")%string
    then _apply_recurring_logic self slots start_date end_date
    else slots in
  Ret (_apply_recurring_exceptions self slots1 start_date end_date w).

(** The time between two readings of the clock, in milliseconds.  The
    source goes through a float ([total_seconds() * 1000]); its rounding
    is left out. *)
Definition elapsed_ms (t0 t1 : Z) : Z := Z.quot (t1 - t0) 1000.

Definition get_available_slots (self : AvailabilityCalculator)
    (start_date end_date : Py.date) (attendee_count : Z) (use_cache : bool)
    (fuel : nat) (w : World) : res AvailabilityResult * World :=
  let (t0, w0) := timezone_now w in
  let body : res AvailabilityResult * World :=
    let (cached, w1) :=
      if use_cache
      then _get_cached_availability self start_date end_date attendee_count w0
      else (Ret None, w0) in
    match cached with
    | Ret (Some cached_result) => (Ret cached_result, w1)
    | Ret None =>
        match compute_slots self start_date end_date attendee_count fuel w1 with
        | Ret computed =>
            let (t1, w2) := timezone_now w1 in
            let computation_time := elapsed_ms t0 t1 in
            let result :=
              {| slots := computed;
                 total_slots := Z.of_nat (length computed);
                 cache_hit := false;
                 error := None;
                 performance_metrics :=
                   {| metric_computation_time_ms := computation_time;
                      metric_cache_used := use_cache;
                      metric_cached_at := None |} |} in
            let w3 :=
              if use_cache
              then _cache_availability_result self start_date end_date
                     attendee_count result computation_time w2
              else w2 in
            (Ret result, w3)
        | Raise e => (Raise e, w1)
        | OutOfFuel => (OutOfFuel, w1)
        end
    | Raise e => (Raise e, w1)
    | OutOfFuel => (OutOfFuel, w1)
    end in
  match body with
  | (Ret result, w') => (Ret result, w')
  | (Raise e, w') =>
      let w'' := logger (ErrorCalculatingAvailability e) w' in
      let (t1, w''') := timezone_now w'' in
      (Ret {| slots := [];
              total_slots := 0;
              cache_hit := false;
              error := Some e;
              performance_metrics :=
                {| metric_computation_time_ms := elapsed_ms t0 t1;
                   metric_cache_used := use_cache;
                   metric_cached_at := None |} |},
       w''')
  | (OutOfFuel, w') => (OutOfFuel, w')
  end.

(** *** Signal handlers *)

(** [apps/availability/signals.py] *)
Definition _invalidate_cache_for_blocked_time (blocked_time : BlockedTime) (w : World)
    : World :=
  let start_date := blocked_start_date blocked_time in
  let end_date := blocked_end_date blocked_time in
  match blocked_organizer blocked_time with
  | Some organizer => snd (invalidate_availability_cache organizer start_date end_date w)
  | None => w
  end.

(** [kwargs.get('update_fields')] is [None] or a collection of field names;
    an empty collection is falsy. *)
Definition truthy_fields (update_fields : option (list string)) : bool :=
  match update_fields with
  | Some (_ :: _) => true
  | _ => false
  end.

Definition field_in (name : string) (update_fields : option (list string)) : bool :=
  match update_fields with
  | Some l => existsb (String.eqb name) l
  | None => false
  end.

(** [apps/users/signals.py] *)
Definition handle_profile_timezone_change (instance : Profile)
    (update_fields : option (list string)) (w : World) : World :=
  if truthy_fields update_fields && field_in "timezone_name" update_fields then
    snd (invalidate_availability_cache (profile_user instance) None None w)
  else if negb (truthy_fields update_fields) then
    match objects_get_pk (fun p => profile_pk p =? profile_pk instance)
                         (profile_table w) with
    | Ret old_instance =>
        if negb (timezone_name old_instance =? timezone_name instance)%string then
          snd (invalidate_availability_cache (profile_user instance) None None w)
        else w
    | _ => w   (* except Profile.DoesNotExist: pass *)
    end
  else w.

End Engine.

(** ** Reading the specification *)

(** The entries that [invalidate(organizer, date_start?, date_end?)] is
    meant to reach. *)
Definition in_invalidation_scope (organizer : User) (date_start date_end : option Py.date)
    (e : EventTypeAvailabilityCache) : Prop :=
  cache_organizer e = user_id organizer
  /\ (forall d, date_start = Some d -> d <= cache_date e)
  /\ (forall d, date_end = Some d -> cache_date e <= d).

(** Two cache rows that agree on everything but the dirty flag. *)
Definition same_but_dirty_flag (e e' : EventTypeAvailabilityCache) : Prop :=
  cache_organizer e' = cache_organizer e
  /\ cache_event_type e' = cache_event_type e
  /\ cache_date e' = cache_date e
  /\ cache_timezone_name e' = cache_timezone_name e
  /\ cache_attendee_count e' = cache_attendee_count e
  /\ available_slots e' = available_slots e
  /\ computed_at e' = computed_at e
  /\ expires_at e' = expires_at e
  /\ computation_time_ms e' = computation_time_ms e.

(** A confirmed booking of the calculator's organizer that overlaps the
    candidate interval under the half-open test. *)
Definition overlapping_confirmed (self : AvailabilityCalculator)
    (candidate_start candidate_end : Py.datetime) (b : Booking) : Prop :=
  booking_status b = "confirmed"%string
  /\ booking_organizer b = user_id (organizer self)
  /\ booking_start_time b < candidate_end
  /\ booking_end_time b > candidate_start.

Definition overlapping_confirmedb (self : AvailabilityCalculator)
    (candidate_start candidate_end : Py.datetime) (b : Booking) : bool :=
  (booking_status b =? "confirmed")%string
  && (booking_organizer b =? user_id (organizer self))
  && (booking_start_time b <? candidate_end)
  && (booking_end_time b >? candidate_start).

(** The attendees already booked on a candidate interval: the sum of
    [attendee_count] over the overlapping confirmed bookings of the
    organizer, of whatever event type. *)
Fixpoint attendees_booked (self : AvailabilityCalculator)
    (candidate_start candidate_end : Py.datetime) (bookings : list Booking) : Z :=
  match bookings with
  | [] => 0
  | b :: rest =>
      (if overlapping_confirmedb self candidate_start candidate_end b
       then booking_attendee_count b else 0)
      + attendees_booked self candidate_start candidate_end rest
  end.

(** The sum as the specification has it: over the overlapping confirmed
    bookings of the calculator's organizer and event type. *)
Fixpoint attendees_booked_for_event_type (self : AvailabilityCalculator)
    (candidate_start candidate_end : Py.datetime) (bookings : list Booking) : Z :=
  match bookings with
  | [] => 0
  | b :: rest =>
      (if overlapping_confirmedb self candidate_start candidate_end b
          && (booking_event_type b =? event_type_id (event_type self))
       then booking_attendee_count b else 0)
      + attendees_booked_for_event_type self candidate_start candidate_end rest
  end.

(** A slot survives an exception unless the exception cancels its date. *)
Definition survives (x : RecurringEventException) (slot : Slot) : bool :=
  if (exception_type x =? "cancelled")%string
  then negb (Py.date_of (start_time slot) =? exception_date x)
  else true.

(** An entry of the cache is usable at [now]. *)
Definition usable (e : EventTypeAvailabilityCache) (now : Z) : Prop :=
  is_dirty e = false /\ now < expires_at e.

(** The filter of the cache lookup, on an entry that has the key of the
    query. *)
Definition usableb (e : EventTypeAvailabilityCache) (now : Z) : bool :=
  negb (is_dirty e) && (now <? expires_at e).

(** The world after [k] more readings of the clock. *)
Fixpoint after_readings (k : nat) (w : World) : World :=
  match k with
  | O => w
  | S k' => after_readings k' (snd (timezone_now w))
  end.

(** The result [r] reports the outcome of a computation of the slots: the
    computed slots, or no slot and the error. *)
Definition recomputed (r : AvailabilityResult) (outcome : res (list Slot)) : Prop :=
  match outcome with
  | Ret computed => slots r = computed /\ error r = None
  | Raise x => slots r = [] /\ error r = Some x
  | OutOfFuel => False
  end.

(** The candidate slot that starts at [start]. *)
Definition candidate_slot (self : AvailabilityCalculator) (start : Py.datetime) : Slot :=
  {| start_time := start;
     end_time := start + duration (event_type self);
     duration_minutes := duration (event_type self);
     available_spots := max_attendees (event_type self) |}.

(** The [k]-th point of the grid that starts at [start] with step [step]. *)
Definition grid_point (start step : Z) (k : nat) : Z := start + Z.of_nat k * step.

(** The slots that the loop adds: the available candidates at the first
    [k] points of the grid. *)
Definition grid_slots (self : AvailabilityCalculator) (attendee_count : Z) (w : World)
    (start step : Z) (k : nat) : list Slot :=
  map (candidate_slot self)
      (filter (fun s => _is_slot_available self s (s + duration (event_type self))
                          attendee_count w)
              (map (grid_point start step) (seq 0 k))).

(** The working-hours window of a date and the step of the grid, as
    [_get_daily_slots] computes them. *)
Definition working_start (profile : Profile) (d : Py.date) : Py.datetime :=
  d * 1440 + Py.getattr_default (reasonable_hours_start profile) 9 * 60.

Definition working_end (profile : Profile) (d : Py.date) : Py.datetime :=
  d * 1440 + Py.getattr_default (reasonable_hours_end profile) 17 * 60.

Definition effective_interval (et : EventType) : Z :=
  Py.int_or (slot_interval_minutes et) 30.

Definition valid_hour (h : Z) : Prop := 0 <= h <= 23.

(** The end of the working-hours window as the loop of [_get_daily_slots]
    compares with it: the localized end, on the wall clock of the localized
    start. *)
Definition window_end (w : World) (self : AvailabilityCalculator) (profile : Profile)
    (d : Py.date) : Py.datetime :=
  localized_end w (calculator_timezone_name self)
    (working_start profile d) (working_end profile d).

(** The calculator's zone has the same UTC offset at the start and at the
    end of the working hours of [d]: no change of the clock in between. *)
Definition no_clock_change (w : World) (self : AvailabilityCalculator) (profile : Profile)
    (d : Py.date) : Prop :=
  utcoffset w (calculator_timezone_name self) (working_start profile d)
  = utcoffset w (calculator_timezone_name self) (working_end profile d).

(** Room on the calendar around a window for one more duration and one more
    interval. *)
Definition window_fits_calendar (start end_ duration_ interval_ : Z) : Prop :=
  Py.MINMINUTE <= start - Z.abs duration_
  /\ Z.max start end_ + Z.abs duration_ + interval_ <= Py.MAXMINUTE.

(** Room on the calendar around the working day of [d] for one more
    duration and one more interval: no datetime built for that day leaves
    the years 1..9999. *)
Definition fits_calendar (d : Py.date) (duration_ interval_ : Z) : Prop :=
  Py.MINMINUTE <= d * 1440 - Z.abs duration_
  /\ d * 1440 + 23 * 60 + Z.abs duration_ + interval_ <= Py.MAXMINUTE.

(** Fuel that is enough for every call of [get_available_slots] over the
    dates [start_date..end_date]. *)
Definition enough_fuel (start_date end_date : Py.date) : nat :=
  (Z.to_nat (end_date - start_date) + Z.to_nat (Py.MAXMINUTE - Py.MINMINUTE) + 3)%nat.

(** ** Scenarios *)

Module Scenario.

Local Open Scope string_scope.

Definition all_zones (name : string) : bool := true.

Definition alice : User := {| user_id := 1; email := "alice@example.com" |}.
Definition bob : User := {| user_id := 2; email := "bob@example.com" |}.

Definition alice_profile : Profile :=
  {| profile_pk := 10; profile_user := alice; timezone_name := "UTC";
     reasonable_hours_start := Some 9; reasonable_hours_end := Some 17 |}.

(** 2024-04-24 *)
Definition day : Py.date := 739000.
Definition at_ (d : Py.date) (hour minute : Z) : Py.datetime :=
  d * 1440 + hour * 60 + minute.

Definition individual : EventType :=
  {| event_type_id := 5; duration := 30; slot_interval_minutes := Some 30;
     max_attendees := 1; recurrence_type := "none";
     can_book_on_date := fun _ => true; get_rrule_object := None |}.

Definition other_individual : EventType :=
  {| event_type_id := 6; duration := 30; slot_interval_minutes := Some 30;
     max_attendees := 1; recurrence_type := "none";
     can_book_on_date := fun _ => true; get_rrule_object := None |}.

Definition group : EventType :=
  {| event_type_id := 7; duration := 30; slot_interval_minutes := Some 30;
     max_attendees := 5; recurrence_type := "none";
     can_book_on_date := fun _ => true; get_rrule_object := None |}.

Definition other_group : EventType :=
  {| event_type_id := 14; duration := 30; slot_interval_minutes := Some 30;
     max_attendees := 5; recurrence_type := "none";
     can_book_on_date := fun _ => true; get_rrule_object := None |}.

Definition weekly : EventType :=
  {| event_type_id := 8; duration := 30; slot_interval_minutes := Some 30;
     max_attendees := 1; recurrence_type := "weekly";
     can_book_on_date := fun _ => true; get_rrule_object := Some "FREQ=WEEKLY" |}.

Definition no_interval : EventType :=
  {| event_type_id := 9; duration := 30; slot_interval_minutes := Some 0;
     max_attendees := 1; recurrence_type := "none";
     can_book_on_date := fun _ => true; get_rrule_object := None |}.

(** An event type that lasts longer than the working hours. *)
Definition whole_day : EventType :=
  {| event_type_id := 13; duration := 540; slot_interval_minutes := Some 30;
     max_attendees := 1; recurrence_type := "none";
     can_book_on_date := fun _ => true; get_rrule_object := None |}.

Definition no_duration : EventType :=
  {| event_type_id := 11; duration := 0; slot_interval_minutes := Some 240;
     max_attendees := 1; recurrence_type := "none";
     can_book_on_date := fun _ => true; get_rrule_object := None |}.

Definition calculator (et : EventType) : AvailabilityCalculator :=
  {| organizer := alice; event_type := et; calculator_timezone_name := "UTC" |}.

Definition booking (et : EventType) (hour minute attendees : Z) : Booking :=
  {| booking_organizer := 1; booking_event_type := event_type_id et;
     booking_status := "confirmed";
     booking_start_time := at_ day hour minute;
     booking_end_time := at_ day hour minute + 30;
     booking_attendee_count := attendees |}.

Definition entry (organizer_ : User) (d : Py.date) (dirty : bool) (expires : Z)
    : EventTypeAvailabilityCache :=
  {| cache_organizer := user_id organizer_; cache_event_type := 5; cache_date := d;
     cache_timezone_name := "UTC"; cache_attendee_count := 1;
     available_slots := []; computed_at := 0; expires_at := expires;
     is_dirty := dirty; computation_time_ms := 3 |}.

(** The offsets of UTC. *)
Definition utc (name : string) (dt : Py.datetime) : Z := 0.

(** A JSON column with the default encoder: a datetime is not serializable,
    so of the lists of slots it stores the empty one. *)
Definition json_column (l : list Slot) : option (list Slot) :=
  match l with
  | [] => Some []
  | _ :: _ => None
  end.

(** A world whose clock reads 1 ms more at every tick. *)
Definition world (cache : list EventTypeAvailabilityCache) (bookings : list Booking)
    (exceptions : list RecurringEventException) : World :=
  {| cache_table := cache; booking_table := bookings;
     exception_table := exceptions; profile_table := [alice_profile];
     clock := fun n => Z.of_nat n * 1000; ticks := 0; log := [];
     utcoffset := utc; slots_column := json_column |}.

(** America/New_York in 2024, as [localize] reads it: UTC-4 from
    2024-03-10 03:00 until 2024-11-03 01:00 on the wall clock, UTC-5
    otherwise. *)
Definition spring_forward : Py.date := 738955.   (* 2024-03-10 *)
Definition fall_back : Py.date := 739193.        (* 2024-11-03 *)

Definition new_york (name : string) (dt : Py.datetime) : Z :=
  if ((at_ spring_forward 3 0 <=? dt)%Z && (dt <? at_ fall_back 1 0)%Z)%bool
  then (-240)%Z else (-300)%Z.

(** Alice, with working hours from midnight to 05:00, her calendar read in
    New York. *)
Definition early_profile : Profile :=
  {| profile_pk := 10; profile_user := alice; timezone_name := "America/New_York";
     reasonable_hours_start := Some 0; reasonable_hours_end := Some 5 |}.

Definition new_york_calculator : AvailabilityCalculator :=
  {| organizer := alice; event_type := individual;
     calculator_timezone_name := "America/New_York" |}.

Definition new_york_world : World :=
  {| cache_table := []; booking_table := [];
     exception_table := []; profile_table := [early_profile];
     clock := fun n => Z.of_nat n * 1000; ticks := 0; log := [];
     utcoffset := new_york; slots_column := json_column |}.

Definition rescheduled : RecurringEventException :=
  {| exception_event_type := 8; exception_date := day;
     exception_type := "rescheduled"; new_start_time := Some (at_ day 18 0) |}.

Definition cancelled : RecurringEventException :=
  {| exception_event_type := 8; exception_date := day;
     exception_type := "cancelled"; new_start_time := None |}.

Definition blocked (organizer_ : User) (d1 d2 : Py.date) : BlockedTime :=
  {| blocked_start_date := Some d1; blocked_end_date := Some d2;
     blocked_organizer := Some organizer_ |}.

End Scenario.

(** ** The rest of [utils.py] and of the signal handlers *)

(** [validate_timezone_for_booking]: the pair (is_valid, error_message) *)
Definition validate_timezone_for_booking (pytz_known : string -> bool)
    (timezone_name_ : string) : bool * option string :=
  match pytz_timezone pytz_known timezone_name_ with
  | Ret _ => (true, None)
  | _ => (false, Some ("Invalid timezone: " ++ timezone_name_)%string)
  end.

(** [get_available_time_slots], the public interface *)
Definition get_available_time_slots (pytz_known : string -> bool)
    (AVAILABILITY_CACHE_TIMEOUT : option Z)
    (organizer_ : User) (event_type_ : EventType) (start_date end_date : Py.date)
    (invitee_timezone : string) (attendee_count : Z) (use_cache : bool)
    (fuel : nat) (w : World) : res AvailabilityResult * World :=
  let calculator :=
    {| organizer := organizer_; event_type := event_type_;
       calculator_timezone_name := invitee_timezone |} in
  get_available_slots pytz_known AVAILABILITY_CACHE_TIMEOUT calculator
    start_date end_date attendee_count use_cache fuel w.

(** The [instance] of [availability.AvailabilityRule] as its handler reads
    it. *)
Record AvailabilityRule : Type := {
  rule_organizer : option User
}.

(** [apps/availability/signals.py] *)
Definition _invalidate_cache_for_availability_rule (availability_rule : AvailabilityRule)
    (w : World) : World :=
  match rule_organizer availability_rule with
  | Some organizer_ => snd (invalidate_availability_cache organizer_ None None w)
  | None => w
  end.

(** [request.META], a dictionary of strings *)
Record HttpRequest : Type := {
  META : string -> option string
}.

Definition comma : Ascii.ascii := Ascii.ascii_of_nat 44.

(** [s.split(',')] *)
Fixpoint split_comma (s : string) : list string :=
  match s with
  | EmptyString => [EmptyString]
  | String c rest =>
      if Ascii.eqb c comma then EmptyString :: split_comma rest
      else match split_comma rest with
           | first :: others => String c first :: others
           | [] => [String c EmptyString]
           end
  end.

Definition get_client_ip_from_request (request : HttpRequest) : option string :=
  match META request "HTTP_X_FORWARDED_FOR"%string with
  | Some (String c rest) => Some (hd EmptyString (split_comma (String c rest)))
  | _ => META request "REMOTE_ADDR"%string
  end.

(** [get_user_agent_from_request] *)
Definition get_user_agent_from_request (request : HttpRequest) : string :=
  match META request "HTTP_USER_AGENT"%string with
  | Some agent => agent
  | None => EmptyString
  end.

(** ** Reading the code *)

(** What a query may not touch: the bookings, the exceptions, the profiles
    and the clock's readings. *)
Definition same_facts (w w' : World) : Prop :=
  booking_table w' = booking_table w
  /\ exception_table w' = exception_table w
  /\ profile_table w' = profile_table w
  /\ clock w' = clock w.

(** The [n] dates from [start] on. *)
Definition dates_from (start : Py.date) (n : nat) : list Py.date :=
  map (fun i => start + Z.of_nat i) (seq 0 n).

(** A slot as [_get_daily_slots] makes them for the calculator: it was
    available when it was made, lasts the duration of the event type and
    reports its capacity. *)
Definition well_made (self : AvailabilityCalculator) (attendee_count : Z) (w : World)
    (slot : Slot) : Prop :=
  _is_slot_available self (start_time slot) (end_time slot) attendee_count w = true
  /\ end_time slot = start_time slot + duration (event_type self)
  /\ duration_minutes slot = duration (event_type self)
  /\ available_spots slot = max_attendees (event_type self).

(** An exception of the calculator's event type, within the range, that
    cancels the date [d]. *)
Definition cancels (self : AvailabilityCalculator) (start_date end_date : Py.date)
    (d : Py.date) (x : RecurringEventException) : Prop :=
  exception_event_type x = event_type_id (event_type self)
  /\ start_date <= exception_date x <= end_date
  /\ exception_type x = "cancelled"%string
  /\ exception_date x = d.

(** A string without a comma. *)
Definition no_comma (s : string) : Prop :=
  ~ In comma (list_ascii_of_string s).

(** What lies behind an exception raised while the slots are computed:
    datetime arithmetic that leaves the calendar, a working hour outside
    0..23, a time zone that pytz does not know, an organizer without
    profile. *)
Definition computation_error_cause (pytz_known : string -> bool)
    (self : AvailabilityCalculator) (w : World) (e : exn) : Prop :=
  match e with
  | OverflowError => True
  | ValueError =>
      exists profile,
        organizer_profile w (organizer self) = Ret profile
        /\ ~ (valid_hour (Py.getattr_default (reasonable_hours_start profile) 9)
              /\ valid_hour (Py.getattr_default (reasonable_hours_end profile) 17))
  | UnknownTimeZoneError name =>
      name = calculator_timezone_name self /\ pytz_known name = false
  | RelatedObjectDoesNotExist =>
      organizer_profile w (organizer self) = Raise RelatedObjectDoesNotExist
  | DoesNotExist => False
  | MultipleObjectsReturned => False
  | TypeError => False
  end.

(** ** Rescheduling a booking ([handle_booking_rescheduling]) *)

(** A [Booking] instance as the function holds it: the related objects it
    reaches through [booking.organizer] and [booking.event_type], its
    columns, and the answer of its method [can_be_rescheduled()], whose body
    is in [models.py]. *)
Record BookingInstance : Type := {
  instance_id : Z;
  instance_organizer : User;
  instance_event_type : EventType;
  instance_status : string;
  instance_start_time : Py.datetime;
  instance_end_time : Py.datetime;
  instance_attendee_count : Z;
  invitee_timezone_name : string;
  invitee_email : string;
  invitee_name : string;
  rescheduled_at : option Z;
  can_be_rescheduled : bool
}.

(** The columns of the instance that the availability queries read. *)
Definition row_of (booking : BookingInstance) : Booking :=
  {| booking_organizer := user_id (instance_organizer booking);
     booking_event_type := event_type_id (instance_event_type booking);
     booking_status := instance_status booking;
     booking_start_time := instance_start_time booking;
     booking_end_time := instance_end_time booking;
     booking_attendee_count := instance_attendee_count booking |}.

(** A row of [BookingAuditLog]; the dictionaries are lists of key and
    value. *)
Record BookingAuditLog : Type := {
  audit_booking : Z;
  audit_action : string;
  audit_description : string;
  audit_actor_type : string;
  audit_actor_email : string;
  audit_actor_name : string;
  audit_ip_address : string;
  audit_user_agent : string;
  audit_old_values : list (string * string);
  audit_new_values : list (string * string);
  audit_metadata : list (string * string)
}.

(** The world with the primary keys of the rows of its booking table (in
    the order of the rows), the audit table, and the errors that
    [handle_booking_rescheduling] logs. *)
Record Database : Type := {
  db_world : World;
  booking_ids : list Z;
  audit_table : list BookingAuditLog;
  rescheduling_errors : list (Z * exn)
}.

Definition set_world (db : Database) (w : World) : Database :=
  {| db_world := w;
     booking_ids := booking_ids db;
     audit_table := audit_table db;
     rescheduling_errors := rescheduling_errors db |}.

Definition set_booking_table (w : World) (t : list Booking) : World :=
  {| cache_table := cache_table w;
     booking_table := t;
     exception_table := exception_table w;
     profile_table := profile_table w;
     clock := clock w;
     ticks := ticks w;
     log := log w;
     utcoffset := utcoffset w;
     slots_column := slots_column w |}.

(** [Model.save()] on a table with primary keys: the row with the key is
    overwritten, and a new row is inserted when there is none. *)
Fixpoint save_row (id : Z) (row : Booking) (ids : list Z) (rows : list Booking)
    : list Z * list Booking :=
  match ids, rows with
  | i :: ids', r :: rows' =>
      if i =? id then (i :: ids', row :: rows')
      else let (ids'', rows'') := save_row id row ids' rows' in (i :: ids'', r :: rows'')
  | _, _ => (ids ++ [id], rows ++ [row])
  end.

(** [booking.save()] *)
Definition booking_save (booking : BookingInstance) (db : Database) : Database :=
  let (ids, rows) := save_row (instance_id booking) (row_of booking)
                       (booking_ids db) (booking_table (db_world db)) in
  {| db_world := set_booking_table (db_world db) rows;
     booking_ids := ids;
     audit_table := audit_table db;
     rescheduling_errors := rescheduling_errors db |}.

(** [d or {}] on an optional dictionary *)
Definition dict_or_empty (d : option (list (string * string))) : list (string * string) :=
  match d with
  | Some (entry :: rest) => entry :: rest
  | _ => []
  end.

(** [create_booking_audit_log] *)
Definition create_booking_audit_log (booking : BookingInstance)
    (action description actor_type : string)
    (actor_email actor_name ip_address user_agent : string)
    (old_values new_values metadata : option (list (string * string)))
    (db : Database) : Database :=
  {| db_world := db_world db;
     booking_ids := booking_ids db;
     audit_table :=
       audit_table db
       ++ [ {| audit_booking := instance_id booking;
               audit_action := action;
               audit_description := description;
               audit_actor_type := actor_type;
               audit_actor_email := actor_email;
               audit_actor_name := actor_name;
               audit_ip_address := ip_address;
               audit_user_agent := user_agent;
               audit_old_values := dict_or_empty old_values;
               audit_new_values := dict_or_empty new_values;
               audit_metadata := dict_or_empty metadata |} ];
     rescheduling_errors := rescheduling_errors db |}.

Section Rescheduling.

(** pytz, the settings, and how Python prints datetimes, instants of the
    clock and exceptions. *)
Variable pytz_known : string -> bool.
Variable AVAILABILITY_CACHE_TIMEOUT : option Z.
Variable isoformat : Py.datetime -> string.
Variable isoformat_instant : Z -> string.
Variable str_datetime : Py.datetime -> string.
Variable str_exn : exn -> string.

(** [new_start_time] is read on the wall clock of the slots it is compared
    with.  The two writes, [booking.save()] and the insertion of the audit
    row, are taken to go through: a database that refuses them is not
    modelled. *)
Definition handle_booking_rescheduling (booking : BookingInstance)
    (new_start_time : Py.datetime) (ip_address user_agent : string)
    (fuel : nat) (db : Database)
    : res ((bool * list string) * BookingInstance * Database) :=
  if negb (can_be_rescheduled booking) then
    Ret ((false, ["Booking cannot be rescheduled at this time"%string]), booking, db)
  else
    let calculator :=
      {| organizer := instance_organizer booking;
         event_type := instance_event_type booking;
         calculator_timezone_name := invitee_timezone_name booking |} in
    match get_available_slots pytz_known AVAILABILITY_CACHE_TIMEOUT calculator
            (Py.date_of new_start_time) (Py.date_of new_start_time)
            (instance_attendee_count booking) false fuel (db_world db) with
    | (OutOfFuel, _) => OutOfFuel
    | (Raise e, w1) =>
        (* except Exception as e *)
        Ret ((false, [str_exn e]), booking,
             {| db_world := w1;
                booking_ids := booking_ids db;
                audit_table := audit_table db;
                rescheduling_errors := rescheduling_errors db ++ [(instance_id booking, e)] |})
    | (Ret availability, w1) =>
        let slot_available :=
          existsb (fun slot => start_time slot =? new_start_time) (slots availability) in
        if negb slot_available then
          Ret ((false, ["The requested time slot is not available"%string]), booking,
               set_world db w1)
        else
          let old_values :=
            [("start_time"%string, isoformat (instance_start_time booking));
             ("end_time"%string, isoformat (instance_end_time booking));
             ("status"%string, instance_status booking)] in
          match Py.add_minutes new_start_time (duration (instance_event_type booking)) with
          | OutOfFuel => OutOfFuel
          | Raise e =>
              (* except Exception as e *)
              Ret ((false, [str_exn e]), booking,
                   {| db_world := w1;
                      booking_ids := booking_ids db;
                      audit_table := audit_table db;
                      rescheduling_errors :=
                        rescheduling_errors db ++ [(instance_id booking, e)] |})
          | Ret new_end_time =>
              let (now, w2) := timezone_now w1 in
              let booking' :=
                {| instance_id := instance_id booking;
                   instance_organizer := instance_organizer booking;
                   instance_event_type := instance_event_type booking;
                   instance_status := "rescheduled"%string;
                   instance_start_time := new_start_time;
                   instance_end_time := new_end_time;
                   instance_attendee_count := instance_attendee_count booking;
                   invitee_timezone_name := invitee_timezone_name booking;
                   invitee_email := invitee_email booking;
                   invitee_name := invitee_name booking;
                   rescheduled_at := Some now;
                   can_be_rescheduled := can_be_rescheduled booking |} in
              let db2 := booking_save booking' (set_world db w2) in
              let db3 :=
                create_booking_audit_log booking'
                  "booking_rescheduled"%string
                  ("Booking rescheduled to " ++ str_datetime new_start_time)%string
                  "invitee"%string
                  (invitee_email booking') (invitee_name booking')
                  ip_address user_agent
                  (Some old_values)
                  (Some [("start_time"%string, isoformat (instance_start_time booking'));
                         ("end_time"%string, isoformat (instance_end_time booking'));
                         ("status"%string, instance_status booking');
                         ("rescheduled_at"%string, isoformat_instant now)])
                  None
                  db2 in
              Ret ((true, []), booking', db3)
          end
    end.

End Rescheduling.

(** The calculator that [handle_booking_rescheduling] builds for a
    booking. *)
Definition rescheduling_calculator (booking : BookingInstance) : AvailabilityCalculator :=
  {| organizer := instance_organizer booking;
     event_type := instance_event_type booking;
     calculator_timezone_name := invitee_timezone_name booking |}.

(** The row stored under a primary key. *)
Fixpoint stored_row (id : Z) (ids : list Z) (rows : list Booking) : option Booking :=
  match ids, rows with
  | i :: ids', r :: rows' => if i =? id then Some r else stored_row id ids' rows'
  | _, _ => None
  end.

Module ReschedulingScenario.

(** How the datetimes are printed plays no part in what follows. *)
Definition printed (z : Z) : string := EmptyString.
Definition message (e : exn) : string := EmptyString.

(** A confirmed booking of Alice, 10:00-10:30, stored under the key 77. *)
Definition booked : BookingInstance :=
  {| instance_id := 77;
     instance_organizer := Scenario.alice;
     instance_event_type := Scenario.individual;
     instance_status := "confirmed";
     instance_start_time := Scenario.at_ Scenario.day 10 0;
     instance_end_time := Scenario.at_ Scenario.day 10 30;
     instance_attendee_count := 1;
     invitee_timezone_name := "UTC";
     invitee_email := "bob@example.com";
     invitee_name := "Bob";
     rescheduled_at := None;
     can_be_rescheduled := true |}.

Definition database : Database :=
  {| db_world := Scenario.world [] [row_of booked] [];
     booking_ids := [77];
     audit_table := [];
     rescheduling_errors := [] |}.

Definition reschedule (new_start_time : Py.datetime) (fuel : nat)
    : res ((bool * list string) * BookingInstance * Database) :=
  handle_booking_rescheduling Scenario.all_zones None printed printed printed message
    booked new_start_time EmptyString EmptyString fuel database.

End ReschedulingScenario.

(** * Properties *)

(** ** Lists *)

Section ListFacts.

Context {A : Type}.

Lemma filter_twice (f g : A -> bool) (l : list A) :
  filter f (filter g l) = filter (fun x => g x && f x) l.
Proof.
  induction l as [|a l IH]; simpl; [reflexivity|].
  destruct (g a); simpl; [destruct (f a)|]; rewrite IH; reflexivity.
Qed.

Lemma filter_idempotent (f : A -> bool) (l : list A) :
  filter f (filter f l) = filter f l.
Proof.
  rewrite filter_twice. apply filter_ext. intros a. apply andb_diag.
Qed.

Lemma filter_none (f : A -> bool) (l : list A) :
  filter f l = [] <-> forall a, In a l -> f a = false.
Proof.
  induction l as [|a l IH]; simpl.
  - split; [intros _ x []|reflexivity].
  - destruct (f a) eqn:Fa.
    + split; [discriminate|]. intros H. rewrite (H a) in Fa by (left; reflexivity).
      discriminate.
    + rewrite IH. split.
      * intros H x [<-|Hx]; [assumption|apply H, Hx].
      * intros H x Hx. apply H. right. exact Hx.
Qed.

End ListFacts.

(** ** Recurring exceptions *)

Lemma apply_exception_filter (slots : list Slot) (x : RecurringEventException) :
  apply_exception slots x = filter (survives x) slots.
Proof.
  unfold apply_exception, survives.
  destruct (exception_type x =? "cancelled")%string; [reflexivity|].
  rewrite filter_true. destruct (_ && _); reflexivity.
Qed.

Lemma fold_apply_exception (xs : list RecurringEventException) (slots : list Slot) :
  fold_left apply_exception xs slots
  = filter (fun slot => forallb (fun x => survives x slot) xs) slots.
Proof.
  revert slots. induction xs as [|x xs IH]; intros slots; simpl.
  - symmetry. apply filter_true.
  - rewrite IH, apply_exception_filter, filter_twice. reflexivity.
Qed.

Lemma apply_exception_rescheduled (slots : list Slot) (x : RecurringEventException) :
  exception_type x = "rescheduled"%string -> apply_exception slots x = slots.
Proof.
  intros H. rewrite apply_exception_filter. unfold survives. rewrite H. simpl.
  apply filter_true.
Qed.

(** C8. Applying the recurring-event exceptions leaves the slot sequence as
    it is when the event type's recurrence_type is 'none', and for every
    event type and slot sequence applying them twice over the same date
    range gives what applying them once gives. *)
Theorem apply_recurring_exceptions_identity_idempotent :
  forall (self : AvailabilityCalculator) (slots : list Slot)
         (start_date end_date : Py.date) (w : World),
    (recurrence_type (event_type self) = "none"%string ->
     _apply_recurring_exceptions self slots start_date end_date w = slots)
    /\ _apply_recurring_exceptions self
         (_apply_recurring_exceptions self slots start_date end_date w)
         start_date end_date w
       = _apply_recurring_exceptions self slots start_date end_date w.
Proof.
  intros self slots start_date end_date w. unfold _apply_recurring_exceptions.
  split.
  - intros H. rewrite H. reflexivity.
  - destruct (recurrence_type (event_type self) =? "none")%string; [reflexivity|].
    rewrite !fold_apply_exception. apply filter_idempotent.
Qed.

Lemma apply_recurring_exceptions_witness :
  recurrence_type (event_type (Scenario.calculator Scenario.individual)) = "none"%string
  /\ _apply_recurring_exceptions (Scenario.calculator Scenario.individual)
       [candidate_slot (Scenario.calculator Scenario.individual)
          (Scenario.at_ Scenario.day 9 0)]
       Scenario.day Scenario.day
       (Scenario.world [] [] [Scenario.cancelled])
     = [candidate_slot (Scenario.calculator Scenario.individual)
          (Scenario.at_ Scenario.day 9 0)].
Proof.
  split; [reflexivity|].
  apply (proj1 (apply_recurring_exceptions_identity_idempotent
                  (Scenario.calculator Scenario.individual) _
                  Scenario.day Scenario.day
                  (Scenario.world [] [] [Scenario.cancelled]))).
  reflexivity.
Defined.

(** C7. On a recurring event type with a 'rescheduled' exception that
    carries a new_start_time for the queried date, the exception pass hands
    the slots back as they are: the slot of the original date stays and no
    slot starts at new_start_time. *)
Theorem rescheduled_exception_changes_nothing :
  let self := Scenario.calculator Scenario.weekly in
  let w := Scenario.world [] [] [Scenario.rescheduled] in
  let slots := [candidate_slot self (Scenario.at_ Scenario.day 9 0)] in
  exceptions_in_range self Scenario.day Scenario.day w = [Scenario.rescheduled]
  /\ _apply_recurring_exceptions self slots Scenario.day Scenario.day w = slots
  /\ ~ In (Scenario.at_ Scenario.day 18 0)
         (map start_time
              (_apply_recurring_exceptions self slots Scenario.day Scenario.day w)).
Proof.
  cbv zeta. split; [reflexivity|]. split; [reflexivity|].
  intros [H|[]]. vm_compute in H. discriminate.
Qed.

(** ** Invalidation *)

Lemma invalidation_filter_spec (organizer : User) (date_start date_end : option Py.date)
    (e : EventTypeAvailabilityCache) :
  invalidation_filter organizer date_start date_end e = true
  <-> in_invalidation_scope organizer date_start date_end e.
Proof.
  unfold invalidation_filter, in_invalidation_scope.
  rewrite !andb_true_iff, Z.eqb_eq.
  destruct date_start as [d1|], date_end as [d2|]; rewrite ?Z.leb_le;
    (split; [intros [[H1 H2] H3]; repeat split; try assumption;
             intros d Hd; try discriminate; injection Hd as <-; assumption
            |intros (H1 & H2 & H3); repeat split; auto]).
Qed.

Lemma invalidation_filter_mark_dirty (organizer : User)
    (date_start date_end : option Py.date) (e : EventTypeAvailabilityCache) :
  invalidation_filter organizer date_start date_end (mark_dirty e)
  = invalidation_filter organizer date_start date_end e.
Proof. reflexivity. Qed.

Lemma filter_after_update (organizer : User) (date_start date_end : option Py.date)
    (table : list EventTypeAvailabilityCache) :
  length (filter (invalidation_filter organizer date_start date_end)
            (map (fun e => if invalidation_filter organizer date_start date_end e
                           then mark_dirty e else e) table))
  = length (filter (invalidation_filter organizer date_start date_end) table).
Proof.
  induction table as [|e table IH]; simpl; [reflexivity|].
  destruct (invalidation_filter organizer date_start date_end e) eqn:He.
  - rewrite invalidation_filter_mark_dirty, He. simpl. rewrite IH. reflexivity.
  - rewrite He. exact IH.
Qed.

(** C4, as the code has it. [invalidate_availability_cache] hands back
    nothing; it sets is_dirty on every cache entry of the organizer whose
    date lies in the range (on all of the organizer's entries when no range
    is given), keeps every entry, in place and with its other fields, leaves
    the entries of other organizers and outside the range as they are, and
    writes the count of the entries it reached to the log. *)
Theorem invalidate_availability_cache_frame :
  forall (organizer : User) (date_start date_end : option Py.date) (w : World),
    let r := fst (invalidate_availability_cache organizer date_start date_end w) in
    let w' := snd (invalidate_availability_cache organizer date_start date_end w) in
    r = Py.PyNone
    /\ Forall2 (fun e e' =>
                  same_but_dirty_flag e e'
                  /\ (in_invalidation_scope organizer date_start date_end e ->
                      is_dirty e' = true)
                  /\ (~ in_invalidation_scope organizer date_start date_end e ->
                      e' = e))
               (cache_table w) (cache_table w')
    /\ booking_table w' = booking_table w
    /\ exception_table w' = exception_table w
    /\ profile_table w' = profile_table w
    /\ log w' = log w ++ [InfoInvalidated
                            (length (filter (invalidation_filter organizer date_start date_end)
                                            (cache_table w)))
                            (email organizer)].
Proof.
  intros organizer date_start date_end w. cbv zeta.
  unfold invalidate_availability_cache. simpl.
  split; [reflexivity|]. split.
  - induction (cache_table w) as [|e table IH]; simpl; constructor; [|exact IH].
    destruct (invalidation_filter organizer date_start date_end e) eqn:He.
    + split; [unfold same_but_dirty_flag; simpl; tauto|]. split; [reflexivity|].
      intros Hn. exfalso. apply Hn. apply invalidation_filter_spec. exact He.
    + split; [unfold same_but_dirty_flag; tauto|]. split; [|reflexivity].
      intros Hs. apply invalidation_filter_spec in Hs. congruence.
  - repeat split. rewrite filter_after_update. reflexivity.
Qed.

(** C4, as the specification has it: the count of the entries reached is
    not what the function returns. *)
Lemma invalidate_availability_cache_returns_no_count :
  let w := Scenario.world [Scenario.entry Scenario.alice Scenario.day false 0] [] [] in
  length (filter (invalidation_filter Scenario.alice None None) (cache_table w)) = 1%nat
  /\ fst (invalidate_availability_cache Scenario.alice None None w) = Py.PyNone
  /\ fst (invalidate_availability_cache Scenario.alice None None w) <> Py.PyInt 1.
Proof.
  cbv zeta. split; [reflexivity|]. split; [reflexivity|]. discriminate.
Qed.

(** Scenario D: after a blocked-time change of an organizer on [d1, d2],
    the organizer's entries dated in the range are dirty, and the others
    are as before. *)
Lemma blocked_time_invalidation_scenario :
  let w := Scenario.world
             [Scenario.entry Scenario.alice Scenario.day false 0;
              Scenario.entry Scenario.alice (Scenario.day + 5) false 0;
              Scenario.entry Scenario.bob Scenario.day false 0] [] [] in
  map is_dirty
      (cache_table (_invalidate_cache_for_blocked_time
                      (Scenario.blocked Scenario.alice Scenario.day (Scenario.day + 1)) w))
  = [true; false; false].
Proof. reflexivity. Qed.

(** ** The profile signal *)

(** C10, as the code has it. A profile save whose update_fields is given,
    not empty and without 'timezone_name', or a save without update_fields
    whose stored timezone_name is the saved one (or that finds no stored
    row), triggers no invalidation: the handler leaves the world, and so
    every is_dirty flag, as it is. *)
Theorem handle_profile_timezone_change_no_invalidation :
  forall (instance : Profile) (update_fields : option (list string)) (w : World),
    (exists l, update_fields = Some l /\ l <> []
               /\ ~ In "timezone_name"%string l)
    \/ (truthy_fields update_fields = false
        /\ forall old,
             find (fun p => profile_pk p =? profile_pk instance) (profile_table w)
             = Some old ->
             timezone_name old = timezone_name instance) ->
    handle_profile_timezone_change instance update_fields w = w.
Proof.
  intros instance update_fields w [(l & -> & Hl & Hn)|[Ht Hold]].
  - unfold handle_profile_timezone_change.
    assert (truthy_fields (Some l) = true) as -> by (destruct l; [congruence|reflexivity]).
    assert (field_in "timezone_name" (Some l) = false) as ->.
    { unfold field_in. destruct (existsb _ l) eqn:E; [|reflexivity].
      apply existsb_exists in E. destruct E as (x & Hx & E).
      apply String.eqb_eq in E. subst x. contradiction. }
    reflexivity.
  - unfold handle_profile_timezone_change, objects_get_pk. rewrite Ht. simpl.
    destruct (find _ (profile_table w)) as [old|] eqn:F; [|reflexivity].
    rewrite (Hold old eq_refl), String.eqb_refl. reflexivity.
Qed.

Lemma handle_profile_timezone_change_witness :
  handle_profile_timezone_change Scenario.alice_profile
    (Some ["reasonable_hours_start"%string])
    (Scenario.world [Scenario.entry Scenario.alice Scenario.day false 0] [] [])
  = Scenario.world [Scenario.entry Scenario.alice Scenario.day false 0] [] [].
Proof.
  apply handle_profile_timezone_change_no_invalidation.
  left. exists ["reasonable_hours_start"%string].
  split; [reflexivity|]. split; [discriminate|].
  intros [H|[]]. discriminate.
Defined.

(** C10, as the specification has it: a save that names 'timezone_name' in
    update_fields invalidates the organizer's cache although the stored
    timezone_name is the saved one. *)
Lemma handle_profile_timezone_change_unchanged_zone_invalidates :
  let w := Scenario.world [Scenario.entry Scenario.alice Scenario.day false 0] [] [] in
  let instance := Scenario.alice_profile in
  find (fun p => profile_pk p =? profile_pk instance) (profile_table w) = Some instance
  /\ map is_dirty (cache_table w) = [false]
  /\ map is_dirty
       (cache_table (handle_profile_timezone_change instance
                       (Some ["timezone_name"%string]) w))
     = [true].
Proof. cbv zeta. repeat split. Qed.

(** ** Conflicts with bookings *)

Lemma conflicting_filter_spec (self : AvailabilityCalculator)
    (candidate_start candidate_end : Py.datetime) (b : Booking) :
  (booking_organizer b =? user_id (organizer self))
  && (booking_status b =? "confirmed")%string
  && (booking_start_time b <? candidate_end)
  && (candidate_start <? booking_end_time b) = true
  <-> overlapping_confirmed self candidate_start candidate_end b.
Proof.
  unfold overlapping_confirmed.
  rewrite !andb_true_iff, Z.eqb_eq, String.eqb_eq, !Z.ltb_lt. intuition lia.
Qed.

Lemma conflicting_filter_bool (self : AvailabilityCalculator)
    (candidate_start candidate_end : Py.datetime) (b : Booking) :
  (booking_organizer b =? user_id (organizer self))
  && (booking_status b =? "confirmed")%string
  && (booking_start_time b <? candidate_end)
  && (candidate_start <? booking_end_time b)
  = overlapping_confirmedb self candidate_start candidate_end b.
Proof.
  unfold overlapping_confirmedb. rewrite Z.gtb_ltb.
  rewrite (andb_comm (booking_organizer b =? _)). reflexivity.
Qed.

Lemma py_sum_cons (a : Z) (l : list Z) : py_sum (a :: l) = a + py_sum l.
Proof.
  unfold py_sum. simpl.
  enough (forall l x y, fold_left Z.add l (x + y) = x + fold_left Z.add l y) as H.
  { rewrite <- (H l a 0), Z.add_0_r. reflexivity. }
  clear. induction l as [|b l IH]; intros x y; simpl; [reflexivity|].
  rewrite <- Z.add_assoc. apply IH.
Qed.

Lemma py_sum_conflicting (self : AvailabilityCalculator)
    (candidate_start candidate_end : Py.datetime) (w : World) :
  py_sum (map booking_attendee_count
              (conflicting_bookings self candidate_start candidate_end w))
  = attendees_booked self candidate_start candidate_end (booking_table w).
Proof.
  unfold conflicting_bookings.
  induction (booking_table w) as [|b table IH]; [reflexivity|].
  cbn [filter attendees_booked]. rewrite conflicting_filter_bool.
  destruct (overlapping_confirmedb self candidate_start candidate_end b).
  - cbn [map]. rewrite py_sum_cons, IH. reflexivity.
  - rewrite IH. reflexivity.
Qed.

(** C2, as the code has it. The availability decision considers exactly the
    bookings with status 'confirmed' of the same organizer, of whatever
    event type, whose intervals overlap the candidate under the half-open
    test; for a single-attendee event type the candidate is available iff
    there is no such booking. *)
Theorem is_slot_available_single :
  forall (self : AvailabilityCalculator) (candidate_start candidate_end : Py.datetime)
         (attendee_count : Z) (w : World),
    (forall b, In b (conflicting_bookings self candidate_start candidate_end w)
               <-> In b (booking_table w)
                   /\ overlapping_confirmed self candidate_start candidate_end b)
    /\ (is_group_event (event_type self) = false ->
        (_is_slot_available self candidate_start candidate_end attendee_count w = true
         <-> forall b, In b (booking_table w) ->
                       ~ overlapping_confirmed self candidate_start candidate_end b)).
Proof.
  intros self cs ce n w.
  assert (forall b, In b (conflicting_bookings self cs ce w)
                    <-> In b (booking_table w) /\ overlapping_confirmed self cs ce b) as Hin.
  { intros b. unfold conflicting_bookings. rewrite filter_In, conflicting_filter_spec.
    reflexivity. }
  split; [exact Hin|]. intros Hg. unfold _is_slot_available. rewrite Hg.
  destruct (conflicting_bookings self cs ce w) as [|b rest] eqn:E.
  - split; [|reflexivity]. intros _ b Hb Ho.
    destruct (proj2 (Hin b) (conj Hb Ho)).
  - split; [discriminate|]. intros H. exfalso.
    destruct (proj1 (Hin b) (or_introl eq_refl)) as [Hb Ho]. exact (H b Hb Ho).
Qed.

Lemma is_slot_available_single_witness :
  is_group_event (event_type (Scenario.calculator Scenario.individual)) = false
  /\ (_is_slot_available (Scenario.calculator Scenario.individual)
        (Scenario.at_ Scenario.day 10 30) (Scenario.at_ Scenario.day 11 0) 1
        (Scenario.world [] [Scenario.booking Scenario.individual 10 0 1] []) = true
      <-> forall b,
            In b (booking_table
                    (Scenario.world [] [Scenario.booking Scenario.individual 10 0 1] [])) ->
            ~ overlapping_confirmed (Scenario.calculator Scenario.individual)
                (Scenario.at_ Scenario.day 10 30) (Scenario.at_ Scenario.day 11 0) b).
Proof.
  split; [reflexivity|].
  apply (proj2 (is_slot_available_single
                  (Scenario.calculator Scenario.individual)
                  (Scenario.at_ Scenario.day 10 30) (Scenario.at_ Scenario.day 11 0) 1
                  (Scenario.world [] [Scenario.booking Scenario.individual 10 0 1] []))).
  reflexivity.
Defined.

(** C2, as the specification has it: a confirmed booking of the same
    organizer for another event type makes the candidate unavailable,
    although no booking of the calculator's own event type overlaps it. *)
Lemma is_slot_available_other_event_type_blocks :
  let self := Scenario.calculator Scenario.individual in
  let w := Scenario.world [] [Scenario.booking Scenario.other_individual 10 0 1] [] in
  is_group_event (event_type self) = false
  /\ (forall b, In b (booking_table w) ->
                ~ (booking_event_type b = event_type_id (event_type self)
                   /\ overlapping_confirmed self
                        (Scenario.at_ Scenario.day 10 0) (Scenario.at_ Scenario.day 10 30) b))
  /\ _is_slot_available self
       (Scenario.at_ Scenario.day 10 0) (Scenario.at_ Scenario.day 10 30) 1 w = false.
Proof.
  cbv zeta. split; [reflexivity|]. split; [|reflexivity].
  intros b [<-|[]] [H _]. vm_compute in H. discriminate.
Qed.

(** C3, as the code has it. For a group event type a candidate interval is
    available iff the sum of attendee_count over the overlapping confirmed
    bookings of the organizer, of whatever event type, plus the requested
    attendee count is at most max_attendees. *)
Theorem is_slot_available_group :
  forall (self : AvailabilityCalculator) (candidate_start candidate_end : Py.datetime)
         (attendee_count : Z) (w : World),
    is_group_event (event_type self) = true ->
    (_is_slot_available self candidate_start candidate_end attendee_count w = true
     <-> attendees_booked self candidate_start candidate_end (booking_table w)
         + attendee_count <= max_attendees (event_type self)).
Proof.
  intros self cs ce n w Hg. unfold _is_slot_available. rewrite Hg.
  rewrite py_sum_conflicting. apply Z.leb_le.
Qed.

(** Scenario C: max_attendees = 5 and one confirmed booking of 3 attendees
    on 14:00-14:30; two more attendees fit, three more do not. *)
Lemma is_slot_available_group_witness :
  let self := Scenario.calculator Scenario.group in
  let w := Scenario.world [] [Scenario.booking Scenario.group 14 0 3] [] in
  is_group_event (event_type self) = true
  /\ attendees_booked self (Scenario.at_ Scenario.day 14 0) (Scenario.at_ Scenario.day 14 30)
       (booking_table w) = 3
  /\ _is_slot_available self
       (Scenario.at_ Scenario.day 14 0) (Scenario.at_ Scenario.day 14 30) 2 w = true
  /\ _is_slot_available self
       (Scenario.at_ Scenario.day 14 0) (Scenario.at_ Scenario.day 14 30) 3 w <> true.
Proof.
  cbv zeta. split; [reflexivity|]. split; [reflexivity|]. split.
  - apply (proj2 (is_slot_available_group
                    (Scenario.calculator Scenario.group)
                    (Scenario.at_ Scenario.day 14 0) (Scenario.at_ Scenario.day 14 30) 2
                    (Scenario.world [] [Scenario.booking Scenario.group 14 0 3] [])
                    eq_refl)).
    vm_compute. discriminate.
  - intros H.
    apply (proj1 (is_slot_available_group
                    (Scenario.calculator Scenario.group)
                    (Scenario.at_ Scenario.day 14 0) (Scenario.at_ Scenario.day 14 30) 3
                    (Scenario.world [] [Scenario.booking Scenario.group 14 0 3] [])
                    eq_refl)) in H.
    vm_compute in H. apply H. reflexivity.
Defined.

(** C3, as the specification has it: with the sum taken over the bookings
    of the calculator's own event type, five attendees booked by the same
    organizer on another event type would leave room for one more; the code
    counts them and finds the candidate unavailable. *)
Lemma is_slot_available_group_counts_other_event_types :
  let self := Scenario.calculator Scenario.group in
  let w := Scenario.world [] [Scenario.booking Scenario.other_group 14 0 5] [] in
  let candidate_start := Scenario.at_ Scenario.day 14 0 in
  let candidate_end := Scenario.at_ Scenario.day 14 30 in
  is_group_event (event_type self) = true
  /\ attendees_booked_for_event_type self candidate_start candidate_end (booking_table w)
     = 0
  /\ attendees_booked self candidate_start candidate_end (booking_table w) = 5
  /\ _is_slot_available self candidate_start candidate_end 1 w = false
  /\ ~ (_is_slot_available self candidate_start candidate_end 1 w = true
        <-> attendees_booked_for_event_type self candidate_start candidate_end
              (booking_table w) + 1 <= max_attendees (event_type self)).
Proof.
  cbv zeta. split; [reflexivity|]. split; [reflexivity|]. split; [reflexivity|].
  split; [reflexivity|]. intros [_ H].
  assert (_is_slot_available (Scenario.calculator Scenario.group)
            (Scenario.at_ Scenario.day 14 0) (Scenario.at_ Scenario.day 14 30) 1
            (Scenario.world [] [Scenario.booking Scenario.other_group 14 0 5] [])
          = true) as Ha.
  { apply H. vm_compute. discriminate. }
  vm_compute in Ha. discriminate.
Qed.

(** ** The time grid *)

Lemma add_minutes_ok (dt m : Z) :
  Py.datetime_ok (dt + m) -> Py.add_minutes dt m = Ret (dt + m).
Proof.
  unfold Py.datetime_ok, Py.MINMINUTE, Py.MAXMINUTE, Py.add_minutes,
    Py.ordinal_in_range, Py.date_of.
  intros [Hlo Hhi].
  assert (Py.MINORDINAL <= (dt + m) / 1440) as H1
      by (apply Z.div_le_lower_bound; lia).
  assert ((dt + m) / 1440 < Py.MAXORDINAL + 1) as H2
      by (apply Z.div_lt_upper_bound; lia).
  apply Z.leb_le in H1. rewrite H1. simpl.
  assert (((dt + m) / 1440 <=? Py.MAXORDINAL) = true) as -> by (apply Z.leb_le; lia).
  reflexivity.
Qed.

Lemma add_minutes_ret (dt m r : Z) :
  Py.add_minutes dt m = Ret r -> r = dt + m /\ Py.datetime_ok r.
Proof.
  unfold Py.add_minutes, Py.ordinal_in_range, Py.date_of.
  destruct (_ && _) eqn:E; [|discriminate].
  intros H. injection H as <-. split; [reflexivity|].
  apply andb_true_iff in E. destruct E as [H1 H2].
  apply Z.leb_le in H1, H2.
  unfold Py.datetime_ok, Py.MINMINUTE, Py.MAXMINUTE.
  pose proof (Z.div_mod (dt + m) 1440 ltac:(lia)) as D.
  pose proof (Z.mod_pos_bound (dt + m) 1440 ltac:(lia)) as B.
  unfold Py.MINORDINAL, Py.MAXORDINAL in *. lia.
Qed.

Lemma grid_point_0 (start step : Z) : grid_point start step 0 = start.
Proof. unfold grid_point. simpl. lia. Qed.

Lemma grid_point_S (start step : Z) (k : nat) :
  grid_point start step (S k) = grid_point (start + step) step k.
Proof. unfold grid_point. lia. Qed.

Lemma daily_loop_S (self : AvailabilityCalculator) (attendee_count slot_interval : Z)
    (w : World) (fuel : nat) (current_time end_time : Py.datetime) (slots : list Slot) :
  _get_daily_slots_loop self attendee_count slot_interval w (S fuel)
    current_time end_time slots
  = rbind (Py.add_minutes current_time (duration (event_type self)))
      (fun bound =>
         if bound <=? end_time then
           rbind (Py.add_minutes current_time (duration (event_type self)))
             (fun slot_end_time =>
                rbind (Py.add_minutes current_time slot_interval)
                  (fun next =>
                     _get_daily_slots_loop self attendee_count slot_interval w fuel
                       next end_time
                       (if _is_slot_available self current_time slot_end_time
                             attendee_count w
                        then slots ++ [ {| start_time := current_time;
                                           end_time := slot_end_time;
                                           duration_minutes := duration (event_type self);
                                           available_spots := max_attendees (event_type self) |} ]
                        else slots)))
         else Ret slots).
Proof. reflexivity. Qed.

Lemma grid_slots_S (self : AvailabilityCalculator) (attendee_count : Z) (w : World)
    (start step : Z) (k : nat) :
  grid_slots self attendee_count w start step (S k)
  = (if _is_slot_available self start (start + duration (event_type self))
          attendee_count w
     then [candidate_slot self start] else [])
    ++ grid_slots self attendee_count w (start + step) step k.
Proof.
  unfold grid_slots. cbn [seq map filter]. rewrite grid_point_0.
  rewrite <- seq_shift, map_map.
  rewrite (map_ext (fun x => grid_point start step (S x)) (grid_point (start + step) step))
    by (intros; apply grid_point_S).
  destruct (_is_slot_available self start _ attendee_count w); reflexivity.
Qed.

Lemma daily_loop_grid (self : AvailabilityCalculator) (attendee_count step : Z)
    (w : World) (end_time : Py.datetime) :
  forall (k fuel : nat) (start : Py.datetime) (slots : list Slot),
    (k < fuel)%nat ->
    (forall i, (i < k)%nat ->
               grid_point start step i + duration (event_type self) <= end_time) ->
    grid_point start step k + duration (event_type self) > end_time ->
    (forall i, (i <= k)%nat ->
               Py.datetime_ok (grid_point start step i + duration (event_type self))) ->
    (forall i, (1 <= i <= k)%nat -> Py.datetime_ok (grid_point start step i)) ->
    _get_daily_slots_loop self attendee_count step w fuel start end_time slots
    = Ret (slots ++ grid_slots self attendee_count w start step k).
Proof.
  induction k as [|k IH]; intros fuel start slots Hfuel Hin Hout Hdur Hstep;
    (destruct fuel as [|fuel]; [lia|]); rewrite daily_loop_S.
  - specialize (Hdur 0%nat (Nat.le_refl _)). rewrite grid_point_0 in *.
    rewrite add_minutes_ok by assumption. cbn [rbind].
    assert ((start + duration (event_type self) <=? end_time) = false) as ->
        by (apply Z.leb_gt; lia).
    unfold grid_slots. simpl. rewrite app_nil_r. reflexivity.
  - pose proof (Hdur 0%nat ltac:(lia)) as Hd0. pose proof (Hin 0%nat ltac:(lia)) as Hi0.
    pose proof (Hstep 1%nat ltac:(lia)) as Hs1.
    rewrite grid_point_0 in Hd0, Hi0. rewrite grid_point_S, grid_point_0 in Hs1.
    rewrite add_minutes_ok by assumption. cbn [rbind].
    assert ((start + duration (event_type self) <=? end_time) = true) as ->
        by (apply Z.leb_le; lia).
    rewrite add_minutes_ok by assumption. cbn [rbind].
    rewrite IH.
    + rewrite grid_slots_S.
      destruct (_is_slot_available self start _ attendee_count w);
        [rewrite <- app_assoc|]; reflexivity.
    + lia.
    + intros i Hi. rewrite <- grid_point_S. apply Hin. lia.
    + rewrite <- grid_point_S. exact Hout.
    + intros i Hi. rewrite <- grid_point_S. apply Hdur. lia.
    + intros i Hi. rewrite <- grid_point_S. apply Hstep. lia.
Qed.

Lemma grid_count (start end_time dur step : Z) :
  0 < step ->
  exists k : nat,
    (forall i, (i < k)%nat -> grid_point start step i + dur <= end_time)
    /\ grid_point start step k + dur > end_time
    /\ (forall i, (i <= k)%nat ->
          start + dur <= grid_point start step i + dur
          /\ grid_point start step i + dur <= Z.max (start + dur) (end_time + step))
    /\ (forall i, (1 <= i <= k)%nat ->
          start <= grid_point start step i
          /\ grid_point start step i <= end_time - dur + step).
Proof.
  intros Hstep. unfold grid_point.
  destruct (Z_lt_le_dec end_time (start + dur)) as [Hgt|Hle].
  - exists 0%nat. repeat split; intros; try lia.
  - set (q := (end_time - dur - start) / step).
    assert (0 <= q) as Hq by (apply Z.div_pos; lia).
    pose proof (Z.mul_div_le (end_time - dur - start) step Hstep) as Hlo.
    pose proof (Z.mul_succ_div_gt (end_time - dur - start) step Hstep) as Hhi.
    fold q in Hlo, Hhi.
    exists (Z.to_nat (q + 1)).
    assert (forall i : nat, (i <= Z.to_nat (q + 1))%nat ->
                            0 <= Z.of_nat i * step <= step * q + step) as Hmul.
    { intros i Hi. assert (0 <= Z.of_nat i <= q + 1) as Hi' by lia. nia. }
    assert (forall i : nat, (i < Z.to_nat (q + 1))%nat ->
                            Z.of_nat i * step <= step * q) as Hmul'.
    { intros i Hi. assert (0 <= Z.of_nat i <= q) as Hi' by lia. nia. }
    repeat split.
    + intros i Hi. specialize (Hmul' i Hi). lia.
    + rewrite Z2Nat.id by lia. lia.
    + specialize (Hmul i H). lia.
    + specialize (Hmul i H). lia.
    + destruct H as [H1 H2]. specialize (Hmul i H2). lia.
    + destruct H as [H1 H2]. specialize (Hmul i H2). lia.
Qed.

Lemma window_end_no_clock_change (w : World) (self : AvailabilityCalculator)
    (profile : Profile) (d : Py.date) :
  no_clock_change w self profile d ->
  window_end w self profile d = working_end profile d.
Proof.
  unfold no_clock_change, window_end, localized_end. intros ->. lia.
Qed.

Lemma window_fits_no_clock_change (w : World) (self : AvailabilityCalculator)
    (profile : Profile) (d : Py.date) (duration_ interval_ : Z) :
  valid_hour (Py.getattr_default (reasonable_hours_start profile) 9) ->
  valid_hour (Py.getattr_default (reasonable_hours_end profile) 17) ->
  no_clock_change w self profile d ->
  fits_calendar d duration_ interval_ ->
  window_fits_calendar (working_start profile d) (window_end w self profile d)
    duration_ interval_.
Proof.
  intros Hs He Hno [Hlo Hhi]. rewrite (window_end_no_clock_change _ _ _ _ Hno).
  unfold window_fits_calendar, working_start, working_end, valid_hour in *. lia.
Qed.

Lemma grid_bounds (start end_time dur step : Z) (k : nat) :
  0 < step ->
  (forall i, (i < k)%nat -> grid_point start step i + dur <= end_time) ->
  (forall i, (i <= k)%nat ->
     start + dur <= grid_point start step i + dur
     /\ grid_point start step i + dur <= Z.max (start + dur) (end_time + step))
  /\ (forall i, (1 <= i <= k)%nat ->
        start <= grid_point start step i
        /\ grid_point start step i <= end_time - dur + step).
Proof.
  intros Hstep Hin.
  assert (forall i, (i <= k)%nat ->
            start <= grid_point start step i
            /\ (i = 0%nat \/ grid_point start step i <= end_time - dur + step)) as H.
  { intros [|j] Hi.
    - rewrite grid_point_0. split; [lia|left; reflexivity].
    - specialize (Hin j ltac:(lia)). unfold grid_point in *.
      rewrite Nat2Z.inj_succ. split; [nia|right; lia]. }
  split; intros i Hi.
  - destruct (H i Hi) as [H1 [->|H2]]; [rewrite grid_point_0|]; lia.
  - destruct (H i ltac:(lia)) as [H1 [->|H2]]; lia.
Qed.

Lemma get_daily_slots_at_grid (pytz_known : string -> bool)
    (self : AvailabilityCalculator) (d : Py.date) (attendee_count : Z) (w : World)
    (profile : Profile) (k : nat) :
  organizer_profile w (organizer self) = Ret profile ->
  valid_hour (Py.getattr_default (reasonable_hours_start profile) 9) ->
  valid_hour (Py.getattr_default (reasonable_hours_end profile) 17) ->
  pytz_known (calculator_timezone_name self) = true ->
  0 < effective_interval (event_type self) ->
  window_fits_calendar (working_start profile d) (window_end w self profile d)
    (duration (event_type self)) (effective_interval (event_type self)) ->
  (forall i, (i < k)%nat ->
     grid_point (working_start profile d) (effective_interval (event_type self)) i
     + duration (event_type self) <= window_end w self profile d) ->
  grid_point (working_start profile d) (effective_interval (event_type self)) k
  + duration (event_type self) > window_end w self profile d ->
  forall fuel, (k < fuel)%nat ->
    _get_daily_slots pytz_known self d attendee_count fuel w
    = Ret (grid_slots self attendee_count w (working_start profile d)
             (effective_interval (event_type self)) k).
Proof.
  intros Hp [Hs1 Hs2] [He1 He2] Htz Hstep [Hlo Hhi] Hin Hout.
  destruct (grid_bounds _ _ _ _ k Hstep Hin) as [Hdur Hgrid].
  intros fuel Hfuel. unfold _get_daily_slots. rewrite Hp. cbn [rbind].
  unfold Py.combine_hour.
  assert (forall h, 0 <= h <= 23 -> (0 <=? h) && (h <=? 23) = true) as Hh.
  { intros h [H1 H2]. apply andb_true_iff. split; apply Z.leb_le; assumption. }
  rewrite !Hh by (split; assumption). cbn [rbind].
  unfold pytz_timezone. rewrite Htz. cbn [rbind].
  fold (working_start profile d) (working_end profile d)
       (effective_interval (event_type self)).
  fold (window_end w self profile d).
  rewrite (daily_loop_grid self attendee_count _ w _ k); try assumption.
  - reflexivity.
  - intros i Hi. specialize (Hdur i Hi). unfold Py.datetime_ok. lia.
  - intros i Hi. specialize (Hgrid i Hi). unfold Py.datetime_ok. lia.
Qed.

Lemma get_daily_slots_grid (pytz_known : string -> bool)
    (self : AvailabilityCalculator) (d : Py.date) (attendee_count : Z) (w : World)
    (profile : Profile) :
  organizer_profile w (organizer self) = Ret profile ->
  valid_hour (Py.getattr_default (reasonable_hours_start profile) 9) ->
  valid_hour (Py.getattr_default (reasonable_hours_end profile) 17) ->
  pytz_known (calculator_timezone_name self) = true ->
  0 < effective_interval (event_type self) ->
  window_fits_calendar (working_start profile d) (window_end w self profile d)
    (duration (event_type self)) (effective_interval (event_type self)) ->
  exists k : nat,
    (forall i, (i < k)%nat ->
       grid_point (working_start profile d) (effective_interval (event_type self)) i
       + duration (event_type self) <= window_end w self profile d)
    /\ grid_point (working_start profile d) (effective_interval (event_type self)) k
       + duration (event_type self) > window_end w self profile d
    /\ forall fuel, (k < fuel)%nat ->
         _get_daily_slots pytz_known self d attendee_count fuel w
         = Ret (grid_slots self attendee_count w (working_start profile d)
                  (effective_interval (event_type self)) k).
Proof.
  intros Hp Hs He Htz Hstep Hfit.
  destruct (grid_count (working_start profile d) (window_end w self profile d)
              (duration (event_type self)) (effective_interval (event_type self)) Hstep)
    as (k & Hin & Hout & _).
  exists k. split; [exact Hin|]. split; [exact Hout|].
  apply (get_daily_slots_at_grid pytz_known self d attendee_count w profile k);
    assumption.
Qed.






(** The days on which New York changes its clock, with working hours from
    midnight to 05:00 and slots of 30 minutes: the window lasts four hours
    on 2024-03-10 and six hours on 2024-11-03, and the slots keep the wall
    clock of the offset that midnight has. *)
Lemma daily_slots_on_clock_change_days :
  (exists slots,
     _get_daily_slots Scenario.all_zones Scenario.new_york_calculator
       Scenario.spring_forward 1 17 Scenario.new_york_world = Ret slots
     /\ length slots = 8%nat
     /\ last (map start_time slots) 0 = Scenario.at_ Scenario.spring_forward 3 30)
  /\ (exists slots,
        _get_daily_slots Scenario.all_zones Scenario.new_york_calculator
          Scenario.fall_back 1 17 Scenario.new_york_world = Ret slots
        /\ length slots = 12%nat
        /\ last (map start_time slots) 0 = Scenario.at_ Scenario.fall_back 5 30).
Proof.
  split; eexists; (split; [vm_compute; reflexivity|]); split; reflexivity.
Qed.

(** C6, as the specification has it: an interval of 0 and a duration of 0
    are both accepted; the slots are generated and the caller sees no
    error. *)
Lemma zero_interval_and_zero_duration_accepted :
  slot_interval_minutes Scenario.no_interval = Some 0
  /\ (exists slots,
        _get_daily_slots Scenario.all_zones (Scenario.calculator Scenario.no_interval)
          Scenario.day 1 17 (Scenario.world [] [] []) = Ret slots
        /\ length slots = 16%nat)
  /\ (exists r w',
        get_available_slots Scenario.all_zones None
          (Scenario.calculator Scenario.no_interval)
          Scenario.day Scenario.day 1 false 17 (Scenario.world [] [] []) = (Ret r, w')
        /\ error r = None /\ total_slots r = 16)
  /\ duration Scenario.no_duration = 0
  /\ (exists slots,
        _get_daily_slots Scenario.all_zones (Scenario.calculator Scenario.no_duration)
          Scenario.day 1 17 (Scenario.world [] [] []) = Ret slots
        /\ length slots = 3%nat)
  /\ (exists r w',
        get_available_slots Scenario.all_zones None
          (Scenario.calculator Scenario.no_duration)
          Scenario.day Scenario.day 1 false 17 (Scenario.world [] [] []) = (Ret r, w')
        /\ error r = None /\ total_slots r = 3).
Proof.
  split; [reflexivity|]. split.
  { eexists. split; [vm_compute; reflexivity|reflexivity]. }
  split.
  { eexists. eexists. split; [vm_compute; reflexivity|]. split; reflexivity. }
  split; [reflexivity|]. split.
  { eexists. split; [vm_compute; reflexivity|reflexivity]. }
  eexists. eexists. split; [vm_compute; reflexivity|]. split; reflexivity.
Qed.

(** ** Every loop ends *)

Lemma add_minutes_fuel (dt m : Z) : Py.add_minutes dt m <> OutOfFuel.
Proof. unfold Py.add_minutes. destruct (Py.ordinal_in_range _); discriminate. Qed.

Lemma int_or_nonzero (x : option Z) (default : Z) :
  default <> 0 -> Py.int_or x default <> 0.
Proof.
  intros Hd. unfold Py.int_or. destruct x as [v|]; [|exact Hd].
  destruct (v =? 0) eqn:E; [exact Hd|]. apply Z.eqb_neq. exact E.
Qed.

Lemma daily_loop_ends_in_range (self : AvailabilityCalculator)
    (attendee_count step : Z) (w : World) (end_time : Py.datetime) :
  step <> 0 ->
  forall (fuel : nat) (current_time : Py.datetime) (slots : list Slot),
    Py.datetime_ok current_time ->
    (Z.to_nat (if (0 <? step)%Z then (Py.MAXMINUTE - current_time)%Z
               else (current_time - Py.MINMINUTE)%Z) < fuel)%nat ->
    _get_daily_slots_loop self attendee_count step w fuel current_time end_time slots
    <> OutOfFuel.
Proof.
  intros Hstep. induction fuel as [|fuel IH]; intros cur slots Hcur Hfuel; [lia|].
  rewrite daily_loop_S.
  destruct (Py.add_minutes cur (duration (event_type self))) as [bound| |] eqn:Eb;
    cbn [rbind]; [|discriminate|destruct (add_minutes_fuel _ _ Eb)].
  destruct (bound <=? end_time); [|discriminate].
  cbn [rbind].
  destruct (Py.add_minutes cur step) as [next| |] eqn:En;
    cbn [rbind]; [|discriminate|destruct (add_minutes_fuel _ _ En)].
  apply add_minutes_ret in En. destruct En as [-> Hnext].
  apply IH; [exact Hnext|].
  unfold Py.datetime_ok in *.
  destruct (0 <? step) eqn:Es; [apply Z.ltb_lt in Es|apply Z.ltb_ge in Es]; lia.
Qed.

Lemma daily_loop_ends (self : AvailabilityCalculator)
    (attendee_count step : Z) (w : World) (end_time : Py.datetime) :
  step <> 0 ->
  forall (fuel : nat) (current_time : Py.datetime) (slots : list Slot),
    (Z.to_nat (Py.MAXMINUTE - Py.MINMINUTE) + 2 <= fuel)%nat ->
    _get_daily_slots_loop self attendee_count step w fuel current_time end_time slots
    <> OutOfFuel.
Proof.
  intros Hstep fuel cur slots Hfuel. destruct fuel as [|fuel]; [lia|].
  rewrite daily_loop_S.
  destruct (Py.add_minutes cur (duration (event_type self))) as [bound| |] eqn:Eb;
    cbn [rbind]; [|discriminate|destruct (add_minutes_fuel _ _ Eb)].
  destruct (bound <=? end_time); [|discriminate].
  cbn [rbind].
  destruct (Py.add_minutes cur step) as [next| |] eqn:En;
    cbn [rbind]; [|discriminate|destruct (add_minutes_fuel _ _ En)].
  apply add_minutes_ret in En. destruct En as [-> Hnext].
  apply daily_loop_ends_in_range; [exact Hstep|exact Hnext|].
  unfold Py.datetime_ok in *. destruct (0 <? step); lia.
Qed.

Lemma get_daily_slots_ends (pytz_known : string -> bool) (self : AvailabilityCalculator)
    (d : Py.date) (attendee_count : Z) (fuel : nat) (w : World) :
  (Z.to_nat (Py.MAXMINUTE - Py.MINMINUTE) + 2 <= fuel)%nat ->
  _get_daily_slots pytz_known self d attendee_count fuel w <> OutOfFuel.
Proof.
  intros Hfuel. unfold _get_daily_slots, organizer_profile.
  destruct (filter _ (profile_table w)) as [|profile rest]; cbn [rbind]; [discriminate|].
  unfold Py.combine_hour.
  destruct (_ && _); cbn [rbind]; [|discriminate].
  destruct (_ && _); cbn [rbind]; [|discriminate].
  unfold pytz_timezone. destruct (pytz_known _); cbn [rbind]; [|discriminate].
  apply daily_loop_ends; [|exact Hfuel].
  apply int_or_nonzero. discriminate.
Qed.

Lemma calculate_availability_loop_ends (pytz_known : string -> bool)
    (self : AvailabilityCalculator) (attendee_count : Z) (w : World)
    (daily_fuel : nat) (end_date : Py.date) :
  (Z.to_nat (Py.MAXMINUTE - Py.MINMINUTE) + 2 <= daily_fuel)%nat ->
  forall (fuel : nat) (current_date : Py.date) (slots : list Slot),
    (Z.to_nat (end_date - current_date + 1) < fuel)%nat ->
    _calculate_availability_loop pytz_known self attendee_count w daily_fuel fuel
      current_date end_date slots <> OutOfFuel.
Proof.
  intros Hdaily. induction fuel as [|fuel IH]; intros cur slots Hfuel; [lia|].
  cbn [_calculate_availability_loop].
  destruct (cur <=? end_date) eqn:Ec; [|discriminate]. apply Z.leb_le in Ec.
  assert (forall slots' : list Slot,
             rbind (Py.date_add_days cur 1)
               (fun next => _calculate_availability_loop pytz_known self attendee_count w
                              daily_fuel fuel next end_date slots') <> OutOfFuel) as Hnext.
  { intros slots'. unfold Py.date_add_days.
    destruct (Py.ordinal_in_range (cur + 1)); cbn [rbind]; [|discriminate].
    apply IH. lia. }
  destruct (can_book_on_date (event_type self) cur); cbn [rbind]; [|apply Hnext].
  destruct (_get_daily_slots pytz_known self cur attendee_count daily_fuel w)
    as [daily| |] eqn:Ed; cbn [rbind]; [apply Hnext|discriminate|].
  exfalso. exact (get_daily_slots_ends _ _ _ _ _ _ Hdaily Ed).
Qed.

Lemma compute_slots_ends (pytz_known : string -> bool) (self : AvailabilityCalculator)
    (start_date end_date : Py.date) (attendee_count : Z) (fuel : nat) (w : World) :
  (enough_fuel start_date end_date <= fuel)%nat ->
  compute_slots pytz_known self start_date end_date attendee_count fuel w <> OutOfFuel.
Proof.
  unfold enough_fuel. intros Hfuel. unfold compute_slots, _calculate_availability.
  destruct (_calculate_availability_loop pytz_known self attendee_count w fuel fuel
              start_date end_date []) as [computed| |] eqn:E;
    cbn [rbind]; [discriminate|discriminate|].
  exfalso. revert E. apply calculate_availability_loop_ends; lia.
Qed.

(** With an inverted date range the loop over the dates does not start. *)
Lemma compute_slots_inverted_range (pytz_known : string -> bool)
    (self : AvailabilityCalculator) (start_date end_date : Py.date)
    (attendee_count : Z) (fuel : nat) (w : World) :
  end_date < start_date -> (0 < fuel)%nat ->
  compute_slots pytz_known self start_date end_date attendee_count fuel w = Ret [].
Proof.
  intros Hd Hfuel. destruct fuel as [|fuel]; [lia|].
  unfold compute_slots, _calculate_availability. cbn [_calculate_availability_loop].
  assert ((start_date <=? end_date) = false) as -> by (apply Z.leb_gt; exact Hd).
  cbn [rbind]. f_equal.
  assert (_apply_recurring_logic self [] start_date end_date = []) as Hl
      by (unfold _apply_recurring_logic; destruct (get_rrule_object _); reflexivity).
  destruct (negb _); [rewrite Hl|];
    unfold _apply_recurring_exceptions;
    (destruct (recurrence_type (event_type self) =? "none")%string; [reflexivity|]);
    rewrite fold_apply_exception; reflexivity.
Qed.

(** ** The cache in front of the computation *)

Lemma usableb_spec (e : EventTypeAvailabilityCache) (now : Z) :
  usableb e now = true <-> usable e now.
Proof.
  unfold usableb, usable. rewrite andb_true_iff, negb_true_iff, Z.ltb_lt. reflexivity.
Qed.

Lemma lookup_filter (self : AvailabilityCalculator) (start_date : Py.date)
    (attendee_count now : Z) (table : list EventTypeAvailabilityCache) :
  filter (fun e => cache_key_matches self start_date attendee_count e
                   && negb (is_dirty e) && (now <? expires_at e)) table
  = filter (fun e => usableb e now)
           (filter (cache_key_matches self start_date attendee_count) table).
Proof.
  rewrite filter_twice. apply filter_ext. intros e. unfold usableb.
  symmetry. apply andb_assoc.
Qed.

Lemma get_cached_availability_hit (self : AvailabilityCalculator)
    (start_date end_date : Py.date) (attendee_count : Z) (w : World)
    (e : EventTypeAvailabilityCache) :
  filter (fun e => usableb e (clock w (ticks w)))
         (filter (cache_key_matches self start_date attendee_count) (cache_table w)) = [e] ->
  exists r,
    _get_cached_availability self start_date end_date attendee_count w
    = (Ret (Some r), after_readings 1 w)
    /\ cache_hit r = true /\ slots r = available_slots e /\ error r = None.
Proof.
  intros H. unfold _get_cached_availability.
  change (timezone_now w) with (clock w (ticks w), after_readings 1 w).
  cbv beta iota.
  change (cache_table (after_readings 1 w)) with (cache_table w).
  rewrite lookup_filter, H. cbn [objects_get].
  eexists. split; [reflexivity|]. repeat split.
Qed.

Lemma get_cached_availability_miss (self : AvailabilityCalculator)
    (start_date end_date : Py.date) (attendee_count : Z) (w : World) :
  filter (fun e => usableb e (clock w (ticks w)))
         (filter (cache_key_matches self start_date attendee_count) (cache_table w)) = [] ->
  _get_cached_availability self start_date end_date attendee_count w
  = (Ret None, after_readings 1 w).
Proof.
  intros H. unfold _get_cached_availability.
  change (timezone_now w) with (clock w (ticks w), after_readings 1 w).
  cbv beta iota.
  change (cache_table (after_readings 1 w)) with (cache_table w).
  rewrite lookup_filter, H. reflexivity.
Qed.

Lemma get_available_slots_hit (pytz_known : string -> bool) (timeout : option Z)
    (self : AvailabilityCalculator) (start_date end_date : Py.date)
    (attendee_count : Z) (fuel : nat) (w w1 : World) (r : AvailabilityResult) :
  _get_cached_availability self start_date end_date attendee_count (after_readings 1 w)
  = (Ret (Some r), w1) ->
  get_available_slots pytz_known timeout self start_date end_date attendee_count
    true fuel w = (Ret r, w1).
Proof.
  intros H. unfold get_available_slots.
  change (timezone_now w) with (clock w (ticks w), after_readings 1 w).
  cbv beta iota. rewrite H. reflexivity.
Qed.

Lemma get_available_slots_miss (pytz_known : string -> bool) (timeout : option Z)
    (self : AvailabilityCalculator) (start_date end_date : Py.date)
    (attendee_count : Z) (use_cache : bool) (fuel : nat) (w w1 : World) :
  (if use_cache
   then _get_cached_availability self start_date end_date attendee_count
          (after_readings 1 w)
   else (Ret None, after_readings 1 w)) = (Ret None, w1) ->
  (compute_slots pytz_known self start_date end_date attendee_count fuel w1 = OutOfFuel
   /\ fst (get_available_slots pytz_known timeout self start_date end_date
             attendee_count use_cache fuel w) = OutOfFuel)
  \/ exists r w',
       get_available_slots pytz_known timeout self start_date end_date attendee_count
         use_cache fuel w = (Ret r, w')
       /\ cache_hit r = false
       /\ total_slots r = Z.of_nat (length (slots r))
       /\ recomputed r
            (compute_slots pytz_known self start_date end_date attendee_count fuel w1).
Proof.
  intros H. unfold get_available_slots.
  change (timezone_now w) with (clock w (ticks w), after_readings 1 w).
  cbv beta iota. rewrite H.
  destruct (compute_slots pytz_known self start_date end_date attendee_count fuel w1)
    as [computed|x|].
  - right. destruct (timezone_now w1) as [t1 w2].
    eexists. eexists. split; [reflexivity|]. repeat split.
  - right. destruct (timezone_now (logger (ErrorCalculatingAvailability x) w1)) as [t1 w2].
    eexists. eexists. split; [reflexivity|]. repeat split.
  - left. split; reflexivity.
Qed.

(** C1. With the cache enabled and an entry [e] stored under the key of the
    query, the query returns (given enough fuel), and its result has
    cache_hit = true iff [e] is usable at the time of the lookup: not dirty
    and not expired.  A usable entry is served as it is; an entry that is
    dirty or whose expires_at is not in the future gives cache_hit = false
    and the result of a new computation. *)
Theorem cache_hit_iff_usable :
  forall (pytz_known : string -> bool) (timeout : option Z)
         (self : AvailabilityCalculator) (start_date end_date : Py.date)
         (attendee_count : Z) (w : World) (e : EventTypeAvailabilityCache),
    filter (cache_key_matches self start_date attendee_count) (cache_table w) = [e] ->
    (forall fuel, (enough_fuel start_date end_date <= fuel)%nat ->
       exists r w',
         get_available_slots pytz_known timeout self start_date end_date
           attendee_count true fuel w = (Ret r, w'))
    /\ (forall fuel r w',
          get_available_slots pytz_known timeout self start_date end_date
            attendee_count true fuel w = (Ret r, w') ->
          (cache_hit r = true <-> usable e (clock w (S (ticks w))))
          /\ (usable e (clock w (S (ticks w))) ->
              slots r = available_slots e /\ error r = None)
          /\ (~ usable e (clock w (S (ticks w))) ->
              recomputed r
                (compute_slots pytz_known self start_date end_date attendee_count
                   fuel (after_readings 2 w)))).
Proof.
  intros pytz_known timeout self start_date end_date n w e Hkey.
  destruct (usableb e (clock w (S (ticks w)))) eqn:Hu.
  - assert (filter (fun e0 => usableb e0 (clock (after_readings 1 w)
                                            (ticks (after_readings 1 w))))
                   (filter (cache_key_matches self start_date n)
                           (cache_table (after_readings 1 w))) = [e]) as Hf.
    { change (cache_table (after_readings 1 w)) with (cache_table w). rewrite Hkey.
      cbn [filter]. change (usableb e (clock w (S (ticks w))) = true) in Hu.
      cbn [after_readings timezone_now snd clock ticks]. rewrite Hu. reflexivity. }
    destruct (get_cached_availability_hit self start_date end_date n _ e Hf)
      as (r & Hr & Hhit & Hslots & Herr).
    assert (forall fuel,
               get_available_slots pytz_known timeout self start_date end_date n
                 true fuel w = (Ret r, after_readings 1 (after_readings 1 w))) as Hgas
        by (intros fuel; apply get_available_slots_hit; exact Hr).
    apply usableb_spec in Hu. split.
    + intros fuel _. exists r. eexists. apply Hgas.
    + intros fuel r' w' Hrun. rewrite Hgas in Hrun. injection Hrun as <- _.
      split; [tauto|]. split; [tauto|]. intros Hn. contradiction.
  - assert (_get_cached_availability self start_date end_date n (after_readings 1 w)
            = (Ret None, after_readings 2 w)) as Hmiss.
    { apply get_cached_availability_miss.
      change (cache_table (after_readings 1 w)) with (cache_table w). rewrite Hkey.
      cbn [filter after_readings timezone_now snd clock ticks]. rewrite Hu.
      reflexivity. }
    assert (~ usable e (clock w (S (ticks w)))) as Hn
        by (intros H; apply usableb_spec in H; congruence).
    split.
    + intros fuel Hfuel.
      destruct (get_available_slots_miss pytz_known timeout self start_date end_date
                  n true fuel w _ Hmiss) as [[Hout _]|(r & w' & Hrun & _)].
      * exfalso. revert Hout. apply compute_slots_ends. exact Hfuel.
      * exists r, w'. exact Hrun.
    + intros fuel r w' Hrun.
      destruct (get_available_slots_miss pytz_known timeout self start_date end_date
                  n true fuel w _ Hmiss) as [[_ Hout]|(r' & w'' & Hrun' & Hhit & _ & Hrec)].
      * rewrite Hrun in Hout. discriminate.
      * rewrite Hrun in Hrun'. injection Hrun' as <- _.
        split; [split; [congruence|contradiction]|].
        split; [contradiction|]. intros _. exact Hrec.
Qed.

(** Scenario E: an entry that is not dirty and whose expires_at is in the
    past is not served. *)
Lemma cache_hit_iff_usable_witness :
  let w := Scenario.world [Scenario.entry Scenario.alice Scenario.day false 0] [] [] in
  is_dirty (Scenario.entry Scenario.alice Scenario.day false 0) = false
  /\ expires_at (Scenario.entry Scenario.alice Scenario.day false 0) < clock w 1
  /\ forall fuel r w',
       get_available_slots Scenario.all_zones None
         (Scenario.calculator Scenario.individual) Scenario.day Scenario.day 1
         true fuel w = (Ret r, w') ->
       cache_hit r <> true.
Proof.
  cbv zeta. split; [reflexivity|]. split; [reflexivity|].
  intros fuel r w' Hrun Hhit.
  apply (proj2 (cache_hit_iff_usable Scenario.all_zones None
                  (Scenario.calculator Scenario.individual) Scenario.day Scenario.day 1
                  (Scenario.world [Scenario.entry Scenario.alice Scenario.day false 0] [] [])
                  (Scenario.entry Scenario.alice Scenario.day false 0) eq_refl)
               fuel r w' Hrun) in Hhit.
  destruct Hhit as [_ Hlt]. vm_compute in Hlt. discriminate Hlt.
Defined.

(** C9. A query whose start_date is after its end_date, answered without a
    usable cache entry, is no error: its result has no slot, total_slots = 0
    and no error field. *)
Theorem inverted_range_is_empty :
  forall (pytz_known : string -> bool) (timeout : option Z)
         (self : AvailabilityCalculator) (start_date end_date : Py.date)
         (attendee_count : Z) (use_cache : bool) (fuel : nat) (w : World),
    end_date < start_date ->
    (0 < fuel)%nat ->
    (use_cache = false
     \/ forall e, In e (cache_table w) ->
                  cache_key_matches self start_date attendee_count e = true ->
                  ~ usable e (clock w (S (ticks w)))) ->
    exists r w',
      get_available_slots pytz_known timeout self start_date end_date attendee_count
        use_cache fuel w = (Ret r, w')
      /\ slots r = [] /\ total_slots r = 0 /\ error r = None /\ cache_hit r = false.
Proof.
  intros pytz_known timeout self start_date end_date n use_cache fuel w Hd Hfuel Hc.
  assert (exists w1,
             (if use_cache
              then _get_cached_availability self start_date end_date n (after_readings 1 w)
              else (Ret None, after_readings 1 w)) = (Ret None, w1)) as [w1 Hmiss].
  { destruct use_cache; [|eexists; reflexivity].
    destruct Hc as [Hc|Hc]; [discriminate|].
    eexists. apply get_cached_availability_miss.
    apply filter_none. intros e He. apply filter_In in He. destruct He as [He Hk].
    change (cache_table (after_readings 1 w)) with (cache_table w) in He.
    destruct (usableb e _) eqn:Hu; [|reflexivity].
    apply usableb_spec in Hu. destruct (Hc e He Hk Hu). }
  destruct (get_available_slots_miss pytz_known timeout self start_date end_date
              n use_cache fuel w w1 Hmiss) as [[Hout _]|(r & w' & Hrun & Hhit & Htot & Hrec)].
  - rewrite compute_slots_inverted_range in Hout by assumption. discriminate.
  - rewrite compute_slots_inverted_range in Hrec by assumption.
    destruct Hrec as [Hslots Herr].
    exists r, w'. rewrite Htot, Hslots. repeat split; assumption.
Qed.

Lemma inverted_range_is_empty_witness :
  exists r w',
    get_available_slots Scenario.all_zones None
      (Scenario.calculator Scenario.individual) (Scenario.day + 1) Scenario.day 1
      false 1 (Scenario.world [] [] []) = (Ret r, w')
    /\ slots r = [] /\ total_slots r = 0 /\ error r = None /\ cache_hit r = false.
Proof.
  apply inverted_range_is_empty.
  - reflexivity.
  - apply Nat.lt_0_1.
  - left. reflexivity.
Defined.

(** * More of the module *)

(** ** What every query returns *)

Lemma get_cached_availability_multiple (self : AvailabilityCalculator)
    (start_date end_date : Py.date) (attendee_count : Z) (w : World)
    (e1 e2 : EventTypeAvailabilityCache) (rest : list EventTypeAvailabilityCache) :
  filter (fun e => usableb e (clock w (ticks w)))
         (filter (cache_key_matches self start_date attendee_count) (cache_table w))
  = e1 :: e2 :: rest ->
  _get_cached_availability self start_date end_date attendee_count w
  = (Raise MultipleObjectsReturned, after_readings 1 w).
Proof.
  intros H. unfold _get_cached_availability.
  change (timezone_now w) with (clock w (ticks w), after_readings 1 w).
  cbv beta iota.
  change (cache_table (after_readings 1 w)) with (cache_table w).
  rewrite lookup_filter, H. reflexivity.
Qed.

Lemma get_available_slots_lookup_raise (pytz_known : string -> bool) (timeout : option Z)
    (self : AvailabilityCalculator) (start_date end_date : Py.date)
    (attendee_count : Z) (fuel : nat) (w w1 : World) (x : exn) :
  _get_cached_availability self start_date end_date attendee_count (after_readings 1 w)
  = (Raise x, w1) ->
  exists r w',
    get_available_slots pytz_known timeout self start_date end_date attendee_count
      true fuel w = (Ret r, w')
    /\ error r = Some x /\ slots r = [] /\ total_slots r = 0 /\ cache_hit r = false.
Proof.
  intros H. unfold get_available_slots.
  change (timezone_now w) with (clock w (ticks w), after_readings 1 w).
  cbv beta iota. rewrite H.
  destruct (timezone_now (logger (ErrorCalculatingAvailability x) w1)) as [t1 w2].
  eexists. eexists. split; [reflexivity|]. repeat split.
Qed.

(** The outcome of the lookup that opens a query with [use_cache]. *)
Lemma cache_lookup_cases (self : AvailabilityCalculator)
    (start_date end_date : Py.date) (attendee_count : Z) (w : World) :
  (exists r e,
      _get_cached_availability self start_date end_date attendee_count w
      = (Ret (Some r), after_readings 1 w)
      /\ cache_hit r = true /\ error r = None
      /\ slots r = available_slots e
      /\ total_slots r = Z.of_nat (length (slots r))
      /\ In e (cache_table w)
      /\ cache_key_matches self start_date attendee_count e = true
      /\ usableb e (clock w (ticks w)) = true)
  \/ (_get_cached_availability self start_date end_date attendee_count w
      = (Ret None, after_readings 1 w)
      /\ forall e, In e (cache_table w) ->
                   cache_key_matches self start_date attendee_count e = true ->
                   usableb e (clock w (ticks w)) = false)
  \/ _get_cached_availability self start_date end_date attendee_count w
     = (Raise MultipleObjectsReturned, after_readings 1 w).
Proof.
  destruct (filter (fun e => usableb e (clock w (ticks w)))
              (filter (cache_key_matches self start_date attendee_count) (cache_table w)))
    as [|e1 [|e2 rest]] eqn:F.
  - right. left. split; [apply get_cached_availability_miss, F|].
    intros e He Hk. apply (proj1 (filter_none _ _) F). apply filter_In. split; assumption.
  - left.
    assert (In e1 (filter (fun e => usableb e (clock w (ticks w)))
                     (filter (cache_key_matches self start_date attendee_count)
                             (cache_table w)))) as Hin by (rewrite F; left; reflexivity).
    apply filter_In in Hin. destruct Hin as [Hin Hu].
    apply filter_In in Hin. destruct Hin as [Hin Hk].
    unfold _get_cached_availability.
    change (timezone_now w) with (clock w (ticks w), after_readings 1 w).
    cbv beta iota.
    change (cache_table (after_readings 1 w)) with (cache_table w).
    rewrite lookup_filter, F. cbn [objects_get].
    eexists. exists e1. split; [reflexivity|]. repeat split; assumption.
  - right. right. apply (get_cached_availability_multiple _ _ _ _ _ _ _ _ F).
Qed.

Lemma recomputed_shape (r : AvailabilityResult) (outcome : res (list Slot)) :
  recomputed r outcome -> error r <> None -> slots r = [].
Proof.
  destruct outcome as [computed|x|]; simpl; [|tauto|tauto].
  intros [_ He] Hn. contradiction.
Qed.

(** X1. [get_available_slots] never raises and never fails to answer: with
    enough fuel every call returns a result, whose total_slots is the
    length of its slots, and a result that carries an error has no slot and
    is no cache hit. *)
Theorem get_available_slots_always_answers :
  forall (pytz_known : string -> bool) (timeout : option Z)
         (self : AvailabilityCalculator) (start_date end_date : Py.date)
         (attendee_count : Z) (use_cache : bool) (fuel : nat) (w : World),
    (enough_fuel start_date end_date <= fuel)%nat ->
    exists r w',
      get_available_slots pytz_known timeout self start_date end_date attendee_count
        use_cache fuel w = (Ret r, w')
      /\ total_slots r = Z.of_nat (length (slots r))
      /\ (error r <> None -> slots r = [] /\ cache_hit r = false).
Proof.
  intros pytz_known timeout self start_date end_date n use_cache fuel w Hfuel.
  assert (forall w1,
             (if use_cache
              then _get_cached_availability self start_date end_date n (after_readings 1 w)
              else (Ret None, after_readings 1 w)) = (Ret None, w1) ->
             exists r w',
               get_available_slots pytz_known timeout self start_date end_date n
                 use_cache fuel w = (Ret r, w')
               /\ total_slots r = Z.of_nat (length (slots r))
               /\ (error r <> None -> slots r = [] /\ cache_hit r = false)) as Hmiss.
  { intros w1 H.
    destruct (get_available_slots_miss pytz_known timeout self start_date end_date
                n use_cache fuel w w1 H) as [[Hout _]|(r & w' & Hrun & Hhit & Htot & Hrec)].
    - exfalso. revert Hout. apply compute_slots_ends. exact Hfuel.
    - exists r, w'. split; [exact Hrun|]. split; [exact Htot|].
      intros He. split; [exact (recomputed_shape _ _ Hrec He)|exact Hhit]. }
  destruct use_cache; [|apply (Hmiss _ eq_refl)].
  destruct (cache_lookup_cases self start_date end_date n (after_readings 1 w))
    as [(r & e & Hr & Hhit & Herr & Hs & Htot & _)|[[Hr _]|Hr]].
  - exists r. eexists. split; [apply get_available_slots_hit, Hr|].
    split; [exact Htot|]. intros He. contradiction.
  - apply (Hmiss _ Hr).
  - destruct (get_available_slots_lookup_raise pytz_known timeout self start_date
                end_date n fuel w _ _ Hr) as (r & w' & Hrun & He & Hs & Ht & Hh).
    exists r, w'. split; [exact Hrun|]. rewrite Ht, Hs. split; [reflexivity|].
    intros _. split; [reflexivity|exact Hh].
Qed.

Lemma get_available_slots_always_answers_witness :
  exists r w',
    get_available_slots Scenario.all_zones None
      (Scenario.calculator Scenario.individual) Scenario.day Scenario.day 1 true
      (enough_fuel Scenario.day Scenario.day)
      (Scenario.world [] [] []) = (Ret r, w')
    /\ total_slots r = Z.of_nat (length (slots r))
    /\ (error r <> None -> slots r = [] /\ cache_hit r = false).
Proof.
  apply get_available_slots_always_answers. apply Nat.le_refl.
Defined.

(** ** What a query leaves alone *)

Lemma cache_availability_result_facts (timeout : option Z) (self : AvailabilityCalculator)
    (start_date end_date : Py.date) (attendee_count : Z)
    (result : AvailabilityResult) (computation_time : Z) (w : World) :
  same_facts w
    (_cache_availability_result timeout self start_date end_date attendee_count
       result computation_time w).
Proof.
  unfold _cache_availability_result, same_facts, timezone_now.
  destruct (Py.add_seconds _ _); [|repeat split..].
  destruct (objects_get _) as [e|[]|]; try (repeat split);
    destruct (slots_column _ _); repeat split.
Qed.

(** X2. A query reads the bookings, the exceptions, the profiles and the
    clock and never changes them; without [use_cache], and on a cache hit,
    it leaves the cache table as it is too. *)
Theorem get_available_slots_reads_only :
  forall (pytz_known : string -> bool) (timeout : option Z)
         (self : AvailabilityCalculator) (start_date end_date : Py.date)
         (attendee_count : Z) (use_cache : bool) (fuel : nat) (w : World),
    same_facts w
      (snd (get_available_slots pytz_known timeout self start_date end_date
              attendee_count use_cache fuel w))
    /\ (use_cache = false \/
        (exists r,
            fst (get_available_slots pytz_known timeout self start_date end_date
                   attendee_count use_cache fuel w) = Ret r
            /\ cache_hit r = true) ->
        cache_table (snd (get_available_slots pytz_known timeout self start_date
                            end_date attendee_count use_cache fuel w))
        = cache_table w).
Proof.
  intros pytz_known timeout self start_date end_date n use_cache fuel w.
  unfold get_available_slots.
  change (timezone_now w) with (clock w (ticks w), after_readings 1 w).
  cbv beta iota.
  assert (same_facts w (after_readings 1 w)) as H1 by (repeat split).
  assert (same_facts w (after_readings 2 w)) as H2 by (repeat split).
  assert (forall x w1, same_facts w w1 ->
                       same_facts w (snd (timezone_now (logger x w1)))) as Hlog.
  { intros x w1 (A & B & C & D). repeat split; assumption. }
  assert (forall w1, same_facts w w1 -> same_facts w (snd (timezone_now w1))) as Hnow.
  { intros w1 (A & B & C & D). repeat split; assumption. }
  destruct use_cache.
  - destruct (cache_lookup_cases self start_date end_date n (after_readings 1 w))
      as [(r & e & Hr & Hhit & _)|[[Hr _]|Hr]]; rewrite Hr.
    + split; [exact H2|]. intros _. reflexivity.
    + destruct (compute_slots pytz_known self start_date end_date n fuel _)
        as [computed|x|].
      * destruct (timezone_now (after_readings 1 (after_readings 1 w))) as [t1 w2] eqn:E.
        assert (same_facts w w2) as Hw2
            by (change w2 with (snd (t1, w2)); rewrite <- E; apply Hnow, H2).
        cbn [fst snd]. split.
        -- destruct (cache_availability_result_facts timeout self start_date end_date n
                       {| slots := computed;
                          total_slots := Z.of_nat (length computed);
                          cache_hit := false; error := None;
                          performance_metrics :=
                            {| metric_computation_time_ms := elapsed_ms (clock w (ticks w)) t1;
                               metric_cache_used := true;
                               metric_cached_at := None |} |}
                       (elapsed_ms (clock w (ticks w)) t1) w2) as (A & B & C & D).
           destruct Hw2 as (A' & B' & C' & D').
           repeat split; congruence.
        -- intros [H|(r & Hr' & Hh)]; [discriminate|].
           injection Hr' as <-. discriminate.
      * destruct (timezone_now (logger (ErrorCalculatingAvailability x) _)) as [t1 w2] eqn:E.
        assert (same_facts w w2) as Hw2
            by (change w2 with (snd (t1, w2)); rewrite <- E; apply Hlog, H2).
        cbn [fst snd]. split; [exact Hw2|].
        intros [H|(r & Hr' & Hh)]; [discriminate|].
        injection Hr' as <-. discriminate.
      * cbn [fst snd]. split; [exact H2|].
        intros [H|(r & Hr' & Hh)]; discriminate.
    + destruct (timezone_now (logger (ErrorCalculatingAvailability _) _)) as [t1 w2] eqn:E.
      assert (same_facts w w2) as Hw2
          by (change w2 with (snd (t1, w2)); rewrite <- E; apply Hlog, H2).
      cbn [fst snd]. split; [exact Hw2|].
      intros [H|(r & Hr' & Hh)]; [discriminate|].
      injection Hr' as <-. discriminate.
  - destruct (compute_slots pytz_known self start_date end_date n fuel _)
      as [computed|x|].
    + split; [repeat split|]. intros _. reflexivity.
    + split; [repeat split|]. intros _. reflexivity.
    + split; [repeat split|]. intros _. reflexivity.
Qed.

Lemma get_available_slots_reads_only_witness :
  cache_table
    (snd (get_available_slots Scenario.all_zones None
            (Scenario.calculator Scenario.individual) Scenario.day Scenario.day 1
            false 17
            (Scenario.world [Scenario.entry Scenario.alice Scenario.day true 0] [] [])))
  = [Scenario.entry Scenario.alice Scenario.day true 0].
Proof.
  apply (proj2 (get_available_slots_reads_only Scenario.all_zones None
                  (Scenario.calculator Scenario.individual) Scenario.day Scenario.day 1
                  false 17
                  (Scenario.world [Scenario.entry Scenario.alice Scenario.day true 0] [] []))).
  left. reflexivity.
Defined.

(** ** Writing to the cache and reading back *)

Lemma filter_replace_matching {A : Type} (f : A -> bool) (fresh : A) (l : list A) :
  f fresh = true ->
  filter f (map (fun e => if f e then fresh else e) l) = map (fun _ => fresh) (filter f l)
  /\ filter (fun e => negb (f e)) (map (fun e => if f e then fresh else e) l)
     = filter (fun e => negb (f e)) l.
Proof.
  intros Hf. induction l as [|a l [IH1 IH2]]; [split; reflexivity|].
  cbn [map filter]. destruct (f a) eqn:Fa.
  - rewrite Hf. cbn [negb map]. rewrite IH1, IH2. split; reflexivity.
  - rewrite Fa. cbn [negb]. rewrite IH1, IH2. split; reflexivity.
Qed.

Lemma cache_write_table (timeout : option Z) (self : AvailabilityCalculator)
    (start_date end_date : Py.date) (attendee_count : Z)
    (result : AvailabilityResult) (computation_time : Z) (w : World)
    (expires : Z) (stored : list Slot) :
  (length (filter (cache_key_matches self start_date attendee_count) (cache_table w))
   <= 1)%nat ->
  Py.add_seconds (clock w (ticks w)) (Py.getattr_default timeout 3600) = Ret expires ->
  slots_column w (slots result) = Some stored ->
  exists fresh,
    filter (cache_key_matches self start_date attendee_count)
      (cache_table (_cache_availability_result timeout self start_date end_date
                      attendee_count result computation_time w)) = [fresh]
    /\ available_slots fresh = stored
    /\ is_dirty fresh = false
    /\ expires_at fresh = expires
    /\ computed_at fresh = clock w (S (ticks w))
    /\ computation_time_ms fresh = computation_time
    /\ filter (fun e => negb (cache_key_matches self start_date attendee_count e))
         (cache_table (_cache_availability_result timeout self start_date end_date
                         attendee_count result computation_time w))
       = filter (fun e => negb (cache_key_matches self start_date attendee_count e))
           (cache_table w)
    /\ ticks (_cache_availability_result timeout self start_date end_date
                attendee_count result computation_time w) = S (S (ticks w)).
Proof.
  intros Hone Hexp Hcol. unfold _cache_availability_result, timezone_now.
  cbn [cache_table clock ticks slots_column]. rewrite Hexp, Hcol.
  set (fresh := {| cache_organizer := user_id (organizer self);
                   cache_event_type := event_type_id (event_type self);
                   cache_date := start_date;
                   cache_timezone_name := calculator_timezone_name self;
                   cache_attendee_count := attendee_count;
                   available_slots := stored;
                   computed_at := clock w (S (ticks w));
                   expires_at := expires;
                   is_dirty := false;
                   computation_time_ms := computation_time |}).
  assert (cache_key_matches self start_date attendee_count fresh = true) as Hfresh.
  { unfold cache_key_matches, fresh. cbn.
    rewrite !Z.eqb_refl, String.eqb_refl. reflexivity. }
  exists fresh.
  destruct (filter (cache_key_matches self start_date attendee_count) (cache_table w))
    as [|e0 [|e1 rest]] eqn:F; cbn [objects_get].
  - cbn [cache_table set_cache_table ticks]. rewrite !filter_app, F. cbn [filter].
    rewrite Hfresh. cbn [negb app]. rewrite app_nil_r. repeat split.
  - cbn [cache_table set_cache_table ticks].
    destruct (filter_replace_matching (cache_key_matches self start_date attendee_count)
                fresh (cache_table w) Hfresh) as [H1 H2].
    rewrite H1, H2, F. repeat split.
  - cbn [length] in Hone. lia.
Qed.

Lemma add_seconds_ret (t n r : Z) :
  Py.add_seconds t n = Ret r -> r = t + n * 1000000.
Proof.
  unfold Py.add_seconds. destruct (_ && _); [|discriminate].
  intros H. injection H as <-. reflexivity.
Qed.

(** What [except Exception] swallows in the write: the table is not
    changed and the error is logged. *)
Lemma cache_write_failure (timeout : option Z) (self : AvailabilityCalculator)
    (start_date end_date : Py.date) (attendee_count : Z)
    (result : AvailabilityResult) (computation_time : Z) (w : World) :
  (exists e, Py.add_seconds (clock w (ticks w)) (Py.getattr_default timeout 3600)
             = Raise e)
  \/ (length (filter (cache_key_matches self start_date attendee_count) (cache_table w))
      <= 1)%nat /\ slots_column w (slots result) = None ->
  cache_table (_cache_availability_result timeout self start_date end_date
                 attendee_count result computation_time w) = cache_table w
  /\ exists e,
       log (_cache_availability_result timeout self start_date end_date
              attendee_count result computation_time w)
       = log w ++ [ErrorCachingAvailability e].
Proof.
  unfold _cache_availability_result, timezone_now.
  cbn [cache_table clock ticks slots_column].
  intros [[e He]|[Hone Hcol]].
  - rewrite He. split; [reflexivity|]. exists e. reflexivity.
  - destruct (Py.add_seconds _ _) as [expires|e|] eqn:He.
    + rewrite Hcol.
      destruct (filter (cache_key_matches self start_date attendee_count) (cache_table w))
        as [|e0 [|e1 rest]] eqn:F; cbn [objects_get].
      * split; [reflexivity|]. exists TypeError. reflexivity.
      * split; [reflexivity|]. exists TypeError. reflexivity.
      * cbn [length] in Hone. lia.
    + split; [reflexivity|]. exists e. reflexivity.
    + unfold Py.add_seconds in He. destruct (_ && _); discriminate.
Qed.

(** X3. A result written to the cache is read back: after
    [_cache_availability_result], when at most one entry was stored under
    the key, the expiry time is a datetime, the column of slots takes the
    slots of the result and the entry has not expired at the next reading
    of the clock, [_get_cached_availability] for the same key returns a
    cache hit with the slots as the column gives them back. *)
Theorem cache_write_then_read :
  forall (timeout : option Z) (self : AvailabilityCalculator)
         (start_date end_date : Py.date) (attendee_count : Z)
         (result : AvailabilityResult) (computation_time : Z) (w : World)
         (expires : Z) (stored : list Slot),
    (length (filter (cache_key_matches self start_date attendee_count) (cache_table w))
     <= 1)%nat ->
    Py.add_seconds (clock w (ticks w)) (Py.getattr_default timeout 3600) = Ret expires ->
    slots_column w (slots result) = Some stored ->
    clock w (S (S (ticks w))) < expires ->
    exists r w',
      _get_cached_availability self start_date end_date attendee_count
        (_cache_availability_result timeout self start_date end_date attendee_count
           result computation_time w)
      = (Ret (Some r), w')
      /\ cache_hit r = true
      /\ slots r = stored
      /\ error r = None.
Proof.
  intros timeout self start_date end_date n result ct w expires stored
         Hone Hexp Hcol Hclock.
  destruct (cache_write_table timeout self start_date end_date n result ct w
              expires stored Hone Hexp Hcol)
    as (fresh & Hkey & Hslots & Hdirty & Hexpires & _ & _ & _ & Ht).
  destruct (cache_availability_result_facts timeout self start_date end_date n
              result ct w) as (_ & _ & _ & Hc).
  set (w1 := _cache_availability_result timeout self start_date end_date n result ct w)
    in *.
  assert (filter (fun e => usableb e (clock w1 (ticks w1)))
                 (filter (cache_key_matches self start_date n) (cache_table w1))
          = [fresh]) as Hf.
  { rewrite Hkey. cbn [filter]. unfold usableb. rewrite Hdirty, Hexpires, Hc, Ht.
    cbn [negb andb]. apply Z.ltb_lt in Hclock. rewrite Hclock. reflexivity. }
  destruct (get_cached_availability_hit self start_date end_date n w1 fresh Hf)
    as (r & Hr & Hhit & Hs & He).
  exists r. eexists. split; [exact Hr|]. rewrite Hs, Hslots. repeat split; assumption.
Qed.

Lemma cache_write_then_read_witness :
  exists r w',
    _get_cached_availability (Scenario.calculator Scenario.individual)
      Scenario.day Scenario.day 1
      (_cache_availability_result None (Scenario.calculator Scenario.individual)
         Scenario.day Scenario.day 1
         {| slots := []; total_slots := 0; cache_hit := false; error := None;
            performance_metrics :=
              {| metric_computation_time_ms := 2; metric_cache_used := true;
                 metric_cached_at := None |} |}
         2
         (Scenario.world [Scenario.entry Scenario.alice Scenario.day true 0] [] []))
    = (Ret (Some r), w')
    /\ cache_hit r = true
    /\ slots r = []
    /\ error r = None.
Proof.
  refine (cache_write_then_read None (Scenario.calculator Scenario.individual)
            Scenario.day Scenario.day 1 _ 2
            (Scenario.world [Scenario.entry Scenario.alice Scenario.day true 0] [] [])
            3600000000 [] _ _ _ _).
  - apply Nat.le_refl.
  - reflexivity.
  - reflexivity.
  - reflexivity.
Defined.

(** X4. The write keeps the key unique and touches nothing else: when at
    most one entry was stored under the key of the query, the expiry time
    is a datetime and the column of slots takes the slots of the result,
    afterwards exactly one entry is stored under the key, a clean one that
    holds the slots as the column gives them back and expires
    AVAILABILITY_CACHE_TIMEOUT seconds (3600 when unset) after the clock
    reading; the entries stored under other keys are as before.  When the
    expiry time leaves the calendar, or the column does not take the slots,
    the table is left as it was and the error is logged. *)
Theorem cache_write_keeps_key_unique :
  forall (timeout : option Z) (self : AvailabilityCalculator)
         (start_date end_date : Py.date) (attendee_count : Z)
         (result : AvailabilityResult) (computation_time : Z) (w : World),
    (length (filter (cache_key_matches self start_date attendee_count) (cache_table w))
     <= 1)%nat ->
    (forall expires stored,
        Py.add_seconds (clock w (ticks w)) (Py.getattr_default timeout 3600)
        = Ret expires ->
        slots_column w (slots result) = Some stored ->
        exists fresh,
          filter (cache_key_matches self start_date attendee_count)
            (cache_table (_cache_availability_result timeout self start_date end_date
                            attendee_count result computation_time w)) = [fresh]
          /\ available_slots fresh = stored
          /\ is_dirty fresh = false
          /\ expires_at fresh = expires
          /\ expires = clock w (ticks w) + Py.getattr_default timeout 3600 * 1000000
          /\ filter (fun e => negb (cache_key_matches self start_date attendee_count e))
               (cache_table (_cache_availability_result timeout self start_date end_date
                               attendee_count result computation_time w))
             = filter (fun e => negb (cache_key_matches self start_date attendee_count e))
                 (cache_table w))
    /\ ((exists e, Py.add_seconds (clock w (ticks w)) (Py.getattr_default timeout 3600)
                   = Raise e)
        \/ slots_column w (slots result) = None ->
        cache_table (_cache_availability_result timeout self start_date end_date
                       attendee_count result computation_time w) = cache_table w
        /\ exists e,
             log (_cache_availability_result timeout self start_date end_date
                    attendee_count result computation_time w)
             = log w ++ [ErrorCachingAvailability e]).
Proof.
  intros timeout self start_date end_date n result ct w Hone. split.
  - intros expires stored Hexp Hcol.
    destruct (cache_write_table timeout self start_date end_date n result ct w
                expires stored Hone Hexp Hcol)
      as (fresh & H1 & H2 & H3 & H4 & _ & _ & H7 & _).
    exists fresh. repeat split; try assumption.
    apply add_seconds_ret. exact Hexp.
  - intros H. apply cache_write_failure.
    destruct H as [H|H]; [left; exact H|right; split; assumption].
Qed.

Lemma cache_write_keeps_key_unique_witness :
  let w := Scenario.world [Scenario.entry Scenario.bob Scenario.day false 0] [] [] in
  let written (l : list Slot) :=
    _cache_availability_result None (Scenario.calculator Scenario.individual)
      Scenario.day Scenario.day 1
      {| slots := l; total_slots := Z.of_nat (length l);
         cache_hit := false; error := None;
         performance_metrics :=
           {| metric_computation_time_ms := 2; metric_cache_used := true;
              metric_cached_at := None |} |}
      2 w in
  (exists fresh,
     filter (cache_key_matches (Scenario.calculator Scenario.individual) Scenario.day 1)
       (cache_table (written [])) = [fresh]
     /\ available_slots fresh = []
     /\ is_dirty fresh = false
     /\ expires_at fresh = 3600 * 1000000
     /\ filter (fun e => negb (cache_key_matches (Scenario.calculator Scenario.individual)
                                 Scenario.day 1 e))
          (cache_table (written []))
        = [Scenario.entry Scenario.bob Scenario.day false 0])
  /\ cache_table
       (written [candidate_slot (Scenario.calculator Scenario.individual)
                   (Scenario.at_ Scenario.day 9 0)])
     = [Scenario.entry Scenario.bob Scenario.day false 0].
Proof.
  cbv zeta. split.
  - destruct (proj1 (cache_write_keeps_key_unique None
                       (Scenario.calculator Scenario.individual)
                       Scenario.day Scenario.day 1
                       {| slots := []; total_slots := Z.of_nat (length (@nil Slot));
                          cache_hit := false; error := None;
                          performance_metrics :=
                            {| metric_computation_time_ms := 2; metric_cache_used := true;
                               metric_cached_at := None |} |}
                       2
                       (Scenario.world [Scenario.entry Scenario.bob Scenario.day false 0]
                          [] [])
                       (Nat.le_0_l 1))
                    3600000000 [] eq_refl eq_refl)
      as (fresh & H1 & H2 & H3 & H4 & _ & H6).
    exists fresh. repeat split; assumption.
  - apply (proj2 (cache_write_keeps_key_unique None
                    (Scenario.calculator Scenario.individual)
                    Scenario.day Scenario.day 1
                    {| slots := [candidate_slot (Scenario.calculator Scenario.individual)
                                   (Scenario.at_ Scenario.day 9 0)];
                       total_slots := Z.of_nat
                                        (length [candidate_slot
                                                   (Scenario.calculator Scenario.individual)
                                                   (Scenario.at_ Scenario.day 9 0)]);
                       cache_hit := false; error := None;
                       performance_metrics :=
                         {| metric_computation_time_ms := 2; metric_cache_used := true;
                            metric_cached_at := None |} |}
                    2
                    (Scenario.world [Scenario.entry Scenario.bob Scenario.day false 0]
                       [] [])
                    (Nat.le_0_l 1))).
    right. reflexivity.
Defined.

(** ** Asking twice *)

Lemma get_cached_availability_hit_total (self : AvailabilityCalculator)
    (start_date end_date : Py.date) (attendee_count : Z) (w : World)
    (e : EventTypeAvailabilityCache) :
  filter (fun e => usableb e (clock w (ticks w)))
         (filter (cache_key_matches self start_date attendee_count) (cache_table w)) = [e] ->
  exists r,
    _get_cached_availability self start_date end_date attendee_count w
    = (Ret (Some r), after_readings 1 w)
    /\ cache_hit r = true /\ slots r = available_slots e
    /\ total_slots r = Z.of_nat (length (available_slots e)).
Proof.
  intros H. unfold _get_cached_availability.
  change (timezone_now w) with (clock w (ticks w), after_readings 1 w).
  cbv beta iota.
  change (cache_table (after_readings 1 w)) with (cache_table w).
  rewrite lookup_filter, H. cbn [objects_get].
  eexists. split; [reflexivity|]. repeat split.
Qed.

Lemma get_available_slots_computed (pytz_known : string -> bool) (timeout : option Z)
    (self : AvailabilityCalculator) (start_date end_date : Py.date)
    (attendee_count : Z) (fuel : nat) (w w1 : World) (computed : list Slot) :
  _get_cached_availability self start_date end_date attendee_count (after_readings 1 w)
  = (Ret None, w1) ->
  compute_slots pytz_known self start_date end_date attendee_count fuel w1 = Ret computed ->
  exists result computation_time,
    get_available_slots pytz_known timeout self start_date end_date attendee_count
      true fuel w
    = (Ret result,
       _cache_availability_result timeout self start_date end_date attendee_count
         result computation_time (after_readings 1 w1))
    /\ slots result = computed
    /\ total_slots result = Z.of_nat (length computed).
Proof.
  intros H Hc. unfold get_available_slots.
  change (timezone_now w) with (clock w (ticks w), after_readings 1 w).
  cbv beta iota. rewrite H, Hc.
  change (timezone_now w1) with (clock w1 (ticks w1), after_readings 1 w1).
  cbv beta iota.
  eexists. eexists. split; [reflexivity|]. split; reflexivity.
Qed.

(** X5. Asking again hits the cache: when a query with [use_cache] has
    computed its slots without error (at most one entry being stored under
    its key) and its write to the cache went through (the expiry time is a
    datetime and the column of slots took the slots), the same query asked
    again before the entry expires reports cache_hit = true and the slots
    as the column gives them back, whatever fuel it is given. *)
Theorem second_query_hits_cache :
  forall (pytz_known : string -> bool) (timeout : option Z)
         (self : AvailabilityCalculator) (start_date end_date : Py.date)
         (attendee_count : Z) (fuel fuel' : nat) (w w1 : World)
         (r1 : AvailabilityResult) (expires : Z) (stored : list Slot),
    (length (filter (cache_key_matches self start_date attendee_count) (cache_table w))
     <= 1)%nat ->
    get_available_slots pytz_known timeout self start_date end_date attendee_count
      true fuel w = (Ret r1, w1) ->
    cache_hit r1 = false ->
    error r1 = None ->
    Py.add_seconds (clock w (3 + ticks w)%nat) (Py.getattr_default timeout 3600)
    = Ret expires ->
    slots_column w (slots r1) = Some stored ->
    clock w (6 + ticks w)%nat < expires ->
    exists r2 w2,
      get_available_slots pytz_known timeout self start_date end_date attendee_count
        true fuel' w1 = (Ret r2, w2)
      /\ cache_hit r2 = true
      /\ slots r2 = stored
      /\ total_slots r2 = Z.of_nat (length stored).
Proof.
  intros pytz_known timeout self start_date end_date n fuel fuel' w w1 r1
         expires stored Hone Hrun Hmissed Hok Hexp Hcol Hclock.
  destruct (cache_lookup_cases self start_date end_date n (after_readings 1 w))
    as [(r & e & Hr & Hhit & _)|[[Hr _]|Hr]].
  - rewrite (get_available_slots_hit pytz_known timeout _ _ _ _ fuel _ _ _ Hr) in Hrun.
    injection Hrun as <- _. congruence.
  - destruct (compute_slots pytz_known self start_date end_date n fuel
                (after_readings 1 (after_readings 1 w))) as [computed|x|] eqn:Hc.
    + destruct (get_available_slots_computed pytz_known timeout self start_date end_date
                  n fuel w _ computed Hr Hc) as (result & ct & Hgas & Hs & Ht).
      rewrite Hgas in Hrun. injection Hrun as <- <-.
      set (w3 := after_readings 1 (after_readings 1 (after_readings 1 w))) in *.
      assert (length (filter (cache_key_matches self start_date n) (cache_table w3))
              <= 1)%nat as Hone3 by exact Hone.
      assert (Py.add_seconds (clock w3 (ticks w3)) (Py.getattr_default timeout 3600)
              = Ret expires) as Hexp3 by exact Hexp.
      assert (slots_column w3 (slots result) = Some stored) as Hcol3 by exact Hcol.
      destruct (cache_write_table timeout self start_date end_date n result ct w3
                  expires stored Hone3 Hexp3 Hcol3)
        as (fresh & Hkey & Hslots & Hdirty & Hexpires & _ & _ & _ & Hticks).
      destruct (cache_availability_result_facts timeout self start_date end_date n
                  result ct w3) as (_ & _ & _ & Hclk).
      set (w4 := _cache_availability_result timeout self start_date end_date n
                   result ct w3) in *.
      assert (filter (fun e => usableb e (clock (after_readings 1 w4)
                                            (ticks (after_readings 1 w4))))
                (filter (cache_key_matches self start_date n)
                        (cache_table (after_readings 1 w4))) = [fresh]) as Hf.
      { change (cache_table (after_readings 1 w4)) with (cache_table w4).
        change (clock (after_readings 1 w4)) with (clock w4).
        change (ticks (after_readings 1 w4)) with (S (ticks w4)).
        rewrite Hkey. cbn [filter]. unfold usableb.
        rewrite Hdirty, Hexpires, Hclk, Hticks. cbn [negb andb].
        change (clock w3) with (clock w). change (ticks w3) with (3 + ticks w)%nat.
        change (S (S (S (3 + ticks w)))) with (6 + ticks w)%nat.
        apply Z.ltb_lt in Hclock. rewrite Hclock. reflexivity. }
      destruct (get_cached_availability_hit_total self start_date end_date n _ fresh Hf)
        as (r2 & Hr2 & Hhit2 & Hs2 & Ht2).
      exists r2. eexists.
      split; [apply get_available_slots_hit; exact Hr2|].
      split; [exact Hhit2|]. rewrite Hs2, Ht2, Hslots. split; reflexivity.
    + destruct (get_available_slots_miss pytz_known timeout self start_date end_date
                  n true fuel w _ Hr) as [[Hout _]|(r & w' & Hgas & _ & _ & Hrec)].
      * rewrite Hc in Hout. discriminate.
      * rewrite Hgas in Hrun. injection Hrun as <- _. rewrite Hc in Hrec.
        destruct Hrec as [_ He]. congruence.
    + destruct (get_available_slots_miss pytz_known timeout self start_date end_date
                  n true fuel w _ Hr) as [[_ Hout]|(r & w' & Hgas & _ & _ & Hrec)].
      * rewrite Hrun in Hout. discriminate.
      * rewrite Hc in Hrec. destruct Hrec.
  - destruct (get_available_slots_lookup_raise pytz_known timeout self start_date
                end_date n fuel w _ _ Hr) as (r & w' & Hgas & He & _).
    rewrite Hgas in Hrun. injection Hrun as <- _. congruence.
Qed.

(** A day on which no slot is free: the first query stores the empty list,
    the second is served from the cache. *)
Lemma second_query_hits_cache_witness :
  let w := Scenario.world [] [] [] in
  let first := get_available_slots Scenario.all_zones None
                 (Scenario.calculator Scenario.whole_day)
                 Scenario.day Scenario.day 1 true 17 w in
  exists r1 r2 w2,
    fst first = Ret r1
    /\ slots r1 = []
    /\ get_available_slots Scenario.all_zones None
         (Scenario.calculator Scenario.whole_day)
         Scenario.day Scenario.day 1 true 0 (snd first) = (Ret r2, w2)
    /\ cache_hit r2 = true
    /\ slots r2 = []
    /\ total_slots r2 = 0.
Proof.
  cbv zeta.
  destruct (get_available_slots Scenario.all_zones None
              (Scenario.calculator Scenario.whole_day)
              Scenario.day Scenario.day 1 true 17 (Scenario.world [] [] []))
    as [o1 w1] eqn:Hrun.
  assert (exists r1, o1 = Ret r1 /\ cache_hit r1 = false /\ error r1 = None
                     /\ slots r1 = []) as (r1 & -> & Hh & He & Hs).
  { apply (f_equal fst) in Hrun. cbn [fst] in Hrun. vm_compute in Hrun. subst o1.
    eexists. split; [reflexivity|]. repeat split. }
  assert (slots_column (Scenario.world [] [] []) (slots r1) = Some []) as Hcol
      by (rewrite Hs; reflexivity).
  destruct (second_query_hits_cache Scenario.all_zones None
              (Scenario.calculator Scenario.whole_day) Scenario.day Scenario.day 1
              17%nat 0%nat (Scenario.world [] [] []) w1 r1 3600003000 []
              (Nat.le_0_l 1) Hrun Hh He eq_refl Hcol eq_refl)
    as (r2 & w2 & Hrun2 & Hh2 & Hs2 & Ht2).
  exists r1, r2, w2. cbn [fst snd]. repeat split; assumption.
Defined.

(** ** Invalidation, then a query *)

Lemma invalidated_table (organizer_ : User) (date_start date_end : option Py.date)
    (w : World) :
  cache_table (snd (invalidate_availability_cache organizer_ date_start date_end w))
  = map (fun e => if invalidation_filter organizer_ date_start date_end e
                  then mark_dirty e else e)
        (cache_table w).
Proof. reflexivity. Qed.

Lemma invalidated_entry_dirty (organizer_ : User) (date_start date_end : option Py.date)
    (w : World) (e' : EventTypeAvailabilityCache) :
  In e' (cache_table (snd (invalidate_availability_cache organizer_ date_start
                             date_end w))) ->
  invalidation_filter organizer_ date_start date_end e' = true ->
  is_dirty e' = true.
Proof.
  rewrite invalidated_table. intros Hin Hf.
  apply in_map_iff in Hin. destruct Hin as (e & He & _).
  destruct (invalidation_filter organizer_ date_start date_end e) eqn:F.
  - subst e'. reflexivity.
  - subst e'. congruence.
Qed.

(** X6. After [invalidate_availability_cache] for an organizer, a query of
    that organizer whose start_date lies in the invalidated range (any
    start_date when no range is given) is never served from the cache: it
    returns, and its result has cache_hit = false. *)
Theorem query_after_invalidation_misses :
  forall (pytz_known : string -> bool) (timeout : option Z)
         (self : AvailabilityCalculator) (start_date end_date : Py.date)
         (attendee_count : Z) (date_start date_end : option Py.date) (w : World),
    (forall d, date_start = Some d -> d <= start_date) ->
    (forall d, date_end = Some d -> start_date <= d) ->
    (forall fuel,
        (enough_fuel start_date end_date <= fuel)%nat ->
        exists r w',
          get_available_slots pytz_known timeout self start_date end_date
            attendee_count true fuel
            (snd (invalidate_availability_cache (organizer self) date_start date_end w))
          = (Ret r, w'))
    /\ (forall fuel r w',
          get_available_slots pytz_known timeout self start_date end_date
            attendee_count true fuel
            (snd (invalidate_availability_cache (organizer self) date_start date_end w))
          = (Ret r, w') ->
          cache_hit r = false).
Proof.
  intros pytz_known timeout self start_date end_date n date_start date_end w Hlo Hhi.
  set (w1 := snd (invalidate_availability_cache (organizer self) date_start date_end w)).
  assert (_get_cached_availability self start_date end_date n (after_readings 1 w1)
          = (Ret None, after_readings 2 w1)) as Hmiss.
  { apply get_cached_availability_miss. apply filter_none.
    intros e He. apply filter_In in He. destruct He as [He Hk].
    change (cache_table (after_readings 1 w1)) with (cache_table w1) in He.
    assert (is_dirty e = true) as Hd.
    { apply (invalidated_entry_dirty _ _ _ _ _ He).
      unfold cache_key_matches in Hk. rewrite !andb_true_iff in Hk.
      destruct Hk as [[[[Ho _] Hdate] _] _].
      apply Z.eqb_eq in Hdate. apply invalidation_filter_spec.
      split; [apply Z.eqb_eq, Ho|]. rewrite Hdate. split; assumption. }
    unfold usableb. rewrite Hd. reflexivity. }
  split.
  - intros fuel Hfuel.
    destruct (get_available_slots_miss pytz_known timeout self start_date end_date
                n true fuel w1 _ Hmiss) as [[Hout _]|(r & w' & Hrun & _)].
    + exfalso. revert Hout. apply compute_slots_ends. exact Hfuel.
    + exists r, w'. exact Hrun.
  - intros fuel r w' Hrun.
    destruct (get_available_slots_miss pytz_known timeout self start_date end_date
                n true fuel w1 _ Hmiss) as [[_ Hout]|(r' & w'' & Hrun' & Hhit & _)].
    + rewrite Hrun in Hout. discriminate.
    + rewrite Hrun in Hrun'. injection Hrun' as <- _. exact Hhit.
Qed.

Lemma query_after_invalidation_misses_witness :
  let w := Scenario.world [Scenario.entry Scenario.alice Scenario.day false 5000000]
             [] [] in
  (exists r w',
      get_available_slots Scenario.all_zones None
        (Scenario.calculator Scenario.individual) Scenario.day Scenario.day 1 true 17 w
      = (Ret r, w') /\ cache_hit r = true)
  /\ forall fuel r w',
       get_available_slots Scenario.all_zones None
         (Scenario.calculator Scenario.individual) Scenario.day Scenario.day 1 true fuel
         (snd (invalidate_availability_cache Scenario.alice
                 (Some Scenario.day) (Some (Scenario.day + 1)) w))
       = (Ret r, w') ->
       cache_hit r = false.
Proof.
  cbv zeta. split.
  - eexists. eexists. split; [vm_compute; reflexivity|reflexivity].
  - refine (proj2 (query_after_invalidation_misses Scenario.all_zones None
                     (Scenario.calculator Scenario.individual) Scenario.day Scenario.day 1
                     (Some Scenario.day) (Some (Scenario.day + 1)) _ _ _)).
    + intros d H. injection H as <-. apply Z.le_refl.
    + intros d H. injection H as <-. vm_compute. discriminate.
Defined.

(** X7. Invalidation never cleans an entry and is idempotent on the cache:
    an entry that was dirty stays dirty, and invalidating the same scope a
    second time leaves the cache table as the first invalidation left it. *)
Theorem invalidation_is_monotone_and_idempotent :
  forall (organizer_ : User) (date_start date_end : option Py.date) (w : World),
    Forall2 (fun e e' => is_dirty e = true -> is_dirty e' = true)
      (cache_table w)
      (cache_table (snd (invalidate_availability_cache organizer_ date_start date_end w)))
    /\ cache_table
         (snd (invalidate_availability_cache organizer_ date_start date_end
                 (snd (invalidate_availability_cache organizer_ date_start date_end w))))
       = cache_table
           (snd (invalidate_availability_cache organizer_ date_start date_end w)).
Proof.
  intros organizer_ date_start date_end w. rewrite !invalidated_table. split.
  - induction (cache_table w) as [|e table IH]; cbn [map]; constructor; [|exact IH].
    destruct (invalidation_filter organizer_ date_start date_end e); auto.
  - rewrite map_map. apply map_ext. intros e.
    destruct (invalidation_filter organizer_ date_start date_end e) eqn:F.
    + rewrite invalidation_filter_mark_dirty, F. reflexivity.
    + rewrite F. reflexivity.
Qed.

(** The dirty flag after an invalidation of a scope. *)
Lemma invalidated_flags (organizer_ : User) (date_start date_end : option Py.date)
    (w : World) :
  Forall2 (fun e e' =>
             same_but_dirty_flag e e'
             /\ (is_dirty e' = true
                 <-> is_dirty e = true
                     \/ in_invalidation_scope organizer_ date_start date_end e))
    (cache_table w)
    (cache_table (snd (invalidate_availability_cache organizer_ date_start date_end w))).
Proof.
  rewrite invalidated_table.
  induction (cache_table w) as [|e table IH]; cbn [map]; constructor; [|exact IH].
  destruct (invalidation_filter organizer_ date_start date_end e) eqn:F.
  - split; [unfold same_but_dirty_flag; cbn; tauto|].
    split; [|reflexivity]. intros _. right. apply invalidation_filter_spec, F.
  - split; [unfold same_but_dirty_flag; tauto|].
    split; [tauto|]. intros [H|H]; [exact H|].
    apply invalidation_filter_spec in H. congruence.
Qed.

(** X8. The blocked-time handler dirties exactly the cache entries of the
    blocked time's organizer dated within its start_date and end_date (a
    missing date leaves that side open): afterwards an entry is dirty iff it
    was dirty before or lies in that scope, and nothing else of it changes.
    A blocked time without organizer changes nothing at all. *)
Theorem blocked_time_invalidation_scope :
  forall (blocked_time : BlockedTime) (w : World),
    match blocked_organizer blocked_time with
    | Some organizer_ =>
        Forall2 (fun e e' =>
                   same_but_dirty_flag e e'
                   /\ (is_dirty e' = true
                       <-> is_dirty e = true
                           \/ in_invalidation_scope organizer_
                                (blocked_start_date blocked_time)
                                (blocked_end_date blocked_time) e))
          (cache_table w)
          (cache_table (_invalidate_cache_for_blocked_time blocked_time w))
    | None => _invalidate_cache_for_blocked_time blocked_time w = w
    end.
Proof.
  intros blocked_time w. unfold _invalidate_cache_for_blocked_time.
  destruct (blocked_organizer blocked_time) as [organizer_|]; [|reflexivity].
  apply invalidated_flags.
Qed.

(** X9. The availability-rule handler dirties every cache entry of the
    rule's organizer, whatever its date, and no entry of another organizer;
    a rule without organizer changes nothing. *)
Theorem availability_rule_invalidation_scope :
  forall (availability_rule : AvailabilityRule) (w : World),
    match rule_organizer availability_rule with
    | Some organizer_ =>
        Forall2 (fun e e' =>
                   same_but_dirty_flag e e'
                   /\ (is_dirty e' = true
                       <-> is_dirty e = true
                           \/ cache_organizer e = user_id organizer_))
          (cache_table w)
          (cache_table (_invalidate_cache_for_availability_rule availability_rule w))
    | None => _invalidate_cache_for_availability_rule availability_rule w = w
    end.
Proof.
  intros availability_rule w. unfold _invalidate_cache_for_availability_rule.
  destruct (rule_organizer availability_rule) as [organizer_|]; [|reflexivity].
  pose proof (invalidated_flags organizer_ None None w) as H.
  induction H as [|e e' l l' [Hs Hd] _ IH]; constructor; [|exact IH].
  split; [exact Hs|]. rewrite Hd. unfold in_invalidation_scope.
  split; (intros [H|H]; [left; exact H|right]).
  - apply H.
  - split; [exact H|]. split; intros d Hd'; discriminate.
Qed.

(** ** Cancelled dates *)

Lemma survives_all_spec (self : AvailabilityCalculator) (start_date end_date : Py.date)
    (w : World) (slot : Slot) :
  forallb (fun x => survives x slot) (exceptions_in_range self start_date end_date w) = true
  <-> forall x, In x (exception_table w) ->
                ~ cancels self start_date end_date (Py.date_of (start_time slot)) x.
Proof.
  rewrite forallb_forall. unfold exceptions_in_range, cancels, survives. split.
  - intros H x Hx (Het & [Hlo Hhi] & Hty & Hd).
    specialize (H x). rewrite filter_In in H.
    assert (((exception_event_type x =? event_type_id (event_type self))
             && (start_date <=? exception_date x)
             && (exception_date x <=? end_date)) = true) as Hf.
    { rewrite !andb_true_iff, Z.eqb_eq, !Z.leb_le. tauto. }
    specialize (H (conj Hx Hf)). rewrite Hty in H. cbn in H.
    apply negb_true_iff, Z.eqb_neq in H. congruence.
  - intros H x Hx. apply filter_In in Hx. destruct Hx as [Hx Hf].
    rewrite !andb_true_iff, Z.eqb_eq, !Z.leb_le in Hf.
    destruct (exception_type x =? "cancelled")%string eqn:Hty; [|reflexivity].
    apply String.eqb_eq in Hty.
    apply negb_true_iff, Z.eqb_neq. intros Hd.
    apply (H x Hx). repeat split; try tauto. congruence.
Qed.

(** X10. On a recurring event type the exception pass removes exactly the
    slots that start on a date cancelled by an exception of that event type
    within the queried range, and keeps the others in their order:
    exceptions of other event types, out of the range, or that are not
    cancellations remove nothing. *)
Theorem apply_recurring_exceptions_removes_cancelled_dates :
  forall (self : AvailabilityCalculator) (slots_ : list Slot)
         (start_date end_date : Py.date) (w : World),
    recurrence_type (event_type self) <> "none"%string ->
    exists keep : Slot -> bool,
      _apply_recurring_exceptions self slots_ start_date end_date w = filter keep slots_
      /\ forall slot,
           keep slot = true
           <-> forall x, In x (exception_table w) ->
                         ~ cancels self start_date end_date
                             (Py.date_of (start_time slot)) x.
Proof.
  intros self slots_ start_date end_date w Hrec.
  exists (fun slot => forallb (fun x => survives x slot)
                        (exceptions_in_range self start_date end_date w)).
  split.
  - unfold _apply_recurring_exceptions.
    destruct (recurrence_type (event_type self) =? "none")%string eqn:E.
    + apply String.eqb_eq in E. contradiction.
    + apply fold_apply_exception.
  - intros slot. apply survives_all_spec.
Qed.

Lemma apply_recurring_exceptions_removes_cancelled_dates_witness :
  let self := Scenario.calculator Scenario.weekly in
  _apply_recurring_exceptions self
    [candidate_slot self (Scenario.at_ Scenario.day 9 0);
     candidate_slot self (Scenario.at_ (Scenario.day + 1) 9 0)]
    Scenario.day (Scenario.day + 1)
    (Scenario.world [] [] [Scenario.cancelled; Scenario.rescheduled])
  = [candidate_slot self (Scenario.at_ (Scenario.day + 1) 9 0)]
  /\ exists keep : Slot -> bool,
       _apply_recurring_exceptions self
         [candidate_slot self (Scenario.at_ Scenario.day 9 0);
          candidate_slot self (Scenario.at_ (Scenario.day + 1) 9 0)]
         Scenario.day (Scenario.day + 1)
         (Scenario.world [] [] [Scenario.cancelled; Scenario.rescheduled])
       = filter keep
           [candidate_slot self (Scenario.at_ Scenario.day 9 0);
            candidate_slot self (Scenario.at_ (Scenario.day + 1) 9 0)]
       /\ forall slot,
            keep slot = true
            <-> forall x,
                  In x (exception_table
                          (Scenario.world [] [] [Scenario.cancelled; Scenario.rescheduled])) ->
                  ~ cancels self Scenario.day (Scenario.day + 1)
                      (Py.date_of (start_time slot)) x.
Proof.
  cbv zeta. split; [reflexivity|].
  apply apply_recurring_exceptions_removes_cancelled_dates.
  discriminate.
Defined.

(** ** The slots of one date *)

Lemma grid_slots_In (self : AvailabilityCalculator) (attendee_count : Z) (w : World)
    (start step : Z) (k : nat) (slot : Slot) :
  In slot (grid_slots self attendee_count w start step k)
  <-> exists i, (i < k)%nat
                /\ slot = candidate_slot self (grid_point start step i)
                /\ _is_slot_available self (grid_point start step i)
                     (grid_point start step i + duration (event_type self))
                     attendee_count w = true.
Proof.
  unfold grid_slots. rewrite in_map_iff. split.
  - intros (s & <- & Hs). apply filter_In in Hs. destruct Hs as [Hs Ha].
    apply in_map_iff in Hs. destruct Hs as (i & <- & Hi). apply in_seq in Hi.
    exists i. split; [lia|]. split; [reflexivity|exact Ha].
  - intros (i & Hi & -> & Ha). exists (grid_point start step i).
    split; [reflexivity|]. apply filter_In. split; [|exact Ha].
    apply in_map. apply in_seq. lia.
Qed.

Lemma StronglySorted_filter {A : Type} (R : A -> A -> Prop) (f : A -> bool) (l : list A) :
  StronglySorted R l -> StronglySorted R (filter f l).
Proof.
  induction 1 as [|a l Hs IH Hf]; cbn [filter]; [constructor|].
  destruct (f a); [|exact IH]. constructor; [exact IH|].
  apply Forall_forall. intros x Hx. apply filter_In in Hx.
  exact (proj1 (Forall_forall _ _) Hf x (proj1 Hx)).
Qed.

Lemma grid_points_sorted (step : Z) :
  0 < step ->
  forall (k : nat) (start : Z),
    StronglySorted Z.lt (map (grid_point start step) (seq 0 k)).
Proof.
  intros Hstep. induction k as [|k IH]; intros start; [constructor|].
  cbn [seq map]. rewrite <- seq_shift, map_map.
  rewrite (map_ext (fun x => grid_point start step (S x)) (grid_point (start + step) step))
    by (intros; apply grid_point_S).
  constructor; [apply IH|].
  apply Forall_forall. intros x Hx. apply in_map_iff in Hx.
  destruct Hx as (i & <- & _). unfold grid_point. nia.
Qed.

Lemma grid_slots_sorted (self : AvailabilityCalculator) (attendee_count : Z) (w : World)
    (start step : Z) (k : nat) :
  0 < step ->
  StronglySorted Z.lt (map start_time (grid_slots self attendee_count w start step k)).
Proof.
  intros Hstep. unfold grid_slots. rewrite map_map. cbn [candidate_slot start_time].
  rewrite map_id. apply StronglySorted_filter, grid_points_sorted, Hstep.
Qed.

(** X11. Under the working conditions of the time grid (positive duration
    and interval, valid hours, known zone, room on the calendar), on a date
    on which the zone does not change its clock between the start and the
    end of the working hours, the slots of the date come in strictly
    increasing order of start, and each of them starts at or after the
    working-hours start, ends at or before the working-hours end, starts on
    that date, and was found available. *)
Theorem daily_slots_within_working_hours :
  forall (pytz_known : string -> bool) (self : AvailabilityCalculator) (d : Py.date)
         (attendee_count : Z) (w : World) (profile : Profile),
    organizer_profile w (organizer self) = Ret profile ->
    valid_hour (Py.getattr_default (reasonable_hours_start profile) 9) ->
    valid_hour (Py.getattr_default (reasonable_hours_end profile) 17) ->
    pytz_known (calculator_timezone_name self) = true ->
    no_clock_change w self profile d ->
    0 < duration (event_type self) ->
    0 < effective_interval (event_type self) ->
    fits_calendar d (duration (event_type self)) (effective_interval (event_type self)) ->
    exists k : nat,
      forall fuel, (k < fuel)%nat ->
        exists slots_,
          _get_daily_slots pytz_known self d attendee_count fuel w = Ret slots_
          /\ StronglySorted Z.lt (map start_time slots_)
          /\ Forall (fun slot =>
                       working_start profile d <= start_time slot
                       /\ end_time slot <= working_end profile d
                       /\ Py.date_of (start_time slot) = d
                       /\ well_made self attendee_count w slot)
                    slots_.
Proof.
  intros pytz_known self d n w profile Hp Hs He Htz Hno Hdur Hstep Hfit.
  destruct (get_daily_slots_grid pytz_known self d n w profile Hp Hs He Htz Hstep
              (window_fits_no_clock_change w self profile d _ _ Hs He Hno Hfit))
    as (k & Hin & _ & Hrun).
  rewrite (window_end_no_clock_change _ _ _ _ Hno) in Hin.
  exists k. intros fuel Hfuel. eexists. split; [apply Hrun, Hfuel|].
  split; [apply grid_slots_sorted, Hstep|].
  apply Forall_forall. intros slot Hslot.
  apply grid_slots_In in Hslot. destruct Hslot as (i & Hi & -> & Ha).
  specialize (Hin i Hi).
  assert (working_start profile d
          <= grid_point (working_start profile d)
               (effective_interval (event_type self)) i) as Hlo
      by (unfold grid_point; nia).
  cbn [candidate_slot start_time end_time].
  split; [exact Hlo|]. split; [exact Hin|]. split.
  - unfold Py.date_of. symmetry.
    apply (Z.div_unique _ 1440 d
             (grid_point (working_start profile d)
                (effective_interval (event_type self)) i - d * 1440)); [|lia].
    left. unfold working_start, working_end, valid_hour in *. lia.
  - unfold well_made. cbn [candidate_slot start_time end_time duration_minutes
                             available_spots].
    repeat split. exact Ha.
Qed.

Lemma daily_slots_within_working_hours_witness :
  exists k : nat,
    forall fuel, (k < fuel)%nat ->
      exists slots_,
        _get_daily_slots Scenario.all_zones (Scenario.calculator Scenario.individual)
          Scenario.day 1 fuel
          (Scenario.world [] [Scenario.booking Scenario.individual 10 0 1] [])
        = Ret slots_
        /\ StronglySorted Z.lt (map start_time slots_)
        /\ Forall (fun slot =>
                     working_start Scenario.alice_profile Scenario.day <= start_time slot
                     /\ end_time slot <= working_end Scenario.alice_profile Scenario.day
                     /\ Py.date_of (start_time slot) = Scenario.day
                     /\ well_made (Scenario.calculator Scenario.individual) 1
                          (Scenario.world [] [Scenario.booking Scenario.individual 10 0 1] [])
                          slot)
                  slots_.
Proof.
  assert (fits_calendar Scenario.day 30 30) as Hfit
      by (unfold fits_calendar; split; vm_compute; discriminate).
  assert (valid_hour 9) as H9 by (unfold valid_hour; lia).
  assert (valid_hour 17) as H17 by (unfold valid_hour; lia).
  refine (daily_slots_within_working_hours Scenario.all_zones
            (Scenario.calculator Scenario.individual) Scenario.day 1
            (Scenario.world [] [Scenario.booking Scenario.individual 10 0 1] [])
            Scenario.alice_profile eq_refl H9 H17 eq_refl eq_refl _ _ Hfit); reflexivity.
Defined.

Lemma single_available_iff (self : AvailabilityCalculator)
    (candidate_start candidate_end : Py.datetime) (attendee_count : Z) (w : World) :
  is_group_event (event_type self) = false ->
  (_is_slot_available self candidate_start candidate_end attendee_count w = true
   <-> forall b, In b (booking_table w) ->
                 ~ overlapping_confirmed self candidate_start candidate_end b).
Proof.
  intros Hg. unfold _is_slot_available. rewrite Hg.
  assert (forall b, In b (conflicting_bookings self candidate_start candidate_end w)
                    <-> In b (booking_table w)
                        /\ overlapping_confirmed self candidate_start candidate_end b)
    as Hin.
  { intros b. unfold conflicting_bookings. rewrite filter_In, conflicting_filter_spec.
    reflexivity. }
  destruct (conflicting_bookings self candidate_start candidate_end w) as [|b rest].
  - split; [|reflexivity]. intros _ b Hb Ho. destruct (proj2 (Hin b) (conj Hb Ho)).
  - split; [discriminate|]. intros H. exfalso.
    destruct (proj1 (Hin b) (or_introl eq_refl)) as [Hb Ho]. exact (H b Hb Ho).
Qed.

(** X12. For a single-attendee event type, on a date on which the zone does
    not change its clock between the start and the end of the working
    hours, the slots of the date are exactly the candidates of the grid that
    no confirmed booking of the organizer overlaps: a candidate that
    overlaps one is absent, every other candidate is present, and nothing
    else is. *)
Theorem single_attendee_slots_are_the_free_candidates :
  forall (pytz_known : string -> bool) (self : AvailabilityCalculator) (d : Py.date)
         (attendee_count : Z) (w : World) (profile : Profile),
    organizer_profile w (organizer self) = Ret profile ->
    valid_hour (Py.getattr_default (reasonable_hours_start profile) 9) ->
    valid_hour (Py.getattr_default (reasonable_hours_end profile) 17) ->
    pytz_known (calculator_timezone_name self) = true ->
    no_clock_change w self profile d ->
    0 < effective_interval (event_type self) ->
    fits_calendar d (duration (event_type self)) (effective_interval (event_type self)) ->
    is_group_event (event_type self) = false ->
    exists k : nat,
      (forall i, (i < k)%nat ->
         grid_point (working_start profile d) (effective_interval (event_type self)) i
         + duration (event_type self) <= working_end profile d)
      /\ grid_point (working_start profile d) (effective_interval (event_type self)) k
         + duration (event_type self) > working_end profile d
      /\ forall fuel, (k < fuel)%nat ->
           exists slots_,
             _get_daily_slots pytz_known self d attendee_count fuel w = Ret slots_
             /\ forall slot,
                  In slot slots_
                  <-> exists i,
                        (i < k)%nat
                        /\ slot = candidate_slot self
                                    (grid_point (working_start profile d)
                                       (effective_interval (event_type self)) i)
                        /\ forall b, In b (booking_table w) ->
                                     ~ overlapping_confirmed self
                                         (start_time slot) (end_time slot) b.
Proof.
  intros pytz_known self d n w profile Hp Hs He Htz Hno Hstep Hfit Hg.
  destruct (get_daily_slots_grid pytz_known self d n w profile Hp Hs He Htz Hstep
              (window_fits_no_clock_change w self profile d _ _ Hs He Hno Hfit))
    as (k & Hin & Hout & Hrun).
  rewrite (window_end_no_clock_change _ _ _ _ Hno) in Hin, Hout.
  exists k. split; [exact Hin|]. split; [exact Hout|].
  intros fuel Hfuel. eexists. split; [apply Hrun, Hfuel|].
  intros slot. rewrite grid_slots_In. split.
  - intros (i & Hi & -> & Ha). exists i. split; [exact Hi|]. split; [reflexivity|].
    cbn [candidate_slot start_time end_time].
    apply (single_available_iff self _ _ n w Hg). exact Ha.
  - intros (i & Hi & -> & Hfree). exists i. split; [exact Hi|]. split; [reflexivity|].
    cbn [candidate_slot start_time end_time] in Hfree.
    apply (single_available_iff self _ _ n w Hg). exact Hfree.
Qed.

(** Scenario B: one confirmed booking at 10:00-10:30; the 10:00 slot is
    absent and the 09:30 slot is present. *)
Lemma single_attendee_slots_are_the_free_candidates_witness :
  let self := Scenario.calculator Scenario.individual in
  let w := Scenario.world [] [Scenario.booking Scenario.individual 10 0 1] [] in
  exists slots_,
    _get_daily_slots Scenario.all_zones self Scenario.day 1 17 w = Ret slots_
    /\ length slots_ = 15%nat
    /\ ~ In (Scenario.at_ Scenario.day 10 0) (map start_time slots_)
    /\ exists k : nat,
         forall fuel, (k < fuel)%nat ->
           exists slots',
             _get_daily_slots Scenario.all_zones self Scenario.day 1 fuel w = Ret slots'
             /\ forall slot,
                  In slot slots'
                  <-> exists i,
                        (i < k)%nat
                        /\ slot = candidate_slot self
                                    (grid_point (working_start Scenario.alice_profile
                                                   Scenario.day)
                                       (effective_interval (event_type self)) i)
                        /\ forall b, In b (booking_table w) ->
                                     ~ overlapping_confirmed self
                                         (start_time slot) (end_time slot) b.
Proof.
  cbv zeta.
  assert (fits_calendar Scenario.day 30 30) as Hfit
      by (unfold fits_calendar; split; vm_compute; discriminate).
  assert (valid_hour 9) as H9 by (unfold valid_hour; lia).
  assert (valid_hour 17) as H17 by (unfold valid_hour; lia).
  eexists. split; [vm_compute; reflexivity|]. split; [reflexivity|]. split.
  { cbn [map start_time]. intros H.
    repeat (destruct H as [H|H]; [vm_compute in H; discriminate H|]). exact H. }
  destruct (single_attendee_slots_are_the_free_candidates Scenario.all_zones
              (Scenario.calculator Scenario.individual) Scenario.day 1
              (Scenario.world [] [Scenario.booking Scenario.individual 10 0 1] [])
              Scenario.alice_profile eq_refl H9 H17 eq_refl eq_refl eq_refl Hfit eq_refl)
    as (k & _ & _ & H).
  exists k. exact H.
Defined.

(** ** What a computed result holds, whatever the configuration *)

Lemma daily_loop_well_made (self : AvailabilityCalculator)
    (attendee_count step : Z) (w : World) (end_time_ : Py.datetime) :
  forall (fuel : nat) (current_time : Py.datetime) (slots_ result : list Slot),
    Forall (fun slot => well_made self attendee_count w slot
                        /\ end_time slot <= end_time_) slots_ ->
    _get_daily_slots_loop self attendee_count step w fuel current_time end_time_ slots_
    = Ret result ->
    Forall (fun slot => well_made self attendee_count w slot
                        /\ end_time slot <= end_time_) result.
Proof.
  induction fuel as [|fuel IH]; intros cur slots_ result Hacc Hrun; [discriminate|].
  rewrite daily_loop_S in Hrun.
  destruct (Py.add_minutes cur (duration (event_type self))) as [bound| |] eqn:Eb;
    cbn [rbind] in Hrun; try discriminate.
  destruct (bound <=? end_time_) eqn:Ec;
    [|injection Hrun as <-; exact Hacc].
  cbn [rbind] in Hrun.
  destruct (Py.add_minutes cur step) as [next| |]; cbn [rbind] in Hrun; try discriminate.
  apply IH in Hrun; [exact Hrun|].
  apply add_minutes_ret in Eb. destruct Eb as [-> _]. apply Z.leb_le in Ec.
  destruct (_is_slot_available self cur (cur + duration (event_type self))
              attendee_count w) eqn:Ea; [|exact Hacc].
  apply Forall_app. split; [exact Hacc|]. constructor; [|constructor].
  split; [|exact Ec]. unfold well_made. cbn. repeat split. exact Ea.
Qed.

Lemma get_daily_slots_well_made (pytz_known : string -> bool)
    (self : AvailabilityCalculator) (d : Py.date) (attendee_count : Z) (fuel : nat)
    (w : World) (result : list Slot) :
  _get_daily_slots pytz_known self d attendee_count fuel w = Ret result ->
  Forall (well_made self attendee_count w) result.
Proof.
  unfold _get_daily_slots.
  destruct (organizer_profile w (organizer self)) as [profile| |];
    cbn [rbind]; try discriminate.
  destruct (Py.combine_hour d _) as [current_time| |]; cbn [rbind]; try discriminate.
  destruct (Py.combine_hour d _) as [end_time_| |]; cbn [rbind]; try discriminate.
  destruct (pytz_timezone pytz_known _) as [tz| |]; cbn [rbind]; try discriminate.
  intros Hrun. apply daily_loop_well_made in Hrun; [|constructor].
  apply Forall_forall. intros slot Hslot.
  exact (proj1 (proj1 (Forall_forall _ _) Hrun slot Hslot)).
Qed.

Lemma calculate_availability_loop_well_made (pytz_known : string -> bool)
    (self : AvailabilityCalculator) (attendee_count : Z) (w : World)
    (daily_fuel : nat) (end_date : Py.date) :
  forall (fuel : nat) (current_date : Py.date) (slots_ result : list Slot),
    Forall (well_made self attendee_count w) slots_ ->
    _calculate_availability_loop pytz_known self attendee_count w daily_fuel fuel
      current_date end_date slots_ = Ret result ->
    Forall (well_made self attendee_count w) result.
Proof.
  induction fuel as [|fuel IH]; intros cur slots_ result Hacc Hrun; [discriminate|].
  cbn [_calculate_availability_loop] in Hrun.
  destruct (cur <=? end_date); [|injection Hrun as <-; exact Hacc].
  destruct (can_book_on_date (event_type self) cur).
  - destruct (_get_daily_slots pytz_known self cur attendee_count daily_fuel w)
      as [daily| |] eqn:Ed; cbn [rbind] in Hrun; try discriminate.
    destruct (Py.date_add_days cur 1) as [next| |]; cbn [rbind] in Hrun; try discriminate.
    apply IH in Hrun; [exact Hrun|].
    apply Forall_app. split; [exact Hacc|].
    apply (get_daily_slots_well_made _ _ _ _ _ _ _ Ed).
  - cbn [rbind] in Hrun.
    destruct (Py.date_add_days cur 1) as [next| |]; cbn [rbind] in Hrun; try discriminate.
    apply IH in Hrun; assumption.
Qed.

Lemma Forall_filter_keep {A : Type} (P : A -> Prop) (f : A -> bool) (l : list A) :
  Forall P l -> Forall P (filter f l).
Proof.
  intros H. apply Forall_forall. intros x Hx. apply filter_In in Hx.
  exact (proj1 (Forall_forall _ _) H x (proj1 Hx)).
Qed.

Lemma compute_slots_well_made (pytz_known : string -> bool)
    (self : AvailabilityCalculator) (start_date end_date : Py.date)
    (attendee_count : Z) (fuel : nat) (w : World) (result : list Slot) :
  compute_slots pytz_known self start_date end_date attendee_count fuel w = Ret result ->
  Forall (well_made self attendee_count w) result.
Proof.
  unfold compute_slots, _calculate_availability.
  destruct (_calculate_availability_loop pytz_known self attendee_count w fuel fuel
              start_date end_date []) as [computed| |] eqn:E;
    cbn [rbind]; try discriminate.
  apply calculate_availability_loop_well_made in E; [|constructor].
  intros H. injection H as <-.
  assert (_apply_recurring_logic self computed start_date end_date = computed) as Hl
      by (unfold _apply_recurring_logic; destruct (get_rrule_object _); reflexivity).
  assert (forall l, Forall (well_made self attendee_count w) l ->
                    Forall (well_made self attendee_count w)
                      (_apply_recurring_exceptions self l start_date end_date w)) as Hx.
  { intros l Hf. unfold _apply_recurring_exceptions.
    destruct (recurrence_type (event_type self) =? "none")%string; [exact Hf|].
    rewrite fold_apply_exception. apply Forall_filter_keep, Hf. }
  destruct (negb _); [rewrite Hl|]; apply Hx, E.
Qed.

(** X13. Whatever the configuration, every slot of a result that was
    computed (cache_hit = false) was found available against the bookings
    at the time of the query, ends exactly duration minutes after it
    starts, and reports the duration and the max_attendees of the event
    type. *)
Theorem computed_slots_are_well_made :
  forall (pytz_known : string -> bool) (timeout : option Z)
         (self : AvailabilityCalculator) (start_date end_date : Py.date)
         (attendee_count : Z) (use_cache : bool) (fuel : nat) (w w' : World)
         (r : AvailabilityResult),
    get_available_slots pytz_known timeout self start_date end_date attendee_count
      use_cache fuel w = (Ret r, w') ->
    cache_hit r = false ->
    Forall (well_made self attendee_count w) (slots r).
Proof.
  intros pytz_known timeout self start_date end_date n use_cache fuel w w' r Hrun Hhit.
  assert (forall w1,
             (if use_cache
              then _get_cached_availability self start_date end_date n (after_readings 1 w)
              else (Ret None, after_readings 1 w)) = (Ret None, w1) ->
             booking_table w1 = booking_table w ->
             Forall (well_made self n w) (slots r)) as Hmiss.
  { intros w1 H Hb.
    destruct (get_available_slots_miss pytz_known timeout self start_date end_date
                n use_cache fuel w w1 H) as [[_ Hout]|(r' & w'' & Hrun' & _ & _ & Hrec)].
    - rewrite Hrun in Hout. discriminate.
    - rewrite Hrun in Hrun'. injection Hrun' as <- _.
      destruct (compute_slots pytz_known self start_date end_date n fuel w1)
        as [computed|x|] eqn:Hc; cbn [recomputed] in Hrec.
      + destruct Hrec as [-> _]. apply compute_slots_well_made in Hc.
        unfold well_made, _is_slot_available, conflicting_bookings in *.
        rewrite Hb in Hc. exact Hc.
      + destruct Hrec as [-> _]. constructor.
      + destruct Hrec. }
  destruct use_cache; [|apply (Hmiss _ eq_refl); reflexivity].
  destruct (cache_lookup_cases self start_date end_date n (after_readings 1 w))
    as [(r0 & e & Hr & Hh & _)|[[Hr _]|Hr]].
  - rewrite (get_available_slots_hit pytz_known timeout _ _ _ _ fuel _ _ _ Hr) in Hrun.
    injection Hrun as <- _. congruence.
  - apply (Hmiss _ Hr). reflexivity.
  - destruct (get_available_slots_lookup_raise pytz_known timeout self start_date
                end_date n fuel w _ _ Hr) as (r0 & w0 & Hrun0 & _ & Hs & _).
    rewrite Hrun in Hrun0. injection Hrun0 as <- _. rewrite Hs. constructor.
Qed.

Lemma computed_slots_are_well_made_witness :
  let self := Scenario.calculator Scenario.group in
  let w := Scenario.world [] [Scenario.booking Scenario.group 14 0 3] [] in
  exists r w',
    get_available_slots Scenario.all_zones None self Scenario.day Scenario.day 3
      false 17 w = (Ret r, w')
    /\ total_slots r = 15
    /\ Forall (well_made self 3 w) (slots r).
Proof.
  cbv zeta.
  destruct (get_available_slots Scenario.all_zones None
              (Scenario.calculator Scenario.group) Scenario.day Scenario.day 3 false 17
              (Scenario.world [] [Scenario.booking Scenario.group 14 0 3] []))
    as [o w'] eqn:Hrun.
  assert (exists r, o = Ret r /\ cache_hit r = false /\ total_slots r = 15)
    as (r & -> & Hh & Ht).
  { apply (f_equal fst) in Hrun. cbn [fst] in Hrun. vm_compute in Hrun. subst o.
    eexists. split; [reflexivity|]. split; reflexivity. }
  exists r, w'. split; [reflexivity|]. split; [exact Ht|].
  exact (computed_slots_are_well_made _ _ _ _ _ _ _ _ _ _ _ Hrun Hh).
Defined.

(** ** A range of dates *)

Lemma dates_from_S (start : Py.date) (n : nat) :
  dates_from start (S n) = start :: dates_from (start + 1) n.
Proof.
  unfold dates_from. cbn [seq map]. rewrite <- seq_shift, map_map.
  change (Z.of_nat 0) with 0. rewrite Z.add_0_r.
  apply (f_equal (cons start)). apply map_ext. intros i. lia.
Qed.

Lemma calculate_availability_loop_range (pytz_known : string -> bool)
    (self : AvailabilityCalculator) (attendee_count : Z) (w : World)
    (daily_fuel : nat) (first_date end_date : Py.date) (daily : Py.date -> list Slot) :
  (forall d, first_date <= d <= end_date ->
             can_book_on_date (event_type self) d = true ->
             _get_daily_slots pytz_known self d attendee_count daily_fuel w
             = Ret (daily d)) ->
  Py.MINORDINAL <= first_date ->
  end_date < Py.MAXORDINAL ->
  forall (n fuel : nat) (current_date : Py.date) (slots_ : list Slot),
    (n < fuel)%nat ->
    first_date <= current_date ->
    current_date + Z.of_nat n = end_date + 1 ->
    _calculate_availability_loop pytz_known self attendee_count w daily_fuel fuel
      current_date end_date slots_
    = Ret (slots_
           ++ flat_map (fun d => if can_book_on_date (event_type self) d
                                 then daily d else [])
                (dates_from current_date n)).
Proof.
  intros Hdaily Hmin Hmax.
  induction n as [|n IH]; intros fuel cur slots_ Hfuel Hlow Hend;
    (destruct fuel as [|fuel]; [lia|]); cbn [_calculate_availability_loop].
  - assert ((cur <=? end_date) = false) as -> by (apply Z.leb_gt; lia).
    cbn. rewrite app_nil_r. reflexivity.
  - assert ((cur <=? end_date) = true) as -> by (apply Z.leb_le; lia).
    assert (Py.date_add_days cur 1 = Ret (cur + 1)) as Hnext.
    { unfold Py.date_add_days, Py.ordinal_in_range.
      assert ((Py.MINORDINAL <=? cur + 1) = true) as -> by (apply Z.leb_le; lia).
      assert ((cur + 1 <=? Py.MAXORDINAL) = true) as -> by (apply Z.leb_le; lia).
      reflexivity. }
    rewrite dates_from_S. cbn [flat_map].
    destruct (can_book_on_date (event_type self) cur) eqn:Hb.
    + rewrite Hdaily; [|lia|exact Hb].
      cbn [rbind]. rewrite Hnext. cbn [rbind].
      rewrite IH by lia. rewrite app_assoc. reflexivity.
    + cbn [rbind]. rewrite Hnext. cbn [rbind]. rewrite IH by lia. reflexivity.
Qed.

(** X14. Over a range of valid dates that ends before date.max,
    [_calculate_availability] is the concatenation, in the order of the
    dates, of the daily slots of the dates on which can_book_on_date holds;
    the other dates contribute nothing. *)
Theorem calculate_availability_in_date_order :
  forall (pytz_known : string -> bool) (self : AvailabilityCalculator)
         (start_date end_date : Py.date) (attendee_count : Z) (fuel : nat) (w : World)
         (daily : Py.date -> list Slot),
    Py.MINORDINAL <= start_date ->
    start_date <= end_date + 1 ->
    end_date < Py.MAXORDINAL ->
    (Z.to_nat (end_date - start_date + 1) < fuel)%nat ->
    (forall d, start_date <= d <= end_date ->
               can_book_on_date (event_type self) d = true ->
               _get_daily_slots pytz_known self d attendee_count fuel w = Ret (daily d)) ->
    _calculate_availability pytz_known self start_date end_date attendee_count fuel w
    = Ret (flat_map (fun d => if can_book_on_date (event_type self) d
                              then daily d else [])
             (dates_from start_date (Z.to_nat (end_date - start_date + 1)))).
Proof.
  intros pytz_known self start_date end_date n fuel w daily Hmin Hle Hmax Hfuel Hdaily.
  unfold _calculate_availability.
  rewrite (calculate_availability_loop_range pytz_known self n w fuel start_date
             end_date daily Hdaily Hmin Hmax (Z.to_nat (end_date - start_date + 1)));
    [reflexivity|exact Hfuel|lia|lia].
Qed.

(** Two dates, the second of which cannot be booked. *)
Lemma calculate_availability_in_date_order_witness :
  let et := {| event_type_id := 12; duration := 240; slot_interval_minutes := Some 240;
               max_attendees := 1; recurrence_type := "none"%string;
               can_book_on_date := fun d => d =? Scenario.day;
               get_rrule_object := None |} in
  let self := Scenario.calculator et in
  _calculate_availability Scenario.all_zones self Scenario.day (Scenario.day + 1) 1 17
    (Scenario.world [] [] [])
  = Ret [candidate_slot self (Scenario.at_ Scenario.day 9 0);
         candidate_slot self (Scenario.at_ Scenario.day 13 0)].
Proof.
  cbv zeta.
  rewrite (calculate_availability_in_date_order Scenario.all_zones _
             Scenario.day (Scenario.day + 1) 1 17 (Scenario.world [] [] [])
             (fun d => [candidate_slot (Scenario.calculator
                                          {| event_type_id := 12; duration := 240;
                                             slot_interval_minutes := Some 240;
                                             max_attendees := 1;
                                             recurrence_type := "none"%string;
                                             can_book_on_date := fun d => d =? Scenario.day;
                                             get_rrule_object := None |})
                          (Scenario.at_ d 9 0);
                        candidate_slot (Scenario.calculator
                                          {| event_type_id := 12; duration := 240;
                                             slot_interval_minutes := Some 240;
                                             max_attendees := 1;
                                             recurrence_type := "none"%string;
                                             can_book_on_date := fun d => d =? Scenario.day;
                                             get_rrule_object := None |})
                          (Scenario.at_ d 13 0)])).
  - reflexivity.
  - vm_compute. discriminate.
  - vm_compute. discriminate.
  - reflexivity.
  - vm_compute. apply Nat.leb_le. reflexivity.
  - intros d Hd Hb. cbn [can_book_on_date event_type Scenario.calculator] in Hb.
    apply Z.eqb_eq in Hb. subst d. vm_compute. reflexivity.
Defined.

(** ** The last date of the calendar *)

Lemma calculate_availability_loop_past_max (pytz_known : string -> bool)
    (self : AvailabilityCalculator) (attendee_count : Z) (w : World)
    (daily_fuel : nat) (end_date : Py.date) :
  Py.MAXORDINAL <= end_date ->
  forall (fuel : nat) (current_date : Py.date) (slots_ result : list Slot),
    current_date <= end_date ->
    _calculate_availability_loop pytz_known self attendee_count w daily_fuel fuel
      current_date end_date slots_ <> Ret result.
Proof.
  intros Hmax. induction fuel as [|fuel IH]; intros cur slots_ result Hcur; [discriminate|].
  cbn [_calculate_availability_loop].
  assert ((cur <=? end_date) = true) as -> by (apply Z.leb_le; exact Hcur).
  assert (forall slots',
             rbind (Py.date_add_days cur 1)
               (fun next => _calculate_availability_loop pytz_known self attendee_count w
                              daily_fuel fuel next end_date slots') <> Ret result) as Hnext.
  { intros slots'. unfold Py.date_add_days, Py.ordinal_in_range.
    destruct ((Py.MINORDINAL <=? cur + 1) && (cur + 1 <=? Py.MAXORDINAL)) eqn:E;
      cbn [rbind]; [|discriminate].
    apply andb_true_iff in E. destruct E as [_ E]. apply Z.leb_le in E.
    apply IH. lia. }
  destruct (can_book_on_date (event_type self) cur); cbn [rbind]; [|apply Hnext].
  destruct (_get_daily_slots pytz_known self cur attendee_count daily_fuel w)
    as [daily| |]; cbn [rbind]; [apply Hnext|discriminate|discriminate].
Qed.

Lemma compute_slots_past_max (pytz_known : string -> bool)
    (self : AvailabilityCalculator) (start_date end_date : Py.date)
    (attendee_count : Z) (fuel : nat) (w : World) (result : list Slot) :
  start_date <= end_date -> Py.MAXORDINAL <= end_date ->
  compute_slots pytz_known self start_date end_date attendee_count fuel w <> Ret result.
Proof.
  intros Hle Hmax. unfold compute_slots, _calculate_availability.
  destruct (_calculate_availability_loop pytz_known self attendee_count w fuel fuel
              start_date end_date []) as [computed| |] eqn:E;
    cbn [rbind]; [|discriminate|discriminate].
  exfalso. revert E. apply calculate_availability_loop_past_max; assumption.
Qed.

(** X15. A range that reaches date.max (9999-12-31) cannot be computed: the
    loop over the dates steps past the last date of the calendar, so a query
    without cache over a non-empty range whose end_date is date.max always
    answers with an error and no slot. *)
Theorem query_up_to_date_max_is_an_error :
  forall (pytz_known : string -> bool) (timeout : option Z)
         (self : AvailabilityCalculator) (start_date end_date : Py.date)
         (attendee_count : Z) (w : World),
    start_date <= end_date ->
    end_date = Py.MAXORDINAL ->
    (forall fuel,
        (enough_fuel start_date end_date <= fuel)%nat ->
        exists r w',
          get_available_slots pytz_known timeout self start_date end_date
            attendee_count false fuel w = (Ret r, w'))
    /\ (forall fuel r w',
          get_available_slots pytz_known timeout self start_date end_date
            attendee_count false fuel w = (Ret r, w') ->
          error r <> None /\ slots r = [] /\ total_slots r = 0).
Proof.
  intros pytz_known timeout self start_date end_date n w Hle Hmax.
  assert (forall fuel,
             (compute_slots pytz_known self start_date end_date n fuel (after_readings 1 w)
              = OutOfFuel
              /\ fst (get_available_slots pytz_known timeout self start_date end_date n
                        false fuel w) = OutOfFuel)
             \/ exists r w',
                  get_available_slots pytz_known timeout self start_date end_date n
                    false fuel w = (Ret r, w')
                  /\ error r <> None /\ slots r = [] /\ total_slots r = 0) as Hcases.
  { intros fuel.
    destruct (get_available_slots_miss pytz_known timeout self start_date end_date
                n false fuel w _ eq_refl) as [H|(r & w' & Hrun & _ & Htot & Hrec)];
      [left; exact H|right].
    exists r, w'. split; [exact Hrun|].
    destruct (compute_slots pytz_known self start_date end_date n fuel (after_readings 1 w))
      as [computed|x|] eqn:Hc; cbn [recomputed] in Hrec.
    - exfalso. revert Hc. apply compute_slots_past_max; lia.
    - destruct Hrec as [Hs He]. rewrite Htot, Hs, He. repeat split. discriminate.
    - destruct Hrec. }
  split.
  - intros fuel Hfuel. destruct (Hcases fuel) as [[Hout _]|(r & w' & Hrun & _)].
    + exfalso. revert Hout. apply compute_slots_ends. exact Hfuel.
    + exists r, w'. exact Hrun.
  - intros fuel r w' Hrun. destruct (Hcases fuel) as [[_ Hout]|(r' & w'' & Hrun' & H)].
    + rewrite Hrun in Hout. discriminate.
    + rewrite Hrun in Hrun'. injection Hrun' as <- _. exact H.
Qed.

Lemma query_up_to_date_max_is_an_error_witness :
  exists r w',
    get_available_slots Scenario.all_zones None
      (Scenario.calculator Scenario.individual) Py.MAXORDINAL Py.MAXORDINAL 1
      false 17 (Scenario.world [] [] []) = (Ret r, w')
    /\ error r = Some OverflowError
    /\ (error r <> None /\ slots r = [] /\ total_slots r = 0).
Proof.
  destruct (get_available_slots Scenario.all_zones None
              (Scenario.calculator Scenario.individual) Py.MAXORDINAL Py.MAXORDINAL 1
              false 17 (Scenario.world [] [] [])) as [o w'] eqn:Hrun.
  assert (exists r, o = Ret r /\ error r = Some OverflowError) as (r & -> & He).
  { apply (f_equal fst) in Hrun. cbn [fst] in Hrun. vm_compute in Hrun. subst o.
    eexists. split; reflexivity. }
  exists r, w'. split; [reflexivity|]. split; [exact He|].
  exact (proj2 (query_up_to_date_max_is_an_error Scenario.all_zones None
                  (Scenario.calculator Scenario.individual) Py.MAXORDINAL Py.MAXORDINAL 1
                  (Scenario.world [] [] []) (Z.le_refl _) eq_refl)
               17%nat r w' Hrun).
Defined.

(** ** Errors and their causes *)

Lemma add_minutes_raise (dt m : Z) (e : exn) :
  Py.add_minutes dt m = Raise e -> e = OverflowError.
Proof.
  unfold Py.add_minutes. destruct (Py.ordinal_in_range _); [discriminate|].
  intros H. injection H as <-. reflexivity.
Qed.

Lemma daily_loop_raise (self : AvailabilityCalculator)
    (attendee_count step : Z) (w : World) (end_time_ : Py.datetime) (e : exn) :
  forall (fuel : nat) (current_time : Py.datetime) (slots_ : list Slot),
    _get_daily_slots_loop self attendee_count step w fuel current_time end_time_ slots_
    = Raise e ->
    e = OverflowError.
Proof.
  induction fuel as [|fuel IH]; intros cur slots_ Hrun; [discriminate|].
  rewrite daily_loop_S in Hrun.
  destruct (Py.add_minutes cur (duration (event_type self))) as [bound|x|] eqn:Eb;
    cbn [rbind] in Hrun; [|injection Hrun as <-; exact (add_minutes_raise _ _ _ Eb)
                          |discriminate].
  destruct (bound <=? end_time_); [|discriminate]. cbn [rbind] in Hrun.
  destruct (Py.add_minutes cur step) as [next|x|] eqn:En;
    cbn [rbind] in Hrun; [|injection Hrun as <-; exact (add_minutes_raise _ _ _ En)
                          |discriminate].
  exact (IH _ _ Hrun).
Qed.

Lemma combine_hour_cases (d : Py.date) (h : Z) :
  (valid_hour h /\ Py.combine_hour d h = Ret (d * 1440 + h * 60))
  \/ (~ valid_hour h /\ Py.combine_hour d h = Raise ValueError).
Proof.
  unfold Py.combine_hour, valid_hour.
  destruct ((0 <=? h) && (h <=? 23)) eqn:E.
  - left. apply andb_true_iff in E. destruct E as [E1 E2].
    apply Z.leb_le in E1, E2. split; [lia|reflexivity].
  - right. split; [|reflexivity]. intros [H1 H2].
    apply Z.leb_le in H1, H2. rewrite H1, H2 in E. discriminate.
Qed.

Lemma get_daily_slots_raise (pytz_known : string -> bool) (self : AvailabilityCalculator)
    (d : Py.date) (attendee_count : Z) (fuel : nat) (w : World) (e : exn) :
  _get_daily_slots pytz_known self d attendee_count fuel w = Raise e ->
  computation_error_cause pytz_known self w e.
Proof.
  unfold _get_daily_slots.
  destruct (organizer_profile w (organizer self)) as [profile|x|] eqn:Ep; cbn [rbind].
  - destruct (combine_hour_cases d (Py.getattr_default (reasonable_hours_start profile) 9))
      as [[Hs ->]|[Hs ->]]; cbn [rbind].
    + destruct (combine_hour_cases d (Py.getattr_default (reasonable_hours_end profile) 17))
        as [[He ->]|[He ->]]; cbn [rbind].
      * unfold pytz_timezone.
        destruct (pytz_known (calculator_timezone_name self)) eqn:Etz; cbn [rbind].
        -- intros Hrun. apply daily_loop_raise in Hrun. subst e. exact I.
        -- intros H. injection H as <-. split; [reflexivity|exact Etz].
      * intros H. injection H as <-. exists profile. split; [exact Ep|tauto].
    + intros H. injection H as <-. exists profile. split; [exact Ep|tauto].
  - intros H. injection H as <-. unfold organizer_profile in Ep.
    destruct (filter _ (profile_table w)) eqn:F; [|discriminate].
    injection Ep as <-. cbn [computation_error_cause].
    unfold organizer_profile. rewrite F. reflexivity.
  - discriminate.
Qed.

Lemma calculate_availability_loop_raise (pytz_known : string -> bool)
    (self : AvailabilityCalculator) (attendee_count : Z) (w : World)
    (daily_fuel : nat) (end_date : Py.date) (e : exn) :
  forall (fuel : nat) (current_date : Py.date) (slots_ : list Slot),
    _calculate_availability_loop pytz_known self attendee_count w daily_fuel fuel
      current_date end_date slots_ = Raise e ->
    computation_error_cause pytz_known self w e.
Proof.
  induction fuel as [|fuel IH]; intros cur slots_ Hrun; [discriminate|].
  cbn [_calculate_availability_loop] in Hrun.
  destruct (cur <=? end_date); [|discriminate].
  assert (forall slots',
             rbind (Py.date_add_days cur 1)
               (fun next => _calculate_availability_loop pytz_known self attendee_count w
                              daily_fuel fuel next end_date slots') = Raise e ->
             computation_error_cause pytz_known self w e) as Hnext.
  { intros slots'. unfold Py.date_add_days.
    destruct (Py.ordinal_in_range (cur + 1)); cbn [rbind]; [apply IH|].
    intros H. injection H as <-. exact I. }
  destruct (can_book_on_date (event_type self) cur); cbn [rbind] in Hrun;
    [|exact (Hnext _ Hrun)].
  destruct (_get_daily_slots pytz_known self cur attendee_count daily_fuel w)
    as [daily|x|] eqn:Ed; cbn [rbind] in Hrun;
    [exact (Hnext _ Hrun)| |discriminate].
  injection Hrun as <-. exact (get_daily_slots_raise _ _ _ _ _ _ _ Ed).
Qed.

Lemma compute_slots_raise (pytz_known : string -> bool)
    (self : AvailabilityCalculator) (start_date end_date : Py.date)
    (attendee_count : Z) (fuel : nat) (w : World) (e : exn) :
  compute_slots pytz_known self start_date end_date attendee_count fuel w = Raise e ->
  computation_error_cause pytz_known self w e.
Proof.
  unfold compute_slots, _calculate_availability.
  destruct (_calculate_availability_loop pytz_known self attendee_count w fuel fuel
              start_date end_date []) as [computed|x|] eqn:E;
    cbn [rbind]; [discriminate| |discriminate].
  intros H. injection H as <-.
  exact (calculate_availability_loop_raise _ _ _ _ _ _ _ _ _ _ E).
Qed.

(** X16. The error of a result has one of five causes: two or more usable
    cache entries under the key of the query (MultipleObjectsReturned, only
    with [use_cache]), datetime arithmetic that leaves the years 1..9999
    (OverflowError), a working hour of the organizer's profile outside 0..23
    (ValueError), a time zone of the calculator that pytz does not know
    (UnknownTimeZoneError), or an organizer without profile
    (RelatedObjectDoesNotExist).  No other exception reaches the caller. *)
Theorem error_has_a_cause :
  forall (pytz_known : string -> bool) (timeout : option Z)
         (self : AvailabilityCalculator) (start_date end_date : Py.date)
         (attendee_count : Z) (use_cache : bool) (fuel : nat) (w w' : World)
         (r : AvailabilityResult) (e : exn),
    get_available_slots pytz_known timeout self start_date end_date attendee_count
      use_cache fuel w = (Ret r, w') ->
    error r = Some e ->
    (e = MultipleObjectsReturned
     /\ use_cache = true
     /\ (2 <= length (filter (fun c => usableb c (clock w (S (ticks w))))
                        (filter (cache_key_matches self start_date attendee_count)
                                (cache_table w))))%nat)
    \/ computation_error_cause pytz_known self w e.
Proof.
  intros pytz_known timeout self start_date end_date n use_cache fuel w w' r e Hrun He.
  assert (forall w1,
             (if use_cache
              then _get_cached_availability self start_date end_date n (after_readings 1 w)
              else (Ret None, after_readings 1 w)) = (Ret None, w1) ->
             profile_table w1 = profile_table w ->
             computation_error_cause pytz_known self w e) as Hmiss.
  { intros w1 H Hp.
    destruct (get_available_slots_miss pytz_known timeout self start_date end_date
                n use_cache fuel w w1 H) as [[_ Hout]|(r' & w'' & Hrun' & _ & _ & Hrec)].
    - rewrite Hrun in Hout. discriminate.
    - rewrite Hrun in Hrun'. injection Hrun' as <- _.
      destruct (compute_slots pytz_known self start_date end_date n fuel w1)
        as [computed|x|] eqn:Hc; cbn [recomputed] in Hrec.
      + destruct Hrec as [_ Hn]. congruence.
      + destruct Hrec as [_ Hx]. rewrite He in Hx. injection Hx as ->.
        apply compute_slots_raise in Hc.
        destruct x; cbn [computation_error_cause] in *; try exact Hc;
          unfold organizer_profile in *; rewrite Hp in Hc; exact Hc.
      + destruct Hrec. }
  destruct use_cache; [|right; apply (Hmiss _ eq_refl); reflexivity].
  destruct (filter (fun c => usableb c (clock w (S (ticks w))))
              (filter (cache_key_matches self start_date n) (cache_table w)))
    as [|e1 [|e2 rest]] eqn:F.
  - right. apply (Hmiss (after_readings 2 w)); [|reflexivity].
    apply get_cached_availability_miss. exact F.
  - destruct (get_cached_availability_hit self start_date end_date n
                (after_readings 1 w) e1 F) as (r0 & Hr & _ & _ & Herr).
    rewrite (get_available_slots_hit pytz_known timeout _ _ _ _ fuel _ _ _ Hr) in Hrun.
    injection Hrun as <- _. congruence.
  - left.
    pose proof (get_cached_availability_multiple self start_date end_date n
                  (after_readings 1 w) e1 e2 rest F) as Hr.
    destruct (get_available_slots_lookup_raise pytz_known timeout self start_date
                end_date n fuel w _ _ Hr) as (r0 & w0 & Hrun0 & He0 & _).
    rewrite Hrun in Hrun0. injection Hrun0 as <- _.
    rewrite He in He0. injection He0 as ->.
    split; [reflexivity|]. split; [reflexivity|]. cbn [length]. lia.
Qed.

Lemma error_has_a_cause_witness :
  let self := {| organizer := Scenario.alice; event_type := Scenario.individual;
                 calculator_timezone_name := "Mars/Olympus"%string |} in
  let known := fun name => (name =? "UTC")%string in
  exists r w',
    get_available_slots known None self Scenario.day Scenario.day 1 false 17
      (Scenario.world [] [] []) = (Ret r, w')
    /\ error r = Some (UnknownTimeZoneError "Mars/Olympus")
    /\ computation_error_cause known self (Scenario.world [] [] [])
         (UnknownTimeZoneError "Mars/Olympus").
Proof.
  cbv zeta.
  destruct (get_available_slots (fun name => (name =? "UTC")%string) None
              {| organizer := Scenario.alice; event_type := Scenario.individual;
                 calculator_timezone_name := "Mars/Olympus"%string |}
              Scenario.day Scenario.day 1 false 17 (Scenario.world [] [] []))
    as [o w'] eqn:Hrun.
  assert (exists r, o = Ret r /\ error r = Some (UnknownTimeZoneError "Mars/Olympus"))
    as (r & -> & He).
  { apply (f_equal fst) in Hrun. cbn [fst] in Hrun. vm_compute in Hrun. subst o.
    eexists. split; reflexivity. }
  exists r, w'. split; [reflexivity|]. split; [exact He|].
  destruct (error_has_a_cause _ _ _ _ _ _ _ _ _ _ _ _ Hrun He) as [[H _]|H];
    [discriminate H|exact H].
Defined.

(** ** Intervals and durations are not checked *)

Lemma apply_recurring_logic_identity (self : AvailabilityCalculator)
    (slots_ : list Slot) (start_date end_date : Py.date) :
  _apply_recurring_logic self slots_ start_date end_date = slots_.
Proof. unfold _apply_recurring_logic. destruct (get_rrule_object _); reflexivity. Qed.

Lemma compute_slots_one_date (pytz_known : string -> bool)
    (self : AvailabilityCalculator) (d : Py.date) (attendee_count : Z)
    (fuel : nat) (w : World) (daily : list Slot) :
  can_book_on_date (event_type self) d = true ->
  Py.MINORDINAL <= d < Py.MAXORDINAL ->
  (1 < fuel)%nat ->
  _get_daily_slots pytz_known self d attendee_count fuel w = Ret daily ->
  compute_slots pytz_known self d d attendee_count fuel w
  = Ret (_apply_recurring_exceptions self daily d d w).
Proof.
  intros Hbook [Hmin Hmax] Hfuel Hdaily. unfold compute_slots, _calculate_availability.
  rewrite (calculate_availability_loop_range pytz_known self attendee_count w fuel
             d d (fun _ => daily)) with (n := 1%nat); try lia.
  - cbn [dates_from seq map flat_map app rbind].
    change (Z.of_nat 0) with 0. rewrite Z.add_0_r, Hbook, app_nil_r.
    destruct (negb _); [rewrite apply_recurring_logic_identity|]; reflexivity.
  - intros d' Hd' _. assert (d' = d) as -> by lia. exact Hdaily.
Qed.

Lemma daily_loop_backwards (self : AvailabilityCalculator)
    (attendee_count step : Z) (w : World) (end_time_ : Py.datetime) :
  step < 0 ->
  forall (fuel : nat) (current_time : Py.datetime) (slots_ : list Slot),
    Py.datetime_ok current_time ->
    current_time + duration (event_type self) <= end_time_ ->
    (Z.to_nat (current_time - Py.MINMINUTE) < fuel)%nat ->
    _get_daily_slots_loop self attendee_count step w fuel current_time end_time_ slots_
    = Raise OverflowError.
Proof.
  intros Hstep. induction fuel as [|fuel IH]; intros cur slots_ Hcur Hin Hfuel; [lia|].
  rewrite daily_loop_S.
  destruct (Py.add_minutes cur (duration (event_type self))) as [bound|e|] eqn:Eb;
    cbn [rbind].
  - apply add_minutes_ret in Eb. destruct Eb as [-> _].
    assert ((cur + duration (event_type self) <=? end_time_) = true) as ->
        by (apply Z.leb_le; exact Hin).
    cbn [rbind].
    destruct (Py.add_minutes cur step) as [next|e|] eqn:En; cbn [rbind].
    + apply add_minutes_ret in En. destruct En as [-> Hnext].
      apply IH; [exact Hnext|lia|]. unfold Py.datetime_ok in *. lia.
    + apply add_minutes_raise in En. rewrite En. reflexivity.
    + destruct (add_minutes_fuel _ _ En).
  - apply add_minutes_raise in Eb. rewrite Eb. reflexivity.
  - destruct (add_minutes_fuel _ _ Eb).
Qed.

Lemma get_daily_slots_backwards (pytz_known : string -> bool)
    (self : AvailabilityCalculator) (d : Py.date) (attendee_count : Z) (w : World)
    (profile : Profile) :
  organizer_profile w (organizer self) = Ret profile ->
  valid_hour (Py.getattr_default (reasonable_hours_start profile) 9) ->
  valid_hour (Py.getattr_default (reasonable_hours_end profile) 17) ->
  pytz_known (calculator_timezone_name self) = true ->
  Py.MINORDINAL <= d <= Py.MAXORDINAL ->
  effective_interval (event_type self) < 0 ->
  working_start profile d + duration (event_type self) <= window_end w self profile d ->
  forall fuel, (enough_fuel d d <= fuel)%nat ->
    _get_daily_slots pytz_known self d attendee_count fuel w = Raise OverflowError.
Proof.
  intros Hp [Hs1 Hs2] [He1 He2] Htz [Hmin Hmax] Hstep Hin fuel Hfuel.
  unfold _get_daily_slots. rewrite Hp. cbn [rbind].
  unfold Py.combine_hour.
  assert (forall h, 0 <= h <= 23 -> (0 <=? h) && (h <=? 23) = true) as Hh.
  { intros h [H1 H2]. apply andb_true_iff. split; apply Z.leb_le; assumption. }
  rewrite !Hh by (split; assumption). cbn [rbind].
  unfold pytz_timezone. rewrite Htz. cbn [rbind].
  fold (working_start profile d) (working_end profile d)
       (effective_interval (event_type self)).
  fold (window_end w self profile d).
  assert (Py.datetime_ok (working_start profile d)) as Hok.
  { unfold Py.datetime_ok, working_start, Py.MINMINUTE, Py.MAXMINUTE. lia. }
  apply daily_loop_backwards; [exact Hstep|exact Hok|exact Hin|].
  unfold enough_fuel in Hfuel. unfold Py.datetime_ok in Hok. lia.
Qed.

Lemma compute_slots_daily_raise (pytz_known : string -> bool)
    (self : AvailabilityCalculator) (d : Py.date) (attendee_count : Z)
    (fuel : nat) (w : World) (e : exn) :
  can_book_on_date (event_type self) d = true ->
  (0 < fuel)%nat ->
  _get_daily_slots pytz_known self d attendee_count fuel w = Raise e ->
  compute_slots pytz_known self d d attendee_count fuel w = Raise e.
Proof.
  intros Hbook Hfuel Hdaily. destruct fuel as [|fuel']; [lia|].
  unfold compute_slots, _calculate_availability.
  cbn [_calculate_availability_loop]. rewrite Z.leb_refl, Hbook, Hdaily. reflexivity.
Qed.

(** C6, as the code has it. Nothing is rejected for its interval or its
    duration, and there is no InvalidConfigurationError.  An
    interval_minutes of 0, or unset, is replaced by 30, and with a positive
    interval a duration that is zero or negative is used as any other: the
    slots of the date are the available candidates at the first [k] points
    of the grid, [k] being the first point whose candidate ends after the
    end of the window; slot generation returns them and raises nothing, and
    a query for that date answers with them (less the cancelled dates of a
    recurring event type) and reports no error.  With a negative interval
    the computation begins and walks back from the working-hours start, as
    soon as one candidate fits the window, until the datetime arithmetic
    leaves the calendar: what the caller sees then is the OverflowError, in
    a result without slots. *)
Theorem get_daily_slots_no_configuration_check :
  forall (pytz_known : string -> bool) (timeout : option Z)
         (self : AvailabilityCalculator) (d : Py.date)
         (attendee_count : Z) (w : World) (profile : Profile),
    organizer_profile w (organizer self) = Ret profile ->
    valid_hour (Py.getattr_default (reasonable_hours_start profile) 9) ->
    valid_hour (Py.getattr_default (reasonable_hours_end profile) 17) ->
    pytz_known (calculator_timezone_name self) = true ->
    can_book_on_date (event_type self) d = true ->
    Py.MINORDINAL <= d < Py.MAXORDINAL ->
    (slot_interval_minutes (event_type self) = Some 0
     \/ slot_interval_minutes (event_type self) = None ->
     effective_interval (event_type self) = 30)
    /\ (slot_interval_minutes (event_type self) = Some 0
        \/ slot_interval_minutes (event_type self) = None
        \/ (exists v, slot_interval_minutes (event_type self) = Some v /\ 0 < v
                      /\ duration (event_type self) <= 0) ->
        window_fits_calendar (working_start profile d) (window_end w self profile d)
          (duration (event_type self)) (effective_interval (event_type self)) ->
        exists k : nat,
          (forall i, (i < k)%nat ->
             grid_point (working_start profile d) (effective_interval (event_type self)) i
             + duration (event_type self) <= window_end w self profile d)
          /\ grid_point (working_start profile d) (effective_interval (event_type self)) k
             + duration (event_type self) > window_end w self profile d
          /\ forall fuel, (S k < fuel)%nat ->
               _get_daily_slots pytz_known self d attendee_count fuel w
               = Ret (grid_slots self attendee_count w (working_start profile d)
                        (effective_interval (event_type self)) k)
               /\ exists r w',
                    get_available_slots pytz_known timeout self d d attendee_count
                      false fuel w = (Ret r, w')
                    /\ error r = None
                    /\ cache_hit r = false
                    /\ slots r
                       = _apply_recurring_exceptions self
                           (grid_slots self attendee_count w (working_start profile d)
                              (effective_interval (event_type self)) k) d d w
                    /\ total_slots r = Z.of_nat (length (slots r)))
    /\ (forall v, slot_interval_minutes (event_type self) = Some v ->
                  v < 0 ->
                  working_start profile d + duration (event_type self)
                  <= window_end w self profile d ->
                  forall fuel, (enough_fuel d d <= fuel)%nat ->
                    _get_daily_slots pytz_known self d attendee_count fuel w
                    = Raise OverflowError
                    /\ exists r w',
                         get_available_slots pytz_known timeout self d d attendee_count
                           false fuel w = (Ret r, w')
                         /\ error r = Some OverflowError
                         /\ slots r = []).
Proof.
  intros pytz_known timeout self d n w profile Hp Hs He Htz Hbook [Hmin Hmax].
  assert (slot_interval_minutes (event_type self) = Some 0
          \/ slot_interval_minutes (event_type self) = None ->
          effective_interval (event_type self) = 30) as H30.
  { unfold effective_interval. intros [-> | ->]; reflexivity. }
  split; [exact H30|]. split.
  - intros Hcfg Hfit.
    assert (0 < effective_interval (event_type self)) as Hstep.
    { destruct Hcfg as [H|[H|(v & H & Hv & _)]].
      - rewrite H30 by (left; exact H). lia.
      - rewrite H30 by (right; exact H). lia.
      - unfold effective_interval, Py.int_or. rewrite H.
        destruct (v =? 0) eqn:E; [apply Z.eqb_eq in E|]; lia. }
    destruct (grid_count (working_start profile d) (window_end w self profile d)
                (duration (event_type self)) (effective_interval (event_type self)) Hstep)
      as (k & Hin & Hout & _).
    exists k. split; [exact Hin|]. split; [exact Hout|].
    intros fuel Hfuel. split.
    + apply (get_daily_slots_at_grid pytz_known self d n w profile k);
        try assumption. lia.
    + assert (compute_slots pytz_known self d d n fuel (after_readings 1 w)
              = Ret (_apply_recurring_exceptions self
                       (grid_slots self n w (working_start profile d)
                          (effective_interval (event_type self)) k) d d w)) as Hc.
      { apply (compute_slots_one_date pytz_known self d n fuel (after_readings 1 w));
          [exact Hbook|split; assumption|lia|].
        apply (get_daily_slots_at_grid pytz_known self d n (after_readings 1 w) profile k);
          try assumption. lia. }
      destruct (get_available_slots_miss pytz_known timeout self d d n false fuel w
                  (after_readings 1 w) eq_refl)
        as [[Hout' _]|(r & w' & Hgas & Hhit & Htotal & Hrec)].
      * rewrite Hc in Hout'. discriminate.
      * rewrite Hc in Hrec. destruct Hrec as [Hslots Herr].
        exists r, w'. repeat split; assumption.
  - intros v Hv Hneg Hin fuel Hfuel.
    assert (effective_interval (event_type self) < 0) as Hstep.
    { unfold effective_interval, Py.int_or. rewrite Hv.
      destruct (v =? 0) eqn:E; [apply Z.eqb_eq in E; lia|exact Hneg]. }
    split.
    + apply (get_daily_slots_backwards pytz_known self d n w profile);
        try assumption. lia.
    + assert (compute_slots pytz_known self d d n fuel (after_readings 1 w)
              = Raise OverflowError) as Hc.
      { apply compute_slots_daily_raise; [exact Hbook|unfold enough_fuel in Hfuel; lia|].
        apply (get_daily_slots_backwards pytz_known self d n (after_readings 1 w) profile);
          try assumption. lia. }
      destruct (get_available_slots_miss pytz_known timeout self d d n false fuel w
                  (after_readings 1 w) eq_refl)
        as [[Hout' _]|(r & w' & Hgas & _ & _ & Hrec)].
      * rewrite Hc in Hout'. discriminate.
      * rewrite Hc in Hrec. destruct Hrec as [Hslots Herr].
        exists r, w'. repeat split; assumption.
Qed.

(** A duration of 0 with an interval of 240: the three candidates at
    09:00, 13:00 and 17:00, each of length zero, are returned. *)
Lemma get_daily_slots_no_configuration_check_witness :
  exists k : nat,
    (forall i, (i < k)%nat ->
       grid_point (working_start Scenario.alice_profile Scenario.day) 240 i + 0
       <= working_end Scenario.alice_profile Scenario.day)
    /\ grid_point (working_start Scenario.alice_profile Scenario.day) 240 k + 0
       > working_end Scenario.alice_profile Scenario.day
    /\ forall fuel, (S k < fuel)%nat ->
         _get_daily_slots Scenario.all_zones (Scenario.calculator Scenario.no_duration)
           Scenario.day 1 fuel (Scenario.world [] [] [])
         = Ret (grid_slots (Scenario.calculator Scenario.no_duration) 1
                  (Scenario.world [] [] [])
                  (working_start Scenario.alice_profile Scenario.day) 240 k)
         /\ exists r w',
              get_available_slots Scenario.all_zones None
                (Scenario.calculator Scenario.no_duration) Scenario.day Scenario.day 1
                false fuel (Scenario.world [] [] []) = (Ret r, w')
              /\ error r = None
              /\ cache_hit r = false
              /\ slots r
                 = grid_slots (Scenario.calculator Scenario.no_duration) 1
                     (Scenario.world [] [] [])
                     (working_start Scenario.alice_profile Scenario.day) 240 k
              /\ total_slots r = Z.of_nat (length (slots r)).
Proof.
  assert (window_fits_calendar
            (working_start Scenario.alice_profile Scenario.day)
            (window_end (Scenario.world [] [] [])
               (Scenario.calculator Scenario.no_duration)
               Scenario.alice_profile Scenario.day) 0 240) as Hfit
      by (unfold window_fits_calendar; split; vm_compute; discriminate).
  assert (valid_hour 9) as H9 by (unfold valid_hour; lia).
  assert (valid_hour 17) as H17 by (unfold valid_hour; lia).
  assert (Py.MINORDINAL <= Scenario.day < Py.MAXORDINAL) as Hd
      by (split; [vm_compute; discriminate|reflexivity]).
  refine (proj1 (proj2 (get_daily_slots_no_configuration_check Scenario.all_zones None
                   (Scenario.calculator Scenario.no_duration) Scenario.day 1
                   (Scenario.world [] [] []) Scenario.alice_profile
                   eq_refl H9 H17 eq_refl eq_refl Hd)) _ Hfit).
  right. right. exists 240. split; [reflexivity|]. split; [reflexivity|].
  vm_compute. discriminate.
Defined.

(** ** The public interface and the validation of time zones *)

(** X17. A time zone that [validate_timezone_for_booking] rejects is a time
    zone that the public interface cannot serve: validation answers
    (False, "Invalid timezone: <name>"), and [get_available_time_slots]
    without cache, over a range that starts on a bookable date of an
    organizer with a profile and valid working hours, answers with the
    UnknownTimeZoneError of that name and no slot instead of raising. *)
Theorem rejected_timezone_gives_error_result :
  forall (pytz_known : string -> bool) (timeout : option Z)
         (organizer_ : User) (event_type_ : EventType) (start_date end_date : Py.date)
         (invitee_timezone : string) (attendee_count : Z) (fuel : nat) (w : World)
         (profile : Profile),
    fst (validate_timezone_for_booking pytz_known invitee_timezone) = false ->
    start_date <= end_date ->
    can_book_on_date event_type_ start_date = true ->
    organizer_profile w organizer_ = Ret profile ->
    valid_hour (Py.getattr_default (reasonable_hours_start profile) 9) ->
    valid_hour (Py.getattr_default (reasonable_hours_end profile) 17) ->
    (0 < fuel)%nat ->
    snd (validate_timezone_for_booking pytz_known invitee_timezone)
    = Some ("Invalid timezone: " ++ invitee_timezone)%string
    /\ exists r w',
         get_available_time_slots pytz_known timeout organizer_ event_type_
           start_date end_date invitee_timezone attendee_count false fuel w = (Ret r, w')
         /\ error r = Some (UnknownTimeZoneError invitee_timezone)
         /\ slots r = [] /\ total_slots r = 0.
Proof.
  intros pytz_known timeout organizer_ event_type_ start_date end_date tz n fuel w
         profile Hv Hle Hbook Hp [Hs1 Hs2] [He1 He2] Hfuel.
  assert (pytz_known tz = false) as Htz.
  { unfold validate_timezone_for_booking, pytz_timezone in Hv.
    destruct (pytz_known tz); [discriminate|reflexivity]. }
  split.
  { unfold validate_timezone_for_booking, pytz_timezone. rewrite Htz. reflexivity. }
  unfold get_available_time_slots.
  set (self := {| organizer := organizer_; event_type := event_type_;
                  calculator_timezone_name := tz |}).
  assert (compute_slots pytz_known self start_date end_date n fuel (after_readings 1 w)
          = Raise (UnknownTimeZoneError tz)) as Hc.
  { destruct fuel as [|fuel]; [lia|].
    unfold compute_slots, _calculate_availability.
    cbn [_calculate_availability_loop].
    assert ((start_date <=? end_date) = true) as -> by (apply Z.leb_le; exact Hle).
    change (can_book_on_date (event_type self) start_date)
      with (can_book_on_date event_type_ start_date).
    rewrite Hbook.
    assert (_get_daily_slots pytz_known self start_date n (S fuel) (after_readings 1 w)
            = Raise (UnknownTimeZoneError tz)) as ->; [|reflexivity].
    unfold _get_daily_slots.
    change (organizer_profile (after_readings 1 w) (organizer self))
      with (organizer_profile w organizer_).
    rewrite Hp. cbn [rbind]. unfold Py.combine_hour.
    assert (forall h, 0 <= h <= 23 -> (0 <=? h) && (h <=? 23) = true) as Hh.
    { intros h [H1 H2]. apply andb_true_iff. split; apply Z.leb_le; assumption. }
    rewrite !Hh by (split; assumption). cbn [rbind].
    unfold pytz_timezone. change (calculator_timezone_name self) with tz.
    rewrite Htz. reflexivity. }
  destruct (get_available_slots_miss pytz_known timeout self start_date end_date
              n false fuel w _ eq_refl) as [[Hout _]|(r & w' & Hrun & _ & Htot & Hrec)].
  - rewrite Hc in Hout. discriminate.
  - rewrite Hc in Hrec. destruct Hrec as [Hs He].
    exists r, w'. rewrite Htot, Hs. repeat split; assumption.
Qed.

Lemma rejected_timezone_gives_error_result_witness :
  let known := fun name => (name =? "UTC")%string in
  snd (validate_timezone_for_booking known "Mars/Olympus")
  = Some "Invalid timezone: Mars/Olympus"%string
  /\ exists r w',
       get_available_time_slots known None Scenario.alice Scenario.individual
         Scenario.day Scenario.day "Mars/Olympus" 1 false 1 (Scenario.world [] [] [])
       = (Ret r, w')
       /\ error r = Some (UnknownTimeZoneError "Mars/Olympus")
       /\ slots r = [] /\ total_slots r = 0.
Proof.
  cbv zeta.
  assert (valid_hour 9) as H9 by (unfold valid_hour; lia).
  assert (valid_hour 17) as H17 by (unfold valid_hour; lia).
  refine (rejected_timezone_gives_error_result (fun name => (name =? "UTC")%string) None
            Scenario.alice Scenario.individual Scenario.day Scenario.day
            "Mars/Olympus" 1 1 (Scenario.world [] [] []) Scenario.alice_profile
            eq_refl (Z.le_refl _) eq_refl eq_refl H9 H17 Nat.lt_0_1).
Defined.

(** ** The client's address *)

Lemma split_comma_head (s : string) :
  no_comma (hd EmptyString (split_comma s))
  /\ (s = hd EmptyString (split_comma s)
      \/ exists tail,
           s = (hd EmptyString (split_comma s) ++ String comma tail)%string).
Proof.
  induction s as [|c rest [IHn IHs]].
  - split; [intros []|left; reflexivity].
  - cbn [split_comma]. destruct (Ascii.eqb c comma) eqn:E.
    + apply Ascii.eqb_eq in E. subst c. cbn [hd]. split; [intros []|].
      right. exists rest. reflexivity.
    + apply Ascii.eqb_neq in E.
      destruct (split_comma rest) as [|first others]; cbn [hd] in *.
      * split.
        -- intros [H|[]]. congruence.
        -- destruct IHs as [->|(tail & ->)]; [left; reflexivity|].
           right. exists tail. reflexivity.
      * split.
        -- cbn [list_ascii_of_string]. intros [H|H]; [congruence|exact (IHn H)].
        -- destruct IHs as [->|(tail & ->)]; [left; reflexivity|].
           right. exists tail. reflexivity.
Qed.

(** X18. [get_client_ip_from_request] answers with the first address of a
    non-empty X-Forwarded-For header: the part of the header before its
    first comma, as it stands (it holds no comma, and the header is that part
    alone or that part, a comma and a tail).  Without the header, or with an
    empty one, it answers with REMOTE_ADDR. *)
Theorem client_ip_is_first_forwarded_address :
  forall (request : HttpRequest),
    match META request "HTTP_X_FORWARDED_FOR"%string with
    | Some (String c rest) =>
        exists ip,
          get_client_ip_from_request request = Some ip
          /\ no_comma ip
          /\ (String c rest = ip
              \/ exists tail, String c rest = (ip ++ String comma tail)%string)
    | _ => get_client_ip_from_request request = META request "REMOTE_ADDR"%string
    end.
Proof.
  intros request. unfold get_client_ip_from_request.
  destruct (META request "HTTP_X_FORWARDED_FOR"%string) as [[|c rest]|];
    [reflexivity| |reflexivity].
  eexists. split; [reflexivity|]. apply split_comma_head.
Qed.

(** ** A change of time zone *)

Lemma invalidated_all_flags (organizer_ : User) (w : World) :
  Forall2 (fun e e' =>
             same_but_dirty_flag e e'
             /\ (is_dirty e' = true
                 <-> is_dirty e = true \/ cache_organizer e = user_id organizer_))
    (cache_table w)
    (cache_table (snd (invalidate_availability_cache organizer_ None None w))).
Proof.
  pose proof (invalidated_flags organizer_ None None w) as H.
  induction H as [|e e' l l' [Hs Hd] _ IH]; constructor; [|exact IH].
  split; [exact Hs|]. rewrite Hd. unfold in_invalidation_scope.
  split; (intros [H|H]; [left; exact H|right]).
  - apply H.
  - split; [exact H|]. split; intros d Hd'; discriminate.
Qed.

(** X19. When the profile handler sees a change of time zone, that is a
    save that names 'timezone_name' in update_fields, or a save without
    update_fields whose stored row has another timezone_name, it dirties
    every cache entry of the profile's user, whatever its date, and no
    entry of another user. *)
Theorem profile_timezone_change_dirties_the_users_entries :
  forall (instance : Profile) (update_fields : option (list string)) (w : World),
    (exists l, update_fields = Some l /\ In "timezone_name"%string l)
    \/ ((update_fields = None \/ update_fields = Some [])
        /\ exists old,
             find (fun p => profile_pk p =? profile_pk instance) (profile_table w)
             = Some old
             /\ timezone_name old <> timezone_name instance) ->
    Forall2 (fun e e' =>
               same_but_dirty_flag e e'
               /\ (is_dirty e' = true
                   <-> is_dirty e = true
                       \/ cache_organizer e = user_id (profile_user instance)))
      (cache_table w)
      (cache_table (handle_profile_timezone_change instance update_fields w)).
Proof.
  intros instance update_fields w [(l & -> & Hin)|[Hnone (old & Hfind & Hdiff)]].
  - unfold handle_profile_timezone_change.
    assert (truthy_fields (Some l) = true) as -> by (destruct l; [destruct Hin|reflexivity]).
    assert (field_in "timezone_name" (Some l) = true) as ->.
    { unfold field_in. apply existsb_exists. exists "timezone_name"%string.
      split; [exact Hin|apply String.eqb_refl]. }
    apply invalidated_all_flags.
  - unfold handle_profile_timezone_change, objects_get_pk.
    assert (truthy_fields update_fields = false) as ->
        by (destruct Hnone as [-> | ->]; reflexivity).
    cbn [andb negb]. rewrite Hfind.
    assert ((timezone_name old =? timezone_name instance)%string = false) as ->
        by (apply String.eqb_neq; exact Hdiff).
    apply invalidated_all_flags.
Qed.

Lemma profile_timezone_change_dirties_the_users_entries_witness :
  let w := Scenario.world [Scenario.entry Scenario.alice Scenario.day false 0;
                           Scenario.entry Scenario.bob Scenario.day false 0] [] [] in
  let moved := {| profile_pk := 10; profile_user := Scenario.alice;
                  timezone_name := "Europe/Paris";
                  reasonable_hours_start := Some 9; reasonable_hours_end := Some 17 |} in
  map is_dirty (cache_table (handle_profile_timezone_change moved None w))
  = [true; false]
  /\ Forall2 (fun e e' =>
                same_but_dirty_flag e e'
                /\ (is_dirty e' = true
                    <-> is_dirty e = true
                        \/ cache_organizer e = user_id (profile_user moved)))
       (cache_table w)
       (cache_table (handle_profile_timezone_change moved None w)).
Proof.
  cbv zeta. split; [reflexivity|].
  apply profile_timezone_change_dirties_the_users_entries.
  right. split; [left; reflexivity|].
  exists Scenario.alice_profile. split; [reflexivity|]. discriminate.
Defined.

(** ** Rescheduling a booking *)

Lemma fresh_availability (pytz_known : string -> bool) (timeout : option Z)
    (self : AvailabilityCalculator) (start_date end_date : Py.date)
    (attendee_count : Z) (fuel : nat) (w : World) :
  fst (get_available_slots pytz_known timeout self start_date end_date attendee_count
         false fuel w) = OutOfFuel
  \/ exists r w1,
       get_available_slots pytz_known timeout self start_date end_date attendee_count
         false fuel w = (Ret r, w1)
       /\ same_facts w w1
       /\ cache_table w1 = cache_table w
       /\ Forall (well_made self attendee_count w) (slots r).
Proof.
  unfold get_available_slots.
  change (timezone_now w) with (clock w (ticks w), after_readings 1 w).
  cbv beta iota.
  destruct (compute_slots pytz_known self start_date end_date attendee_count fuel
              (after_readings 1 w)) as [computed|x|] eqn:Hc.
  - right. eexists. eexists. split; [reflexivity|].
    split; [repeat split|]. split; [reflexivity|].
    apply compute_slots_well_made in Hc. exact Hc.
  - right. eexists. eexists. split; [reflexivity|].
    split; [repeat split|]. split; [reflexivity|]. constructor.
  - left. reflexivity.
Qed.

Lemma save_row_stored (id : Z) (row : Booking) :
  forall (ids : list Z) (rows : list Booking),
    length ids = length rows ->
    stored_row id (fst (save_row id row ids rows)) (snd (save_row id row ids rows))
    = Some row.
Proof.
  induction ids as [|i ids IH]; intros rows Hlen.
  - destruct rows; [|discriminate]. cbn. rewrite Z.eqb_refl. reflexivity.
  - destruct rows as [|r rows]; [discriminate|]. cbn [save_row].
    destruct (i =? id) eqn:E.
    + cbn. rewrite E. reflexivity.
    + specialize (IH rows ltac:(cbn in Hlen; lia)).
      destruct (save_row id row ids rows) as [ids' rows']. cbn in *.
      rewrite E. exact IH.
Qed.

Lemma save_row_rows (id : Z) (row : Booking) :
  forall (ids : list Z) (rows : list Booking) (x : Booking),
    In x (snd (save_row id row ids rows)) -> In x rows \/ x = row.
Proof.
  induction ids as [|i ids IH]; intros rows x Hx.
  - cbn in Hx. apply in_app_or in Hx. destruct Hx as [Hx|[Hx|[]]]; auto.
  - destruct rows as [|r rows].
    + cbn in Hx. destruct Hx as [Hx|[]]. auto.
    + cbn [save_row] in Hx. destruct (i =? id).
      * cbn in Hx. destruct Hx as [Hx|Hx]; [right; auto|left; right; exact Hx].
      * specialize (IH rows x).
        destruct (save_row id row ids rows) as [ids' rows']. cbn in *.
        destruct Hx as [Hx|Hx]; [left; left; exact Hx|].
        destruct (IH Hx) as [H|H]; [left; right; exact H|right; exact H].
Qed.

Lemma save_row_lengths (id : Z) (row : Booking) :
  forall (ids : list Z) (rows : list Booking),
    length ids = length rows ->
    length (fst (save_row id row ids rows)) = length (snd (save_row id row ids rows)).
Proof.
  induction ids as [|i ids IH]; intros rows Hlen.
  - destruct rows; [reflexivity|discriminate].
  - destruct rows as [|r rows]; [discriminate|]. cbn [save_row].
    destruct (i =? id); [cbn in *; lia|].
    specialize (IH rows ltac:(cbn in Hlen; lia)).
    destruct (save_row id row ids rows) as [ids' rows']. cbn in *. lia.
Qed.

Section ReschedulingFacts.

Variable pytz_known : string -> bool.
Variable timeout : option Z.
Variables isoformat isoformat_instant str_datetime : Z -> string.
Variable str_exn : exn -> string.

(** X20. A successful rescheduling was offered and is recorded: it is
    possible only for a booking that can be rescheduled and a new start that
    is the start of a slot of a fresh computation of the availability for
    its date; the booking then starts at the new start, ends duration
    minutes later and has status 'rescheduled', its row is stored under its
    key, and one row 'booking_rescheduled' is added to the audit log. *)
Theorem rescheduling_success :
  forall (booking : BookingInstance) (new_start_time : Py.datetime)
         (ip_address user_agent : string) (fuel : nat) (db : Database)
         (errors : list string) (booking' : BookingInstance) (db' : Database),
    length (booking_ids db) = length (booking_table (db_world db)) ->
    handle_booking_rescheduling pytz_known timeout isoformat isoformat_instant
      str_datetime str_exn booking new_start_time ip_address user_agent fuel db
    = Ret ((true, errors), booking', db') ->
    errors = []
    /\ can_be_rescheduled booking = true
    /\ (exists r w1,
           get_available_slots pytz_known timeout (rescheduling_calculator booking)
             (Py.date_of new_start_time) (Py.date_of new_start_time)
             (instance_attendee_count booking) false fuel (db_world db) = (Ret r, w1)
           /\ In new_start_time (map start_time (slots r)))
    /\ instance_start_time booking' = new_start_time
    /\ instance_end_time booking'
       = new_start_time + duration (instance_event_type booking)
    /\ instance_status booking' = "rescheduled"%string
    /\ instance_id booking' = instance_id booking
    /\ instance_attendee_count booking' = instance_attendee_count booking
    /\ stored_row (instance_id booking) (booking_ids db') (booking_table (db_world db'))
       = Some (row_of booking')
    /\ exists entry,
         audit_table db' = audit_table db ++ [entry]
         /\ audit_booking entry = instance_id booking
         /\ audit_action entry = "booking_rescheduled"%string
         /\ audit_actor_type entry = "invitee"%string.
Proof.
  intros booking new_start_time ip_address user_agent fuel db errors booking' db' Hlen.
  unfold handle_booking_rescheduling.
  destruct (can_be_rescheduled booking) eqn:Hcan; cbn [negb]; [|discriminate].
  fold (rescheduling_calculator booking).
  destruct (get_available_slots pytz_known timeout (rescheduling_calculator booking)
              (Py.date_of new_start_time) (Py.date_of new_start_time)
              (instance_attendee_count booking) false fuel (db_world db))
    as [[r|x|] w1] eqn:Hrun; [|discriminate|discriminate].
  destruct (existsb (fun slot => start_time slot =? new_start_time) (slots r)) eqn:Hex;
    cbn [negb]; [|discriminate].
  destruct (Py.add_minutes new_start_time (duration (instance_event_type booking)))
    as [new_end_time|x|] eqn:Hend; [|discriminate|discriminate].
  apply add_minutes_ret in Hend. destruct Hend as [-> _].
  unfold timezone_now, booking_save, create_booking_audit_log.
  cbn [db_world booking_ids set_world instance_id].
  pose proof (save_row_stored (instance_id booking)
                (row_of {| instance_id := instance_id booking;
                           instance_organizer := instance_organizer booking;
                           instance_event_type := instance_event_type booking;
                           instance_status := "rescheduled";
                           instance_start_time := new_start_time;
                           instance_end_time :=
                             new_start_time + duration (instance_event_type booking);
                           instance_attendee_count := instance_attendee_count booking;
                           invitee_timezone_name := invitee_timezone_name booking;
                           invitee_email := invitee_email booking;
                           invitee_name := invitee_name booking;
                           rescheduled_at := Some (clock w1 (ticks w1));
                           can_be_rescheduled := true |})
                (booking_ids db) (booking_table (db_world db)) Hlen) as Hstored.
  destruct (fresh_availability pytz_known timeout (rescheduling_calculator booking)
              (Py.date_of new_start_time) (Py.date_of new_start_time)
              (instance_attendee_count booking) fuel (db_world db))
    as [Hout|(r0 & w0 & Hrun0 & (Hb & _) & _)].
  { rewrite Hrun in Hout. discriminate. }
  rewrite Hrun in Hrun0. injection Hrun0 as <- <-.
  cbn [booking_table]. rewrite Hb.
  destruct (save_row _ _ (booking_ids db) (booking_table (db_world db)))
    as [ids' rows'] eqn:Hsave.
  cbn [fst snd] in Hstored.
  intros H. injection H as <- <- <-.
  split; [reflexivity|]. split; [reflexivity|]. split.
  { exists r, w1. split; [reflexivity|].
    apply existsb_exists in Hex. destruct Hex as (slot & Hs & He).
    apply Z.eqb_eq in He. rewrite <- He. apply in_map. exact Hs. }
  cbn. repeat split; try reflexivity.
  - exact Hstored.
  - eexists. split; [reflexivity|]. repeat split.
Qed.

(** X21. A rescheduling that is refused, or that fails before the booking
    is touched, changes nothing.  When [can_be_rescheduled()] is false the
    function hands back the booking and the database as they were.  When the
    fresh query for the date of the new start offers no slot that starts at
    the new start, or when the new end leaves the calendar, the booking is
    handed back as it was and the booking table, its keys, the audit log
    and the cache are as before; the messages are those of the source. *)
Theorem refused_rescheduling_changes_nothing :
  forall (booking : BookingInstance) (new_start_time : Py.datetime)
         (ip_address user_agent : string) (fuel : nat) (db : Database),
    (can_be_rescheduled booking = false ->
     handle_booking_rescheduling pytz_known timeout isoformat isoformat_instant
       str_datetime str_exn booking new_start_time ip_address user_agent fuel db
     = Ret ((false, ["Booking cannot be rescheduled at this time"%string]), booking, db))
    /\ (forall (r : AvailabilityResult) (w1 : World),
          can_be_rescheduled booking = true ->
          get_available_slots pytz_known timeout (rescheduling_calculator booking)
            (Py.date_of new_start_time) (Py.date_of new_start_time)
            (instance_attendee_count booking) false fuel (db_world db) = (Ret r, w1) ->
          (forall slot, In slot (slots r) -> start_time slot <> new_start_time)
          \/ (exists e, Py.add_minutes new_start_time
                          (duration (instance_event_type booking)) = Raise e) ->
          exists message_ db',
            handle_booking_rescheduling pytz_known timeout isoformat isoformat_instant
              str_datetime str_exn booking new_start_time ip_address user_agent fuel db
            = Ret ((false, [message_]), booking, db')
            /\ ((forall slot, In slot (slots r) -> start_time slot <> new_start_time) ->
                message_ = "The requested time slot is not available"%string
                /\ rescheduling_errors db' = rescheduling_errors db)
            /\ booking_table (db_world db') = booking_table (db_world db)
            /\ booking_ids db' = booking_ids db
            /\ audit_table db' = audit_table db
            /\ cache_table (db_world db') = cache_table (db_world db)).
Proof.
  intros booking new_start_time ip_address user_agent fuel db. split.
  - intros Hcan. unfold handle_booking_rescheduling. rewrite Hcan. reflexivity.
  - intros r w1 Hcan Hrun Hwhy.
    destruct (fresh_availability pytz_known timeout (rescheduling_calculator booking)
                (Py.date_of new_start_time) (Py.date_of new_start_time)
                (instance_attendee_count booking) fuel (db_world db))
      as [Hout|(r' & w1' & Hrun' & (Hb & _) & Hc & _)].
    { rewrite Hrun in Hout. discriminate. }
    rewrite Hrun in Hrun'. injection Hrun' as <- <-.
    unfold handle_booking_rescheduling. rewrite Hcan. cbn [negb].
    fold (rescheduling_calculator booking). rewrite Hrun.
    destruct (existsb (fun slot => start_time slot =? new_start_time) (slots r))
      eqn:Hex; cbn [negb].
    + destruct Hwhy as [Hnone|[e He]].
      * exfalso. apply existsb_exists in Hex. destruct Hex as (slot & Hin & Heq).
        apply Z.eqb_eq in Heq. exact (Hnone slot Hin Heq).
      * rewrite He. eexists. eexists. split; [reflexivity|].
        split.
        { intros Hnone. exfalso. apply existsb_exists in Hex.
          destruct Hex as (slot & Hin & Heq). apply Z.eqb_eq in Heq.
          exact (Hnone slot Hin Heq). }
        cbn. repeat split; assumption.
    + eexists. eexists. split; [reflexivity|].
      split; [intros _; split; reflexivity|].
      cbn. repeat split; assumption.
Qed.

(** X22. A confirmed booking blocks its own rescheduling: for a
    single-attendee event type, a booking whose row is in the table with
    status 'confirmed' cannot be moved to a new start whose slot overlaps
    its present interval; the attempt fails, and when the booking can be
    rescheduled the message is that the time slot is not available. *)
Theorem confirmed_booking_blocks_its_own_rescheduling :
  forall (booking : BookingInstance) (new_start_time : Py.datetime)
         (ip_address user_agent : string) (fuel : nat) (db : Database)
         (outcome : bool * list string) (booking' : BookingInstance) (db' : Database),
    In (row_of booking) (booking_table (db_world db)) ->
    instance_status booking = "confirmed"%string ->
    is_group_event (instance_event_type booking) = false ->
    instance_start_time booking
    < new_start_time + duration (instance_event_type booking) ->
    new_start_time < instance_end_time booking ->
    handle_booking_rescheduling pytz_known timeout isoformat isoformat_instant
      str_datetime str_exn booking new_start_time ip_address user_agent fuel db
    = Ret (outcome, booking', db') ->
    fst outcome = false
    /\ (can_be_rescheduled booking = true ->
        snd outcome = ["The requested time slot is not available"%string]).
Proof.
  intros booking new_start_time ip_address user_agent fuel db outcome booking' db'
         Hin Hstatus Hsingle Hlo Hhi.
  unfold handle_booking_rescheduling.
  destruct (can_be_rescheduled booking); cbn [negb].
  2: { intros H. injection H as <- _ _. split; [reflexivity|discriminate]. }
  fold (rescheduling_calculator booking).
  destruct (fresh_availability pytz_known timeout (rescheduling_calculator booking)
              (Py.date_of new_start_time) (Py.date_of new_start_time)
              (instance_attendee_count booking) fuel (db_world db))
    as [Hout|(r & w1 & Hrun & _ & _ & Hmade)].
  { destruct (get_available_slots _ _ _ _ _ _ _ _ _) as [[r|x|] w1];
      cbn [fst] in Hout; discriminate. }
  rewrite Hrun.
  destruct (existsb (fun slot => start_time slot =? new_start_time) (slots r)) eqn:Hex;
    cbn [negb].
  2: { intros H. injection H as <- _ _. split; reflexivity. }
  exfalso. apply existsb_exists in Hex. destruct Hex as (slot & Hslot & Hstart).
  apply Z.eqb_eq in Hstart.
  pose proof (proj1 (Forall_forall _ _) Hmade slot Hslot) as (Ha & Hend & _).
  apply (single_available_iff (rescheduling_calculator booking) _ _ _ _ Hsingle)
    with (b := row_of booking) in Ha; [|exact Hin].
  apply Ha. unfold overlapping_confirmed. rewrite Hend, Hstart.
  cbn [row_of booking_status booking_organizer booking_start_time booking_end_time
       rescheduling_calculator organizer event_type].
  repeat split; [exact Hstatus|exact Hlo|lia].
Qed.

(** X23. A rescheduled booking does not hold its new slot: after a
    successful rescheduling for a single-attendee event type, the stored row
    of the booking has status 'rescheduled', which no availability query
    counts, and the very interval the booking was moved to is still found
    available. *)
Theorem rescheduled_booking_does_not_hold_its_slot :
  forall (booking : BookingInstance) (new_start_time : Py.datetime)
         (ip_address user_agent : string) (fuel : nat) (db : Database)
         (errors : list string) (booking' : BookingInstance) (db' : Database),
    is_group_event (instance_event_type booking) = false ->
    handle_booking_rescheduling pytz_known timeout isoformat isoformat_instant
      str_datetime str_exn booking new_start_time ip_address user_agent fuel db
    = Ret ((true, errors), booking', db') ->
    (forall candidate_start candidate_end,
        ~ In (row_of booking')
             (conflicting_bookings (rescheduling_calculator booking)
                candidate_start candidate_end (db_world db')))
    /\ _is_slot_available (rescheduling_calculator booking)
         (instance_start_time booking') (instance_end_time booking')
         (instance_attendee_count booking) (db_world db') = true.
Proof.
  intros booking new_start_time ip_address user_agent fuel db errors booking' db' Hsingle.
  unfold handle_booking_rescheduling.
  destruct (can_be_rescheduled booking) eqn:Hcan; cbn [negb]; [|discriminate].
  fold (rescheduling_calculator booking).
  destruct (fresh_availability pytz_known timeout (rescheduling_calculator booking)
              (Py.date_of new_start_time) (Py.date_of new_start_time)
              (instance_attendee_count booking) fuel (db_world db))
    as [Hout|(r & w1 & Hrun & (Hb & _) & _ & Hmade)].
  { destruct (get_available_slots _ _ _ _ _ _ _ _ _) as [[r|x|] w1];
      cbn [fst] in Hout; discriminate. }
  rewrite Hrun.
  destruct (existsb (fun slot => start_time slot =? new_start_time) (slots r)) eqn:Hex;
    cbn [negb]; [|discriminate].
  destruct (Py.add_minutes new_start_time (duration (instance_event_type booking)))
    as [new_end_time|x|] eqn:Hend; [|discriminate|discriminate].
  apply add_minutes_ret in Hend. destruct Hend as [-> _].
  unfold timezone_now, booking_save, create_booking_audit_log.
  cbn [db_world booking_ids set_world instance_id booking_table]. rewrite Hb.
  pose proof (save_row_rows (instance_id booking)
                (row_of {| instance_id := instance_id booking;
                           instance_organizer := instance_organizer booking;
                           instance_event_type := instance_event_type booking;
                           instance_status := "rescheduled";
                           instance_start_time := new_start_time;
                           instance_end_time :=
                             new_start_time + duration (instance_event_type booking);
                           instance_attendee_count := instance_attendee_count booking;
                           invitee_timezone_name := invitee_timezone_name booking;
                           invitee_email := invitee_email booking;
                           invitee_name := invitee_name booking;
                           rescheduled_at := Some (clock w1 (ticks w1));
                           can_be_rescheduled := true |})
                (booking_ids db) (booking_table (db_world db))) as Hrows.
  destruct (save_row _ _ (booking_ids db) (booking_table (db_world db)))
    as [ids' rows'] eqn:Hsave.
  cbn [snd] in Hrows.
  intros H. injection H as _ <- <-.
  cbn [db_world booking_table set_booking_table instance_start_time instance_end_time].
  split.
  - intros candidate_start candidate_end Hc.
    unfold conflicting_bookings in Hc. apply filter_In in Hc. destruct Hc as [_ Hc].
    rewrite !andb_true_iff in Hc. destruct Hc as [[[_ Hc] _] _].
    cbn in Hc. discriminate.
  - apply existsb_exists in Hex. destruct Hex as (slot & Hslot & Hstart).
    apply Z.eqb_eq in Hstart.
    pose proof (proj1 (Forall_forall _ _) Hmade slot Hslot) as (Ha & Hend & _).
    rewrite Hend, Hstart in Ha.
    pose proof (proj1 (single_available_iff (rescheduling_calculator booking)
                         _ _ _ _ Hsingle) Ha) as Hfree.
    apply (single_available_iff (rescheduling_calculator booking) _ _ _ _ Hsingle).
    cbn [booking_table set_booking_table]. intros b Hbin.
    destruct (Hrows b Hbin) as [Hold| ->]; [exact (Hfree b Hold)|].
    intros (Hst & _). cbn in Hst. discriminate.
Qed.

End ReschedulingFacts.

Lemma rescheduling_outcome (new_start_time : Py.datetime) (fuel : nat) (ok : bool) :
  match ReschedulingScenario.reschedule new_start_time fuel with
  | Ret ((ok', _), _, _) => ok'
  | _ => negb ok
  end = ok ->
  exists errors booking' db',
    handle_booking_rescheduling Scenario.all_zones None
      ReschedulingScenario.printed ReschedulingScenario.printed
      ReschedulingScenario.printed ReschedulingScenario.message
      ReschedulingScenario.booked new_start_time EmptyString EmptyString fuel
      ReschedulingScenario.database
    = Ret ((ok, errors), booking', db').
Proof.
  unfold ReschedulingScenario.reschedule.
  destruct (handle_booking_rescheduling _ _ _ _ _ _ _ _ _ _ _ _)
    as [[[[ok' errors] booking'] db']|x|]; intros H.
  - subst ok'. exists errors, booking', db'. reflexivity.
  - destruct ok; discriminate.
  - destruct ok; discriminate.
Qed.

Lemma rescheduling_success_witness :
  exists booking' db',
    instance_start_time booking' = Scenario.at_ Scenario.day 14 0
    /\ instance_end_time booking' = Scenario.at_ Scenario.day 14 0 + 30
    /\ instance_status booking' = "rescheduled"%string
    /\ stored_row 77 (booking_ids db') (booking_table (db_world db'))
       = Some (row_of booking')
    /\ length (audit_table db') = 1%nat.
Proof.
  destruct (rescheduling_outcome (Scenario.at_ Scenario.day 14 0) 17 true eq_refl)
    as (errors & booking' & db' & Hrun).
  destruct (rescheduling_success _ _ _ _ _ _ _ _ _ _ _ ReschedulingScenario.database
              _ _ _ eq_refl Hrun)
    as (_ & _ & _ & Hs & He & Hst & _ & _ & Hrow & entry & Ha & _).
  exists booking', db'. rewrite Ha. repeat split; assumption.
Defined.

(** Moving the booking of 10:00 to 18:00, after the working hours: no slot
    starts there. *)
Lemma refused_rescheduling_changes_nothing_witness :
  exists db',
    ReschedulingScenario.reschedule (Scenario.at_ Scenario.day 18 0) 17
    = Ret ((false, ["The requested time slot is not available"%string]),
           ReschedulingScenario.booked, db')
    /\ booking_table (db_world db')
       = booking_table (db_world ReschedulingScenario.database)
    /\ audit_table db' = [].
Proof.
  destruct (get_available_slots Scenario.all_zones None
              (rescheduling_calculator ReschedulingScenario.booked)
              (Py.date_of (Scenario.at_ Scenario.day 18 0))
              (Py.date_of (Scenario.at_ Scenario.day 18 0))
              (instance_attendee_count ReschedulingScenario.booked) false 17
              (db_world ReschedulingScenario.database)) as [o w1] eqn:Hrun.
  assert (exists r, o = Ret r
                    /\ forallb (fun slot => negb (start_time slot
                                                  =? Scenario.at_ Scenario.day 18 0))
                         (slots r) = true) as (r & -> & Hnone).
  { apply (f_equal fst) in Hrun. cbn [fst] in Hrun. vm_compute in Hrun. subst o.
    eexists. split; [reflexivity|]. vm_compute. reflexivity. }
  destruct (proj2 (refused_rescheduling_changes_nothing Scenario.all_zones None
                     ReschedulingScenario.printed ReschedulingScenario.printed
                     ReschedulingScenario.printed ReschedulingScenario.message
                     ReschedulingScenario.booked (Scenario.at_ Scenario.day 18 0)
                     EmptyString EmptyString 17%nat ReschedulingScenario.database)
              r w1 eq_refl Hrun)
    as (message_ & db' & Hcall & Hmsg & Ht & _ & Ha & _).
  { left. intros slot Hin Heq.
    pose proof (proj1 (forallb_forall _ _) Hnone slot Hin) as H.
    cbv beta in H. rewrite Heq, Z.eqb_refl in H. discriminate. }
  assert (forall slot, In slot (slots r)
                       -> start_time slot <> Scenario.at_ Scenario.day 18 0) as Hfree.
  { intros slot Hin Heq.
    pose proof (proj1 (forallb_forall _ _) Hnone slot Hin) as H.
    cbv beta in H. rewrite Heq, Z.eqb_refl in H. discriminate. }
  destruct (Hmsg Hfree) as [-> _].
  exists db'. split; [exact Hcall|]. split; assumption.
Defined.

Lemma confirmed_booking_blocks_its_own_rescheduling_witness :
  exists outcome booking' db',
    ReschedulingScenario.reschedule (Scenario.at_ Scenario.day 10 0) 17
    = Ret (outcome, booking', db')
    /\ fst outcome = false
    /\ snd outcome = ["The requested time slot is not available"%string].
Proof.
  destruct (rescheduling_outcome (Scenario.at_ Scenario.day 10 0) 17 false eq_refl)
    as (errors & booking' & db' & Hrun).
  exists (false, errors), booking', db'. split; [exact Hrun|].
  assert (In (row_of ReschedulingScenario.booked)
             (booking_table (db_world ReschedulingScenario.database))) as Hin
      by (left; reflexivity).
  destruct (confirmed_booking_blocks_its_own_rescheduling _ _ _ _ _ _
              ReschedulingScenario.booked (Scenario.at_ Scenario.day 10 0) _ _ _
              ReschedulingScenario.database _ _ _
              Hin eq_refl eq_refl eq_refl eq_refl Hrun) as [Hf Hm].
  split; [exact Hf|exact (Hm eq_refl)].
Defined.

Lemma rescheduled_booking_does_not_hold_its_slot_witness :
  exists errors booking' db',
    ReschedulingScenario.reschedule (Scenario.at_ Scenario.day 14 0) 17
    = Ret ((true, errors), booking', db')
    /\ _is_slot_available (rescheduling_calculator ReschedulingScenario.booked)
         (instance_start_time booking') (instance_end_time booking') 1 (db_world db')
       = true.
Proof.
  destruct (rescheduling_outcome (Scenario.at_ Scenario.day 14 0) 17 true eq_refl)
    as (errors & booking' & db' & Hrun).
  destruct (rescheduled_booking_does_not_hold_its_slot _ _ _ _ _ _
              ReschedulingScenario.booked _ _ _ _ _ _ _ _ eq_refl Hrun) as [_ Ha].
  exists errors, booking', db'. split; [exact Hrun|exact Ha].
Defined.
